(** * Echo-mmunity: data-access and workflow layer

    A shallow embedding of the service layer ([storageService]) and of the
    view-controller logic of [App.tsx] (derived analytics, attendance trend
    sampling, role promotion and demotion, workshop registration, likes and
    award issuance), together with the properties the specification states
    about them, and further properties of the remaining handlers, of the
    read and write operations as the screens observe them, and of the
    assistant ([geminiService]).

    Conventions.
    - Every TypeScript interface of [types.ts] is a record in a module of
      the same name, with the field names of the source ([User.role],
      [Workshop.participants], ...).  Optional fields are [option]s.
    - Every backend table is a module holding a [row] record with the
      column names of the store ([profiles.officer_org], ...).
    - Asynchronous code runs in the monad [M]: a computation takes the
      world (tables, session, pending backend faults, wall clock, the
      answers the person at the screen gives to [confirm]) and either
      resolves to a value or rejects with an error, leaving a trace of
      the requests it sent and of the UI effects it caused. *)

From Stdlib Require Import ZArith QArith Lqa String List Permutation Sorted.
From stdpp Require Import base decidable option list strings gmap pretty.

Open Scope string_scope.
Open Scope nat_scope.
Open Scope list_scope.

(** ** types.ts *)

Inductive Role := MEMBER | ADMIN | OFFICER.
Inductive Organization := CES | TCC | ICSO | GENERAL.
Inductive NotificationType := INFO | SUCCESS | WARNING.

#[global] Instance Role_eq_dec : EqDecision Role.
Proof. solve_decision. Defined.
#[global] Instance Organization_eq_dec : EqDecision Organization.
Proof. solve_decision. Defined.
#[global] Instance NotificationType_eq_dec : EqDecision NotificationType.
Proof. solve_decision. Defined.

Module Notification.
Record t := mk {
  id : string;
  title : string;
  message : string;
  type : NotificationType;
  read : bool;
  createdAt : string }.
End Notification.

Module Badge.
Record t := mk {
  id : string;
  title : string;
  issuedAt : string;
  organization : Organization;
  workshopTitle : string;
  imageUrl : option string }.
End Badge.

Module Certificate.
Record t := mk {
  id : string;
  title : string;
  issuedAt : string;
  organization : Organization;
  workshopTitle : string;
  content : string;
  fileUrl : option string }.
End Certificate.

Module User.
Record t := mk {
  id : string;
  name : string;
  email : string;
  role : Role;
  officerOrg : option Organization;   (* Only if role is OFFICER *)
  avatarUrl : option string;
  createdAt : string;
  badges : list Badge.t;
  certificates : list Certificate.t;
  notifications : list Notification.t }.
End User.

Module Comment.
Record t := mk {
  id : string;
  userId : string;
  userName : string;
  userAvatar : option string;
  content : string;
  createdAt : string }.
End Comment.

Module Participant.
Record t := mk {
  id : string;
  name : string;
  email : string;
  avatarUrl : option string }.
End Participant.

Module Workshop.
Record t := mk {
  id : string;
  title : string;
  description : string;
  date : string;                      (* ISO String *)
  organization : Organization;
  bannerUrl : option string;
  badgeUrl : option string;
  certificateUrl : option string;
  limit : nat;                        (* 0 means unlimited *)
  participants : list Participant.t;
  comments : list Comment.t }.
End Workshop.

Module AnnouncementComment.
Record t := mk {
  id : string;
  userId : string;
  userName : string;
  userAvatar : option string;
  content : string;
  createdAt : string }.
End AnnouncementComment.

Module Announcement.
Record t := mk {
  id : string;
  title : string;
  content : string;
  imageUrl : option string;
  organization : Organization;
  authorId : string;
  authorName : string;
  authorRole : Role;
  authorAvatar : option string;
  likes : list string;                (* Array of user IDs *)
  comments : list AnnouncementComment.t;
  createdAt : string }.
End Announcement.

(** Define View type for routing and view management *)
Inductive View :=
| LOGIN | SIGNUP | DASHBOARD | WORKSHOPS | WORKSHOP_DETAIL | ANALYTICS
| ADMIN_USERS | PROFILE | ORG_DASHBOARD.

(** ** The JavaScript runtime the code relies on *)

(** [Date]: [Date_parse s] is [new Date(s).getTime()] in milliseconds,
    [None] standing for [NaN] (an unparsable string);
    [Date_toISOString] is [new Date(ms).toISOString()]. *)
Class DateApi := {
  Date_parse : string → option Z;
  Date_toISOString : Z → string }.

(** [Array.prototype.sort] with a comparator: the sort is stable, and an
    element [x] stays in front of [y] when [cmp x y <= 0]. *)
Fixpoint sort_insert {A} (cmp : A → A → Z) (x : A) (l : list A) : list A :=
  match l with
  | [] => [x]
  | y :: l' => if (cmp x y <=? 0)%Z then x :: l else y :: sort_insert cmp x l'
  end.

Definition Array_sort {A} (cmp : A → A → Z) (l : list A) : list A :=
  foldr (sort_insert cmp) [] l.

(** [arr.slice(-n)]: the last [n] elements (all of them when there are
    fewer). *)
Definition slice_last {A} (n : nat) (l : list A) : list A :=
  drop (length l - n) l.

(** [Math.max(...l)] on counts; every call site passes at least one
    argument. *)
Definition Math_max (l : list nat) : nat := foldr Nat.max 0 l.

(** A JavaScript subtraction of two numbers either of which may be
    [NaN]; a comparator that returns [NaN] is read as [+0] by [sort]. *)
Definition nan_sub (a b : option Z) : Z :=
  match a, b with
  | Some x, Some y => (x - y)%Z
  | _, _ => 0%Z
  end.

(** ** App.tsx: derived analytics *)

Module OrgStat.
Record t := mk {
  name : Organization;
  workshops : nat;
  announcements : nat;
  participants : nat;
  score : nat }.
End OrgStat.

Module AnalyticsData.
Record t := mk {
  perOrg : list OrgStat.t;
  mostActive : option OrgStat.t;
  totalAwards : nat;
  newMembers : nat }.
End AnalyticsData.

Definition orgs : list Organization := [CES; TCC; ICSO; GENERAL].

Definition perOrgEntry (workshops : list Workshop.t)
    (announcements : list Announcement.t) (org : Organization) : OrgStat.t :=
  let orgW := filter (λ w, Workshop.organization w = org) workshops in
  let orgA := filter (λ a, Announcement.organization a = org) announcements in
  let totalParts :=
    foldl (λ acc w, acc + length (Workshop.participants w)) 0 orgW in
  let engagementScore := (length orgW * 5) + (length orgA * 2) + (totalParts * 1) in
  OrgStat.mk org (length orgW) (length orgA) totalParts engagementScore.

Definition byScoreDesc (a b : OrgStat.t) : Z :=
  (Z.of_nat (OrgStat.score b) - Z.of_nat (OrgStat.score a))%Z.

(** [new Date(createdAt) > thirtyDaysAgo]; a comparison with [NaN] is
    false. *)
Definition createdAfter `{DateApi} (thirtyDaysAgo : Z) (createdAt : string) : bool :=
  match Date_parse createdAt with
  | Some t => (thirtyDaysAgo <? t)%Z
  | None => false
  end.

(** [thirtyDaysAgo] is the instant the source obtains from the wall clock
    with [setDate(getDate() - 30)]. *)
Definition analyticsData `{DateApi} (thirtyDaysAgo : Z)
    (workshops : list Workshop.t) (announcements : list Announcement.t)
    (users : list User.t) : AnalyticsData.t :=
  let perOrg := map (perOrgEntry workshops announcements) orgs in
  let mostActive := head (Array_sort byScoreDesc perOrg) in
  let totalAwards :=
    foldl (λ acc u, acc + length (User.badges u) + length (User.certificates u))
          0 users in
  let newMembersCount :=
    length (filter (λ u, createdAfter thirtyDaysAgo (User.createdAt u) = true)
                   users) in
  AnalyticsData.mk perOrg mostActive totalAwards newMembersCount.

(** The "Rankings" panel renders [analyticsData.perOrg.sort(...)]. *)
Definition rankings (d : AnalyticsData.t) : list OrgStat.t :=
  Array_sort byScoreDesc (AnalyticsData.perOrg d).

(** ** App.tsx: AttendanceTrendChart *)

Module ChartPoint.
Record t := mk {
  x : Q;
  y : Q;
  title : string;
  count : nat;
  org : Organization }.
End ChartPoint.

Module ChartData.
Record t := mk {
  points : list ChartPoint.t;
  width : Z;
  height : Z;
  padding : Z;
  maxAttendance : nat }.
End ChartData.

Definition byDateAsc `{DateApi} (a b : Workshop.t) : Z :=
  nan_sub (Date_parse (Workshop.date a)) (Date_parse (Workshop.date b)).

Definition Qnat (n : nat) : Q := inject_Z (Z.of_nat n).

(** [chartData] of the component; [None] is the source's [null], which
    the component renders as "Not enough data to generate trends."  The
    two SVG path strings are left out: they only print the points.
    Coordinates are exact rationals where the source has doubles. *)
Definition chartData `{DateApi} (workshops : list Workshop.t) : option ChartData.t :=
  let sorted := Array_sort byDateAsc workshops in
  let recent := slice_last 8 sorted in
  if decide (length recent < 2) then None else
  let maxAttendance :=
    Math_max (map (λ w, length (Workshop.participants w)) recent ++ [5]) in
  let height := 200%Z in
  let width := 600%Z in
  let padding := 40%Z in
  let points := imap (λ i w,
    let x := (inject_Z padding
              + (Qnat i * inject_Z (width - 2 * padding))
                / Qnat (length recent - 1))%Q in
    let y := (inject_Z height - inject_Z padding
              - (Qnat (length (Workshop.participants w)) / Qnat maxAttendance)
                * inject_Z (height - 2 * padding))%Q in
    ChartPoint.mk x y (Workshop.title w) (length (Workshop.participants w))
                  (Workshop.organization w)) recent in
  Some (ChartData.mk points width height padding maxAttendance).

(** [arr.find(p)] and [arr.some(p)]. *)
Definition Array_find {A} (P : A → Prop) `{∀ x, Decision (P x)}
    (l : list A) : option A :=
  snd <$> list_find P l.

Definition Array_some {A} (P : A → Prop) `{∀ x, Decision (P x)}
    (l : list A) : bool :=
  bool_decide (Exists P l).

(** Values that are thrown or come back in the [error] field of a reply:
    a bare string, or an object that may carry [message] and
    [error_description]; [json] is its [JSON.stringify]. *)
Inductive JsError :=
| ErrString (s : string)
| ErrObject (message error_description : option string) (json : string).

(** A property read in a condition: absent and empty strings are falsy. *)
Definition truthy (s : option string) : option string :=
  match s with
  | Some v => if decide (v = EmptyString) then None else Some v
  | None => None
  end.

Definition formatError (err : JsError) : string :=
  match err with
  | ErrString s => s
  | ErrObject message error_description json =>
      match truthy message with
      | Some m => m
      | None =>
          match truthy error_description with
          | Some d => d
          | None => json
          end
      end
  end.

(** ** The hosted store: tables *)

Module profiles.
Record row := mk {
  id : string;
  name : string;
  email : string;
  role : Role;
  officer_org : option Organization;
  avatar_url : option string;
  created_at : string }.
End profiles.

Module badges.
Record row := mk {
  id : string;
  user_id : string;
  title : string;
  organization : Organization;
  workshop_title : string;
  issued_at : string;
  image_url : option string }.
End badges.

Module certificates.
Record row := mk {
  id : string;
  user_id : string;
  title : string;
  organization : Organization;
  workshop_title : string;
  content : string;
  issued_at : string;
  file_url : option string }.
End certificates.

Module notifications.
Record row := mk {
  id : string;
  user_id : string;
  title : string;
  message : string;
  type : NotificationType;
  is_read : bool;
  created_at : string }.
End notifications.

Module workshops.
Record row := mk {
  id : string;
  title : string;
  description : string;
  date : string;
  organization : Organization;
  banner_url : option string;
  badge_url : option string;
  certificate_url : option string;
  participant_limit : option nat }.
End workshops.

Module workshop_participants.
Record row := mk {
  workshop_id : string;
  user_id : string }.
End workshop_participants.

Module comments.
Record row := mk {
  id : string;
  workshop_id : string;
  user_id : string;
  content : string;
  created_at : string }.
End comments.

Module announcements.
Record row := mk {
  id : string;
  title : string;
  content : string;
  image_url : option string;
  organization : Organization;
  author_id : string;
  author_role : Role;
  created_at : string }.
End announcements.

Module announcement_comments.
Record row := mk {
  id : string;
  announcement_id : string;
  user_id : string;
  content : string;
  created_at : string }.
End announcement_comments.

Module announcement_likes.
Record row := mk {
  announcement_id : string;
  user_id : string }.
End announcement_likes.

Record DB := mkDB {
  t_profiles : list profiles.row;
  t_badges : list badges.row;
  t_certificates : list certificates.row;
  t_notifications : list notifications.row;
  t_workshops : list workshops.row;
  t_workshop_participants : list workshop_participants.row;
  t_comments : list comments.row;
  t_announcements : list announcements.row;
  t_announcement_comments : list announcement_comments.row;
  t_announcement_likes : list announcement_likes.row;
  t_serial : nat                     (* source of generated row ids *) }.

(** ** Requests of the client

    One constructor per query the service layer builds.  Inserts carry
    the columns the client sends; the store adds [id] and [created_at]. *)
Inductive Request :=
| auth_getSession
| select_profile (id : string)
| select_profiles
| select_badges (user_id : string)
| select_certificates (user_id : string)
| select_notifications (user_id : string)
| select_workshops
| select_announcements (org : option Organization)
| update_profile (id name email : string) (role : Role)
    (officer_org : option Organization) (avatar_url : option string)
| insert_workshop (title description date : string) (organization : Organization)
    (banner_url badge_url certificate_url : option string) (participant_limit : nat)
| update_workshop (id title description date : string) (organization : Organization)
    (banner_url badge_url certificate_url : option string) (participant_limit : nat)
| delete_workshop (id : string)
| insert_workshop_participant (workshop_id user_id : string)
| delete_workshop_participant (workshop_id user_id : string)
| insert_announcement (title content : string) (image_url : option string)
    (organization : Organization) (author_id : string) (author_role : Role)
| update_announcement (id title content : string) (image_url : option string)
    (organization : Organization)
| delete_announcement (id : string)
| delete_announcement_like (announcement_id user_id : string)
| insert_announcement_like (announcement_id user_id : string)
| insert_announcement_comment (announcement_id user_id content : string)
| insert_comment (workshop_id user_id content : string)
| insert_notification (user_id title message : string) (type : NotificationType)
    (is_read : bool)
| update_notification_read (id : string)
| update_notifications_read (user_id : string)
| insert_badge (user_id title : string) (organization : Organization)
    (workshop_title issued_at : string) (image_url : option string)
| insert_certificate (user_id title : string) (organization : Organization)
    (workshop_title content issued_at : string) (file_url : option string)
| delete_badges (user_id workshop_title : string)
| delete_certificates (user_id workshop_title : string).

Definition fresh_id (db : DB) : string := "row-" +:+ pretty (t_serial db).

(** What a request that the store accepts does to the tables; [stamp] is
    the store's clock for [created_at].  Reads change nothing.  Table
    constraints (uniqueness, foreign keys, cascades) are declared outside
    the repository and are not assumed. *)
Definition apply_request (stamp : string) (r : Request) (db : DB) : DB :=
  match r with
  | update_profile id name email role officer_org avatar_url =>
      mkDB (map (λ p, if decide (profiles.id p = id)
                      then profiles.mk id name email role officer_org avatar_url
                                       (profiles.created_at p)
                      else p) (t_profiles db))
           (t_badges db) (t_certificates db) (t_notifications db) (t_workshops db)
           (t_workshop_participants db) (t_comments db) (t_announcements db)
           (t_announcement_comments db) (t_announcement_likes db) (t_serial db)
  | insert_workshop title description date organization banner badge cert lim =>
      mkDB (t_profiles db) (t_badges db) (t_certificates db) (t_notifications db)
           (t_workshops db ++ [workshops.mk (fresh_id db) title description date
                                 organization banner badge cert (Some lim)])
           (t_workshop_participants db) (t_comments db) (t_announcements db)
           (t_announcement_comments db) (t_announcement_likes db) (S (t_serial db))
  | update_workshop id title description date organization banner badge cert lim =>
      mkDB (t_profiles db) (t_badges db) (t_certificates db) (t_notifications db)
           (map (λ w, if decide (workshops.id w = id)
                      then workshops.mk id title description date organization
                                        banner badge cert (Some lim)
                      else w) (t_workshops db))
           (t_workshop_participants db) (t_comments db) (t_announcements db)
           (t_announcement_comments db) (t_announcement_likes db) (t_serial db)
  | delete_workshop id =>
      mkDB (t_profiles db) (t_badges db) (t_certificates db) (t_notifications db)
           (filter (λ w, workshops.id w ≠ id) (t_workshops db))
           (t_workshop_participants db) (t_comments db) (t_announcements db)
           (t_announcement_comments db) (t_announcement_likes db) (t_serial db)
  | insert_workshop_participant workshop_id user_id =>
      mkDB (t_profiles db) (t_badges db) (t_certificates db) (t_notifications db)
           (t_workshops db)
           (t_workshop_participants db ++ [workshop_participants.mk workshop_id user_id])
           (t_comments db) (t_announcements db)
           (t_announcement_comments db) (t_announcement_likes db) (t_serial db)
  | delete_workshop_participant workshop_id user_id =>
      mkDB (t_profiles db) (t_badges db) (t_certificates db) (t_notifications db)
           (t_workshops db)
           (filter (λ wp, ¬ (workshop_participants.workshop_id wp = workshop_id
                             ∧ workshop_participants.user_id wp = user_id))
                   (t_workshop_participants db))
           (t_comments db) (t_announcements db)
           (t_announcement_comments db) (t_announcement_likes db) (t_serial db)
  | insert_announcement title content image_url organization author_id author_role =>
      mkDB (t_profiles db) (t_badges db) (t_certificates db) (t_notifications db)
           (t_workshops db) (t_workshop_participants db) (t_comments db)
           (t_announcements db ++ [announcements.mk (fresh_id db) title content
                                     image_url organization author_id author_role stamp])
           (t_announcement_comments db) (t_announcement_likes db) (S (t_serial db))
  | update_announcement id title content image_url organization =>
      mkDB (t_profiles db) (t_badges db) (t_certificates db) (t_notifications db)
           (t_workshops db) (t_workshop_participants db) (t_comments db)
           (map (λ a, if decide (announcements.id a = id)
                      then announcements.mk id title content image_url organization
                             (announcements.author_id a) (announcements.author_role a)
                             (announcements.created_at a)
                      else a) (t_announcements db))
           (t_announcement_comments db) (t_announcement_likes db) (t_serial db)
  | delete_announcement id =>
      mkDB (t_profiles db) (t_badges db) (t_certificates db) (t_notifications db)
           (t_workshops db) (t_workshop_participants db) (t_comments db)
           (filter (λ a, announcements.id a ≠ id) (t_announcements db))
           (t_announcement_comments db) (t_announcement_likes db) (t_serial db)
  | delete_announcement_like announcement_id user_id =>
      mkDB (t_profiles db) (t_badges db) (t_certificates db) (t_notifications db)
           (t_workshops db) (t_workshop_participants db) (t_comments db)
           (t_announcements db) (t_announcement_comments db)
           (filter (λ l, ¬ (announcement_likes.announcement_id l = announcement_id
                            ∧ announcement_likes.user_id l = user_id))
                   (t_announcement_likes db))
           (t_serial db)
  | insert_announcement_like announcement_id user_id =>
      mkDB (t_profiles db) (t_badges db) (t_certificates db) (t_notifications db)
           (t_workshops db) (t_workshop_participants db) (t_comments db)
           (t_announcements db) (t_announcement_comments db)
           (t_announcement_likes db ++ [announcement_likes.mk announcement_id user_id])
           (t_serial db)
  | insert_announcement_comment announcement_id user_id content =>
      mkDB (t_profiles db) (t_badges db) (t_certificates db) (t_notifications db)
           (t_workshops db) (t_workshop_participants db) (t_comments db)
           (t_announcements db)
           (t_announcement_comments db ++
              [announcement_comments.mk (fresh_id db) announcement_id user_id content stamp])
           (t_announcement_likes db) (S (t_serial db))
  | insert_comment workshop_id user_id content =>
      mkDB (t_profiles db) (t_badges db) (t_certificates db) (t_notifications db)
           (t_workshops db) (t_workshop_participants db)
           (t_comments db ++ [comments.mk (fresh_id db) workshop_id user_id content stamp])
           (t_announcements db) (t_announcement_comments db)
           (t_announcement_likes db) (S (t_serial db))
  | insert_notification user_id title message type is_read =>
      mkDB (t_profiles db) (t_badges db) (t_certificates db)
           (t_notifications db ++
              [notifications.mk (fresh_id db) user_id title message type is_read stamp])
           (t_workshops db) (t_workshop_participants db) (t_comments db)
           (t_announcements db) (t_announcement_comments db)
           (t_announcement_likes db) (S (t_serial db))
  | update_notification_read id =>
      mkDB (t_profiles db) (t_badges db) (t_certificates db)
           (map (λ n, if decide (notifications.id n = id)
                      then notifications.mk (notifications.id n) (notifications.user_id n)
                             (notifications.title n) (notifications.message n)
                             (notifications.type n) true (notifications.created_at n)
                      else n) (t_notifications db))
           (t_workshops db) (t_workshop_participants db) (t_comments db)
           (t_announcements db) (t_announcement_comments db)
           (t_announcement_likes db) (t_serial db)
  | update_notifications_read user_id =>
      mkDB (t_profiles db) (t_badges db) (t_certificates db)
           (map (λ n, if decide (notifications.user_id n = user_id)
                      then notifications.mk (notifications.id n) (notifications.user_id n)
                             (notifications.title n) (notifications.message n)
                             (notifications.type n) true (notifications.created_at n)
                      else n) (t_notifications db))
           (t_workshops db) (t_workshop_participants db) (t_comments db)
           (t_announcements db) (t_announcement_comments db)
           (t_announcement_likes db) (t_serial db)
  | insert_badge user_id title organization workshop_title issued_at image_url =>
      mkDB (t_profiles db)
           (t_badges db ++ [badges.mk (fresh_id db) user_id title organization
                              workshop_title issued_at image_url])
           (t_certificates db) (t_notifications db)
           (t_workshops db) (t_workshop_participants db) (t_comments db)
           (t_announcements db) (t_announcement_comments db)
           (t_announcement_likes db) (S (t_serial db))
  | insert_certificate user_id title organization workshop_title content issued_at file_url =>
      mkDB (t_profiles db) (t_badges db)
           (t_certificates db ++ [certificates.mk (fresh_id db) user_id title organization
                                    workshop_title content issued_at file_url])
           (t_notifications db)
           (t_workshops db) (t_workshop_participants db) (t_comments db)
           (t_announcements db) (t_announcement_comments db)
           (t_announcement_likes db) (S (t_serial db))
  | delete_badges user_id workshop_title =>
      mkDB (t_profiles db)
           (filter (λ b, ¬ (badges.user_id b = user_id
                            ∧ badges.workshop_title b = workshop_title))
                   (t_badges db))
           (t_certificates db) (t_notifications db)
           (t_workshops db) (t_workshop_participants db) (t_comments db)
           (t_announcements db) (t_announcement_comments db)
           (t_announcement_likes db) (t_serial db)
  | delete_certificates user_id workshop_title =>
      mkDB (t_profiles db) (t_badges db)
           (filter (λ c, ¬ (certificates.user_id c = user_id
                            ∧ certificates.workshop_title c = workshop_title))
                   (t_certificates db))
           (t_notifications db)
           (t_workshops db) (t_workshop_participants db) (t_comments db)
           (t_announcements db) (t_announcement_comments db)
           (t_announcement_likes db) (t_serial db)
  | _ => db
  end.

(** ** The world and the monad of asynchronous code *)

(** How a request can fail: the client resolves with the [error] field
    set (the only thing the service layer ever tests), or the awaited
    promise rejects. *)
Inductive Failure :=
| error_reply (e : JsError)
| rejection (e : JsError).

Inductive Event :=
| Sent (r : Request)
| alert (msg : string)
| console_warn (msg : string)
| console_error (msg : string)
| setDataTick
| setSelectedParticipants (ids : list string)
| setIsBulkIssuing (b : bool)
| setIsEditingProfile (b : bool).

Record World := mkWorld {
  w_db : DB;
  w_session : option string;          (* user id of the auth session *)
  w_faults : list (option Failure);   (* fate of the next requests; none left: all succeed *)
  w_now : Z;                          (* wall clock, milliseconds *)
  w_confirm : string → bool;          (* answers given to window.confirm *)
  w_trace : list Event                (* oldest first *) }.

Inductive Outcome (A : Type) :=
| Resolved (a : A)
| Rejected (e : JsError).
Arguments Resolved {A} a.
Arguments Rejected {A} e.

Definition M (A : Type) : Type := World → Outcome A * World.

#[global] Instance M_ret : MRet M := λ A a w, (Resolved a, w).

#[global] Instance M_bind : MBind M := λ A B f m w,
  match m w with
  | (Resolved a, w') => f a w'
  | (Rejected e, w') => (Rejected e, w')
  end.

Definition throw {A} (e : JsError) : M A := λ w, (Rejected e, w).

(** [try { m } catch (e) { h e }] *)
Definition try_catch {A} (m : M A) (h : JsError → M A) : M A := λ w,
  match m w with
  | (Resolved a, w') => (Resolved a, w')
  | (Rejected e, w') => h e w'
  end.

(** [try { m } finally { f }] *)
Definition try_finally {A} (m : M A) (f : M unit) : M A := λ w,
  match m w with
  | (o, w') =>
      match f w' with
      | (Resolved _, w'') => (o, w'')
      | (Rejected e, w'') => (Rejected e, w'')
      end
  end.

Definition emit (ev : Event) : M unit := λ w,
  (Resolved (),
   mkWorld (w_db w) (w_session w) (w_faults w) (w_now w) (w_confirm w)
           (w_trace w ++ [ev])).

Definition confirm (prompt : string) : M bool := λ w,
  (Resolved (w_confirm w prompt), w).

(** [new Date().toISOString()] *)
Definition now_ISOString `{DateApi} : M string := λ w,
  (Resolved (Date_toISOString (w_now w)), w).

Definition now_getTime : M Z := λ w, (Resolved (w_now w), w).

(** [Promise.all]: every promise of the array has been started, so each
    one runs to its end whether or not another one rejects; the
    combined promise rejects with a rejection of one of them.  The
    members are run one after the other here. *)
Definition settle {A} (m : M A) : M (Outcome A) := λ w,
  match m w with
  | (o, w') => (Resolved o, w')
  end.

Fixpoint settle_all {A} (ms : list (M A)) : M (list (Outcome A)) :=
  match ms with
  | [] => mret []
  | m :: ms' => o ← settle m; os ← settle_all ms'; mret (o :: os)
  end.

Fixpoint gather {A} (os : list (Outcome A)) : Outcome (list A) :=
  match os with
  | [] => Resolved []
  | Rejected e :: _ => Rejected e
  | Resolved a :: os' =>
      match gather os' with
      | Resolved l => Resolved (a :: l)
      | Rejected e => Rejected e
      end
  end.

Definition Promise_all {A} (ms : list (M A)) : M (list A) :=
  os ← settle_all ms;
  match gather os with
  | Resolved l => mret l
  | Rejected e => throw e
  end.

Definition Promise_all3 {A B C} (a : M A) (b : M B) (c : M C) : M (A * B * C) :=
  ra ← settle a; rb ← settle b; rc ← settle c;
  match ra, rb, rc with
  | Resolved x, Resolved y, Resolved z => mret (x, y, z)
  | Rejected e, _, _ => throw e
  | _, Rejected e, _ => throw e
  | _, _, Rejected e => throw e
  end.

(** ** supabaseClient *)

(** The [{ data, error }] object a query resolves to. *)
Record Response (T : Type) := mkResponse {
  data : option T;
  error : option JsError }.
Arguments mkResponse {T} data error.
Arguments data {T} r.
Arguments error {T} r.

Definition rows {T} (x : T) : Response T := mkResponse (Some x) None.

(** A write without [.select()] resolves with [data: null]. *)
Definition no_content : Response unit := mkResponse None None.

(** One awaited query: the request is sent, then the next pending fault
    decides.  Without a fault the store answers [answer] on the current
    tables and applies the request. *)
Definition supabase `{DateApi} {T} (r : Request) (answer : DB → Response T)
    : M (Response T) := λ w,
  let trace := w_trace w ++ [Sent r] in
  match w_faults w with
  | Some (rejection e) :: faults =>
      (Rejected e,
       mkWorld (w_db w) (w_session w) faults (w_now w) (w_confirm w) trace)
  | Some (error_reply e) :: faults =>
      (Resolved (mkResponse None (Some e)),
       mkWorld (w_db w) (w_session w) faults (w_now w) (w_confirm w) trace)
  | faults =>
      (Resolved (answer (w_db w)),
       mkWorld (apply_request (Date_toISOString (w_now w)) r (w_db w))
               (w_session w) (tail faults) (w_now w) (w_confirm w) trace)
  end.

(** [.single()]: exactly one row, else an error reply. *)
Definition single {T} (l : list T) : Response T :=
  match l with
  | [x] => rows x
  | _ => mkResponse None
           (Some (ErrObject (Some "JSON object requested, multiple (or no) rows returned")
                            None "PGRST116"))
  end.

Definition compare_strings (a b : string) : Z :=
  match String.compare a b with
  | Lt => (-1)%Z
  | Eq => 0%Z
  | Gt => 1%Z
  end.

Definition find_profile (db : DB) (id : string) : option profiles.row :=
  Array_find (λ p, profiles.id p = id) (t_profiles db).

(** Rows of [workshops] with the embedded resources of the select string
    of [getWorkshops]. *)
Module workshops_select.
Record row := mk {
  w : workshops.row;
  workshop_participants : list (option profiles.row);
  comments : list (comments.row * option profiles.row) }.
End workshops_select.

Definition answer_workshops (db : DB) : list workshops_select.row :=
  map (λ w,
    workshops_select.mk w
      (map (λ wp, find_profile db (workshop_participants.user_id wp))
           (filter (λ wp, workshop_participants.workshop_id wp = workshops.id w)
                   (t_workshop_participants db)))
      (map (λ c, (c, find_profile db (comments.user_id c)))
           (filter (λ c, comments.workshop_id c = workshops.id w) (t_comments db))))
    (t_workshops db).

(** Rows of [announcements] with the embedded resources of the select
    string of [getAnnouncements], newest first. *)
Module announcements_select.
Record row := mk {
  a : announcements.row;
  author : option profiles.row;                       (* profiles:author_id *)
  announcement_comments : list (announcement_comments.row * option profiles.row);
  announcement_likes : list announcement_likes.row }.
End announcements_select.

Definition answer_announcements (org : option Organization) (db : DB)
    : list announcements_select.row :=
  map (λ a,
    announcements_select.mk a
      (find_profile db (announcements.author_id a))
      (map (λ c, (c, find_profile db (announcement_comments.user_id c)))
           (filter (λ c, announcement_comments.announcement_id c = announcements.id a)
                   (t_announcement_comments db)))
      (filter (λ l, announcement_likes.announcement_id l = announcements.id a)
              (t_announcement_likes db)))
    (let ordered :=
       Array_sort (λ x y, compare_strings (announcements.created_at y)
                                          (announcements.created_at x))
                  (t_announcements db) in
     match org with
     | Some o => filter (λ a, announcements.organization a = o) ordered
     | None => ordered
     end).

(** [supabase.auth.getSession()]: the user id of the session, if any. *)
Definition getSession `{DateApi} : M (option string) := λ w,
  match supabase auth_getSession (λ _, rows ()) w with
  | (Resolved res, w') =>
      (Resolved (match data res with Some _ => w_session w' | None => None end), w')
  | (Rejected e, w') => (Rejected e, w')
  end.

(** ** services/storageService.ts *)

Definition or_Unknown (name : option string) : string :=
  default "Unknown" (truthy name).

Definition mapBadge (b : badges.row) : Badge.t :=
  Badge.mk (badges.id b) (badges.title b) (badges.issued_at b)
           (badges.organization b) (badges.workshop_title b) (badges.image_url b).

Definition mapCertificate (c : certificates.row) : Certificate.t :=
  Certificate.mk (certificates.id c) (certificates.title c) (certificates.issued_at c)
                 (certificates.organization c) (certificates.workshop_title c)
                 (certificates.content c) (certificates.file_url c).

Definition mapNotification (n : notifications.row) : Notification.t :=
  Notification.mk (notifications.id n) (notifications.title n) (notifications.message n)
                  (notifications.type n) (notifications.is_read n)
                  (notifications.created_at n).

Definition mapProfileToUser `{DateApi} (profile : profiles.row) : M User.t :=
  try_catch
    ('(badgesRes, certsRes, notifsRes) ← Promise_all3
        (supabase (select_badges (profiles.id profile))
           (λ db, rows (filter (λ b, badges.user_id b = profiles.id profile) (t_badges db))))
        (supabase (select_certificates (profiles.id profile))
           (λ db, rows (filter (λ c, certificates.user_id c = profiles.id profile)
                               (t_certificates db))))
        (supabase (select_notifications (profiles.id profile))
           (λ db, rows (filter (λ n, notifications.user_id n = profiles.id profile)
                               (t_notifications db))));
     mret (User.mk (profiles.id profile) (profiles.name profile) (profiles.email profile)
             (profiles.role profile) (profiles.officer_org profile)
             (profiles.avatar_url profile) (profiles.created_at profile)
             (map mapBadge (default [] (data badgesRes)))
             (map mapCertificate (default [] (data certsRes)))
             (map mapNotification (default [] (data notifsRes)))))
    (λ e,
     emit (console_warn "Secondary user data fetch failed:");;
     mret (User.mk (profiles.id profile) (profiles.name profile) (profiles.email profile)
             (profiles.role profile) (profiles.officer_org profile)
             (profiles.avatar_url profile) (profiles.created_at profile)
             [] [] [])).

Definition mapParticipant (p : profiles.row) : Participant.t :=
  Participant.mk (profiles.id p) (profiles.name p) (profiles.email p)
                 (profiles.avatar_url p).

Definition mapWorkshop (w : workshops_select.row) : Workshop.t :=
  let r := workshops_select.w w in
  Workshop.mk (workshops.id r) (workshops.title r) (workshops.description r)
    (workshops.date r) (workshops.organization r) (workshops.banner_url r)
    (workshops.badge_url r) (workshops.certificate_url r)
    (default 0 (workshops.participant_limit r))
    (map mapParticipant (omap id (workshops_select.workshop_participants w)))
    (map (λ '(c, p),
       Comment.mk (comments.id c) (comments.user_id c)
                  (or_Unknown (profiles.name <$> p))
                  (p ≫= profiles.avatar_url)
                  (comments.content c) (comments.created_at c))
       (workshops_select.comments w)).

Definition mapAnnouncement (a : announcements_select.row) : Announcement.t :=
  let r := announcements_select.a a in
  Announcement.mk (announcements.id r) (announcements.title r)
    (announcements.content r) (announcements.image_url r)
    (announcements.organization r) (announcements.author_id r)
    (or_Unknown (profiles.name <$> announcements_select.author a))
    (default MEMBER (profiles.role <$> announcements_select.author a))
    (announcements_select.author a ≫= profiles.avatar_url)
    (map announcement_likes.user_id (announcements_select.announcement_likes a))
    (map (λ '(c, p),
       AnnouncementComment.mk (announcement_comments.id c)
         (announcement_comments.user_id c)
         (or_Unknown (profiles.name <$> p))
         (p ≫= profiles.avatar_url)
         (announcement_comments.content c) (announcement_comments.created_at c))
       (announcements_select.announcement_comments a))
    (announcements.created_at r).

(** [x.map] on [null]. *)
Definition TypeError : JsError :=
  ErrObject (Some "Cannot read properties of null (reading 'map')") None "{}".

(** Arguments of the write operations: the properties the callers set. *)
Module WorkshopData.
Record t := mk {
  title : string;
  description : string;
  date : string;
  organization : Organization;
  limit : nat;
  bannerUrl : option string;
  badgeUrl : option string;
  certificateUrl : option string }.
End WorkshopData.

Module AnnouncementData.
Record t := mk {
  title : string;
  content : string;
  organization : Organization;
  imageUrl : option string;
  authorId : string;
  authorRole : option Role }.
End AnnouncementData.

Module BadgeData.
Record t := mk {
  userId : string;
  title : string;
  organization : Organization;
  workshopTitle : string;
  issuedAt : string;
  imageUrl : option string }.
End BadgeData.

Module CertificateData.
Record t := mk {
  userId : string;
  title : string;
  organization : Organization;
  workshopTitle : string;
  content : string;
  issuedAt : string;
  fileUrl : option string }.
End CertificateData.

(** [const { error } = await q; if (error) throw error;] *)
Definition throw_on_error `{DateApi} (r : Request) : M unit :=
  res ← supabase r (λ _, no_content);
  match error res with
  | Some e => throw e
  | None => mret ()
  end.

(** [await q;] with the reply dropped. *)
Definition ignore_reply `{DateApi} (r : Request) : M unit :=
  res ← supabase r (λ _, no_content);
  mret ().

Module storageService.
Section storageService.
Context `{DateApi}.

(** The source returns [mapProfileToUser(profile)] from inside its [try]
    without awaiting it; [mapProfileToUser] catches what it awaits, so
    nothing is lost by running it under the same handler. *)
Definition getCurrentUser : M (option User.t) :=
  try_catch
    (session ← getSession;
     match session with
     | None => mret None
     | Some uid =>
         res ← supabase (select_profile uid)
                 (λ db, single (filter (λ p, profiles.id p = uid) (t_profiles db)));
         match error res, data res with
         | None, Some profile => u ← mapProfileToUser profile; mret (Some u)
         | _, _ => mret None
         end
     end)
    (λ e, mret None).

Definition getUsers : M (list User.t) :=
  try_catch
    (res ← supabase select_profiles
             (λ db, rows (Array_sort (λ x y, compare_strings (profiles.name x)
                                                             (profiles.name y))
                                     (t_profiles db)));
     match error res with
     | Some e => throw e
     | None =>
         match data res with
         | Some profiles => Promise_all (map mapProfileToUser profiles)
         | None => throw TypeError
         end
     end)
    (λ e, mret []).

Definition saveUser (user : User.t) : M unit :=
  throw_on_error
    (update_profile (User.id user) (User.name user) (User.email user)
       (User.role user) (User.officerOrg user) (User.avatarUrl user)).

Definition getWorkshops : M (list Workshop.t) :=
  try_catch
    (res ← supabase select_workshops (λ db, rows (answer_workshops db));
     match error res with
     | Some e => throw e
     | None => mret (map mapWorkshop (default [] (data res)))
     end)
    (λ e, emit (console_warn "Workshops fetch failed:");; mret []).

Definition createWorkshop (workshop : WorkshopData.t) : M unit :=
  throw_on_error
    (insert_workshop (WorkshopData.title workshop) (WorkshopData.description workshop)
       (WorkshopData.date workshop) (WorkshopData.organization workshop)
       (WorkshopData.bannerUrl workshop) (WorkshopData.badgeUrl workshop)
       (WorkshopData.certificateUrl workshop) (WorkshopData.limit workshop)).

Definition updateWorkshop (id : string) (updates : WorkshopData.t) : M unit :=
  throw_on_error
    (update_workshop id (WorkshopData.title updates) (WorkshopData.description updates)
       (WorkshopData.date updates) (WorkshopData.organization updates)
       (WorkshopData.bannerUrl updates) (WorkshopData.badgeUrl updates)
       (WorkshopData.certificateUrl updates) (WorkshopData.limit updates)).

Definition deleteWorkshop (id : string) : M unit :=
  throw_on_error (delete_workshop id).

Definition joinWorkshop (workshopId userId : string) : M unit :=
  throw_on_error (insert_workshop_participant workshopId userId).

Definition removeParticipant (workshopId userId : string) : M unit :=
  throw_on_error (delete_workshop_participant workshopId userId).

Definition getAnnouncements (org : option Organization) : M (list Announcement.t) :=
  try_catch
    (res ← supabase (select_announcements org) (λ db, rows (answer_announcements org db));
     match error res with
     | Some e => throw e
     | None => mret (map mapAnnouncement (default [] (data res)))
     end)
    (λ e, emit (console_error "Supabase Announcements fetch failed:");; mret []).

Definition createAnnouncement (announcement : AnnouncementData.t) : M unit :=
  throw_on_error
    (insert_announcement (AnnouncementData.title announcement)
       (AnnouncementData.content announcement) (AnnouncementData.imageUrl announcement)
       (AnnouncementData.organization announcement)
       (AnnouncementData.authorId announcement)
       (default MEMBER (AnnouncementData.authorRole announcement))).

Definition updateAnnouncement (id : string) (updates : AnnouncementData.t) : M unit :=
  throw_on_error
    (update_announcement id (AnnouncementData.title updates)
       (AnnouncementData.content updates) (AnnouncementData.imageUrl updates)
       (AnnouncementData.organization updates)).

Definition deleteAnnouncement (id : string) : M unit :=
  throw_on_error (delete_announcement id).

Definition toggleAnnouncementLike (announcementId userId : string) (isLiked : bool)
    : M unit :=
  if isLiked
  then ignore_reply (delete_announcement_like announcementId userId)
  else ignore_reply (insert_announcement_like announcementId userId).

Definition addAnnouncementComment (announcementId userId content : string) : M unit :=
  ignore_reply (insert_announcement_comment announcementId userId content).

Definition addComment (workshopId userId content : string) : M unit :=
  ignore_reply (insert_comment workshopId userId content).

Definition sendNotification (userId title message : string) (type : NotificationType)
    : M unit :=
  ignore_reply (insert_notification userId title message type false).

Definition markNotificationRead (notifId : string) : M unit :=
  ignore_reply (update_notification_read notifId).

Definition markAllNotificationsRead (userId : string) : M unit :=
  ignore_reply (update_notifications_read userId).

Definition issueBadge (badge : BadgeData.t) : M unit :=
  ignore_reply
    (insert_badge (BadgeData.userId badge) (BadgeData.title badge)
       (BadgeData.organization badge) (BadgeData.workshopTitle badge)
       (BadgeData.issuedAt badge) (BadgeData.imageUrl badge)).

Definition issueCertificate (cert : CertificateData.t) : M unit :=
  ignore_reply
    (insert_certificate (CertificateData.userId cert) (CertificateData.title cert)
       (CertificateData.organization cert) (CertificateData.workshopTitle cert)
       (CertificateData.content cert) (CertificateData.issuedAt cert)
       (CertificateData.fileUrl cert)).

Definition revokeAwards (userId workshopTitle : string) : M unit :=
  ignore_reply (delete_badges userId workshopTitle);;
  ignore_reply (delete_certificates userId workshopTitle).

End storageService.
End storageService.

(** ** App.tsx: helpers and components around the view-controller *)

(** [new Error(message)]: [formatError] reads its [message]; an [Error]
    has no enumerable property, so it serialises to an empty object. *)
Definition Error (message : string) : JsError := ErrObject (Some message) None "{}".

(** What [new Date(NaN).toISOString()] throws; the message is the one
    of V8 and differs between engines. *)
Definition RangeError : JsError := Error "Invalid time value".

(** An optional organization inside a template literal. *)
Definition String_of (officerOrg : option Organization) : string :=
  match officerOrg with
  | Some o =>
      match o with CES => "CES" | TCC => "TCC" | ICSO => "ICSO" | GENERAL => "GENERAL" end
  | None => "undefined"
  end.

(** A JavaScript [Set] of strings, as the list of its members in
    insertion order. *)
Definition Set_has (x : string) (s : list string) : bool := bool_decide (x ∈ s).

Definition Set_delete (x : string) (s : list string) : list string :=
  filter (λ y, y ≠ x) s.

Definition Set_add (x : string) (s : list string) : list string :=
  if Set_has x s then s else s ++ [x].

(** [new Set(array)] *)
Definition Set_from (l : list string) : list string :=
  foldl (λ s x, Set_add x s) [] l.

(** [getRelativeTime]; [toLocaleDateString] is the short month-and-day
    rendering of the browser's locale, and [now] the wall clock.  An
    unparsable date fails every comparison and is printed by the locale
    rendering, which says "Invalid Date".  The divisions are exact on
    the range of [Date]. *)
Definition getRelativeTime `{DateApi} (toLocaleDateString : Z → string) (now : Z)
    (dateString : string) : string :=
  match Date_parse dateString with
  | None => "Invalid Date"
  | Some date =>
      let diff := (date - now)%Z in
      let absDiff := Z.abs diff in
      let days := (absDiff / (1000 * 60 * 60 * 24))%Z in
      if decide (days = 0%Z) then
        let isPast := bool_decide (diff < 0)%Z in
        let hours := (absDiff / (1000 * 60 * 60))%Z in
        if decide (hours = 0%Z)
        then (if isPast then "Just now" else "Starting soon")
        else (if isPast then pretty hours +:+ "h ago" else "In " +:+ pretty hours +:+ "h")
      else if decide (days = 1%Z) then
        (if bool_decide (diff < 0)%Z then "Yesterday" else "Tomorrow")
      else if decide (days < 7)%Z then
        (if bool_decide (diff < 0)%Z
         then pretty days +:+ "d ago" else "In " +:+ pretty days +:+ "d")
      else toLocaleDateString date
  end.

Module Navbar.
Definition unreadCount (notifications : list Notification.t) : nat :=
  length (filter (λ n, Notification.read n = false) notifications).
End Navbar.

Module NotificationDropdown.
Section NotificationDropdown.
Context `{DateApi}.

Definition byCreatedDesc (a b : Notification.t) : Z :=
  nan_sub (Date_parse (Notification.createdAt b)) (Date_parse (Notification.createdAt a)).

Definition sorted (notifications : list Notification.t) : list Notification.t :=
  Array_sort byCreatedDesc notifications.

(** Whether the "Mark All Read" button is rendered. *)
Definition showMarkAllRead (notifications : list Notification.t) : bool :=
  Array_some (λ n, Notification.read n = false) notifications.

End NotificationDropdown.
End NotificationDropdown.

Module AnnouncementCard.

Definition canDelete (user : option User.t) (announcement : Announcement.t) : bool :=
  bool_decide (User.role <$> user = Some ADMIN)
  || (bool_decide (User.role <$> user = Some OFFICER)
      && bool_decide (user ≫= User.officerOrg = Some (Announcement.organization announcement)))
  || bool_decide (User.id <$> user = Some (Announcement.authorId announcement)).

Definition canEdit (user : option User.t) (announcement : Announcement.t) : bool :=
  bool_decide (User.id <$> user = Some (Announcement.authorId announcement))
  || bool_decide (User.role <$> user = Some ADMIN).

End AnnouncementCard.

(** The state of the post dialog and the fields of its form.  [org] is
    [formData.get('org')], absent when the form submits no such field;
    [uploaded] is what [uploadImage] returned for the chosen image,
    absent when no file was chosen or the upload failed (the upload
    helper never throws). *)
Module PostDialog.
Record t := mk {
  isCreatingPost : bool;
  editingPost : option Announcement.t;
  isSavingPost : bool }.
End PostDialog.

Module PostForm.
Record t := mk {
  title : string;
  content : string;
  org : option Organization;
  uploaded : option string }.
End PostForm.

(** The workshop dialog and its form.  [limit] is [parseInt] of the
    seats field, absent for [NaN]; [banner], [badge] and [certificate]
    are the results of the three uploads, as for a post. *)
Module WorkshopDialog.
Record t := mk {
  isCreatingWorkshop : bool;
  editingWorkshop : option Workshop.t;
  isSavingWorkshop : bool }.
End WorkshopDialog.

Module WorkshopForm.
Record t := mk {
  title : string;
  desc : string;
  date : string;
  org : option Organization;
  limit : option nat;
  banner : option string;
  badge : option string;
  certificate : option string }.
End WorkshopForm.

(** ** App.tsx: the view-controller *)

Definition Role_toString (r : Role) : string :=
  match r with
  | MEMBER => "MEMBER"
  | ADMIN => "ADMIN"
  | OFFICER => "OFFICER"
  end.

Definition Organization_toString (o : Organization) : string :=
  match o with
  | CES => "CES"
  | TCC => "TCC"
  | ICSO => "ICSO"
  | GENERAL => "GENERAL"
  end.

(** The double quote character, for the messages that quote a title. *)
Definition dquote : string := String (Ascii.ascii_of_nat 34) EmptyString.

Definition isExpired `{DateApi} (now : Z) (dateString : string) : bool :=
  match Date_parse dateString with
  | Some t => bool_decide (t < now)%Z
  | None => false
  end.

(** [{ ...u, role, officerOrg }] *)
Definition with_role (u : User.t) (role : Role) (officerOrg : option Organization)
    : User.t :=
  User.mk (User.id u) (User.name u) (User.email u) role officerOrg
          (User.avatarUrl u) (User.createdAt u) (User.badges u)
          (User.certificates u) (User.notifications u).

(** [{ ...u, name, avatarUrl }] *)
Definition with_profile (u : User.t) (name : string) (avatarUrl : option string)
    : User.t :=
  User.mk (User.id u) name (User.email u) (User.role u) (User.officerOrg u)
          avatarUrl (User.createdAt u) (User.badges u)
          (User.certificates u) (User.notifications u).

Module App.

(** The React state the handlers close over. *)
Record State := mkState {
  user : option User.t;
  workshops : list Workshop.t;
  announcements : list Announcement.t;
  users : list User.t;
  orgFilter : option Organization;            (* None is 'ALL' *)
  activeOrg : Organization;
  selectedWorkshopId : option string;
  selectedParticipants : list string          (* a Set, in insertion order *) }.

Section App.
Context `{DateApi}.

Definition isAdmin (u : option User.t) : bool :=
  bool_decide (User.role <$> u = Some ADMIN).

(** [isLiked] of [AnnouncementCard], the argument the like button passes. *)
Definition isLiked (u : option User.t) (announcement : Announcement.t) : bool :=
  match u with
  | Some u => bool_decide (User.id u ∈ Announcement.likes announcement)
  | None => false
  end.

Definition loadAll (st : State) : M State :=
  wData ← storageService.getWorkshops;
  aData ← storageService.getAnnouncements (orgFilter st);
  uData ← (if isAdmin (user st) then storageService.getUsers else mret []);
  currUser ← storageService.getCurrentUser;
  let users' := if decide (0 < length uData) then uData else users st in
  mret (match currUser with
        | Some currUser =>
            mkState (Some currUser) wData aData users' (orgFilter st)
              (match User.role currUser, User.officerOrg currUser with
               | OFFICER, Some org => org
               | _, _ => activeOrg st
               end)
              (selectedWorkshopId st) (selectedParticipants st)
        | None =>
            mkState (user st) wData aData users' (orgFilter st) (activeOrg st)
              (selectedWorkshopId st) (selectedParticipants st)
        end).

Definition handleLike (st : State) (id : string) (liked : bool) : M unit :=
  match user st with
  | None => mret ()
  | Some user =>
      try_catch
        (storageService.toggleAnnouncementLike id (User.id user) liked;;
         emit setDataTick)
        (λ e, emit (alert ("Operation failed: " +:+ formatError e)))
  end.

Definition handleJoinWorkshop (st : State) (wId : string) : M unit :=
  match user st with
  | None => mret ()
  | Some user =>
      match Array_find (λ item, Workshop.id item = wId) (workshops st) with
      | None => mret ()
      | Some w =>
          now ← now_getTime;
          if isExpired now (Workshop.date w) then
            emit (alert "This workshop has already ended and is no longer accepting registrations.")
          else if Array_some (λ p, Participant.id p = User.id user)
                             (Workshop.participants w) then
            emit (alert "You are already registered for this session!")
          else
            try_catch
              (storageService.joinWorkshop wId (User.id user);;
               storageService.sendNotification (User.id user) "Registered!"
                 ("You've joined " +:+ dquote +:+ Workshop.title w +:+ dquote
                    +:+ ". See you there!") SUCCESS;;
               emit (alert "Successfully registered!");;
               emit setDataTick)
              (λ e, emit (alert ("Registration failed: " +:+ formatError e)))
      end
  end.

Definition handlePromoteUser (st : State) (targetUser : User.t) : M unit :=
  if negb (isAdmin (user st)) then mret () else
  next ← match User.role targetUser with
         | MEMBER => mret (Some (OFFICER, Some GENERAL))
         | OFFICER =>
             ok ← confirm "Promote this Officer to a full Platform Admin?";
             mret (if ok : bool then Some (ADMIN, User.officerOrg targetUser) else None)
         | ADMIN =>
             emit (alert "User is already an Admin.");;
             mret None
         end;
  match next with
  | None => mret ()
  | Some (nextRole, nextOrg) =>
      try_catch
        (storageService.saveUser (with_role targetUser nextRole nextOrg);;
         emit setDataTick;;
         storageService.sendNotification (User.id targetUser) "Role Upgrade!"
           ("You have been promoted to " +:+ Role_toString nextRole
              +:+ match nextOrg with
                  | Some o => " for " +:+ Organization_toString o
                  | None => EmptyString
                  end
              +:+ ".") SUCCESS)
        (λ e, emit (alert ("Failed to update role: " +:+ formatError e)))
  end.

Definition handleDemoteUser (st : State) (targetUser : User.t) : M unit :=
  if negb (isAdmin (user st)) then mret () else
  next ← match User.role targetUser with
         | ADMIN =>
             ok ← confirm "Demote this Admin to Officer status?";
             mret (if ok : bool
                   then Some (OFFICER,
                              match User.officerOrg targetUser with
                              | Some o => Some o
                              | None => Some GENERAL
                              end)
                   else None)
         | OFFICER =>
             ok ← confirm "Demote this Officer to a regular Member? This removes their Org Hub access.";
             mret (if ok : bool then Some (MEMBER, None) else None)
         | MEMBER =>
             emit (alert "User is already at the lowest role.");;
             mret None
         end;
  match next with
  | None => mret ()
  | Some (nextRole, nextOrg) =>
      try_catch
        (storageService.saveUser (with_role targetUser nextRole nextOrg);;
         emit setDataTick;;
         storageService.sendNotification (User.id targetUser) "Role Change"
           ("Your role has been updated to " +:+ Role_toString nextRole +:+ ".")
           WARNING)
        (λ e, emit (alert ("Demote failed: " +:+ formatError e)))
  end.

Definition handleUpdateOfficerOrg (st : State) (targetUser : User.t)
    (newOrg : Organization) : M unit :=
  if negb (isAdmin (user st)) then mret () else
  try_catch
    (storageService.saveUser (with_role targetUser (User.role targetUser) (Some newOrg));;
     emit setDataTick)
    (λ e, emit (alert ("Update failed: " +:+ formatError e))).

(** [newName] is the form's name field; [uploaded] is the URL that
    [uploadImage] returned when an avatar file was chosen and stored
    ([None] otherwise: the upload helper never throws). *)
Definition handleUpdateProfile (st : State) (newName : string)
    (uploaded : option string) : M unit :=
  match user st with
  | None => mret ()
  | Some user =>
      try_catch
        (let avatarUrl := match truthy uploaded with
                          | Some url => Some url
                          | None => User.avatarUrl user
                          end in
         storageService.saveUser
           (with_profile user (default (User.name user) (truthy (Some newName)))
                         avatarUrl);;
         emit (setIsEditingProfile false);;
         emit setDataTick)
        (λ e, emit (alert ("Profile update failed: " +:+ formatError e)))
  end.

(** The three awaited calls both award handlers make for one participant. *)
Definition issueSequence (userId participantName : string) (workshop : Workshop.t)
    (issuedAt : string) : M unit :=
  storageService.issueBadge
    (BadgeData.mk userId (Workshop.title workshop +:+ " Graduate")
       (Workshop.organization workshop) (Workshop.title workshop) issuedAt
       (Workshop.badgeUrl workshop));;
  storageService.issueCertificate
    (CertificateData.mk userId
       ("Certificate of Completion - " +:+ Workshop.title workshop)
       (Workshop.organization workshop) (Workshop.title workshop)
       ("This certifies that " +:+ participantName
          +:+ " has successfully completed the workshop " +:+ Workshop.title workshop
          +:+ " hosted by " +:+ Organization_toString (Workshop.organization workshop)
          +:+ ".")
       issuedAt (Workshop.certificateUrl workshop));;
  storageService.sendNotification userId "Awards Granted!"
    ("Congratulations! You've received a badge and certificate for "
       +:+ Workshop.title workshop +:+ ".") SUCCESS.

Definition handleIssueAwards (participant : Participant.t) (workshop : Workshop.t)
    : M unit :=
  try_catch
    (issuedAt ← now_ISOString;
     issueSequence (Participant.id participant) (Participant.name participant)
                   workshop issuedAt;;
     emit (alert ("Awards issued to " +:+ Participant.name participant
                    +:+ " successfully!")))
    (λ e, emit (alert ("Failed to issue awards: " +:+ formatError e))).

(** The body of the [async (pId) => ...] passed to [ids.map]. *)
Definition bulkTask (workshop : Workshop.t) (issuedAt : string) (pId : string)
    : M unit :=
  match Array_find (λ p, Participant.id p = pId) (Workshop.participants workshop) with
  | None => mret ()
  | Some participant =>
      issueSequence pId (Participant.name participant) workshop issuedAt
  end.

Definition handleBulkIssueAwards (st : State) : M unit :=
  match truthy (selectedWorkshopId st) with
  | None => mret ()
  | Some wid =>
      if decide (length (selectedParticipants st) = 0) then mret () else
      match Array_find (λ w, Workshop.id w = wid) (workshops st) with
      | None => mret ()
      | Some workshop =>
          ok ← confirm ("Issue awards to all "
                          +:+ pretty (length (selectedParticipants st))
                          +:+ " selected participants?");
          if negb ok then mret () else
          emit (setIsBulkIssuing true);;
          try_finally
            (try_catch
               (let ids := selectedParticipants st in
                issuedAt ← now_ISOString;
                Promise_all (map (bulkTask workshop issuedAt) ids);;
                emit (alert ("Successfully issued awards to "
                               +:+ pretty (length (selectedParticipants st))
                               +:+ " participants!"));;
                emit (setSelectedParticipants []))
               (λ e, emit (alert ("Failed to issue some awards: " +:+ formatError e))))
            (emit (setIsBulkIssuing false))
      end
  end.

Definition handleComment (st : State) (id content : string) : M unit :=
  match user st with
  | None => mret ()
  | Some user =>
      try_catch
        (storageService.addAnnouncementComment id (User.id user) content;;
         emit setDataTick)
        (λ e, emit (alert ("Operation failed: " +:+ formatError e)))
  end.

Definition handleDeleteAnnouncement (id : string) : M unit :=
  ok ← confirm "Are you sure you want to remove this update?";
  if negb ok then mret () else
  try_catch
    (storageService.deleteAnnouncement id;;
     emit setDataTick)
    (λ e, emit (alert ("Delete failed: " +:+ formatError e))).

(** The handler may close the detail page: the result is the selected
    workshop and the view it leaves behind ([setSelectedWorkshopId],
    [setCurrentView]). *)
Definition handleDeleteWorkshop (st : State) (currentView : View) (id : string)
    : M (option string * View) :=
  ok ← confirm "Are you sure you want to delete this workshop? All participant records will be lost.";
  if negb ok then mret (selectedWorkshopId st, currentView) else
  try_catch
    (storageService.deleteWorkshop id;;
     let shown := if decide (selectedWorkshopId st = Some id)
                  then (None, WORKSHOPS)
                  else (selectedWorkshopId st, currentView) in
     emit setDataTick;;
     mret shown)
    (λ e, emit (alert ("Delete failed: " +:+ formatError e));;
          mret (selectedWorkshopId st, currentView)).

Definition handleMarkAllRead (st : State) : M unit :=
  match user st with
  | None => mret ()
  | Some user =>
      try_catch
        (storageService.markAllNotificationsRead (User.id user);;
         emit setDataTick)
        (λ e, emit (alert ("Failed to update: " +:+ formatError e)))
  end.

Definition handleRemoveParticipant (participantId workshopId : string) : M unit :=
  ok ← confirm "Remove this participant from the session?";
  if negb ok then mret () else
  try_catch
    (storageService.removeParticipant workshopId participantId;;
     emit setDataTick;;
     storageService.sendNotification participantId "Session Update"
       "You have been removed from a workshop session." WARNING)
    (λ e, emit (alert ("Failed to remove participant: " +:+ formatError e))).

(** [handleCreateOrUpdatePost].  The dialog is the state the handler
    sets besides the store ([setIsCreatingPost], [setEditingPost],
    [setIsSavingPost]); the result is the dialog it leaves behind. *)
Definition handleCreateOrUpdatePost (st : State) (dialog : PostDialog.t)
    (form : PostForm.t) : M PostDialog.t :=
  match user st with
  | None => mret dialog
  | Some user =>
      let editingPost := PostDialog.editingPost dialog in
      dialog' ← try_catch
        (let title := PostForm.title form in
         let content := PostForm.content form in
         let organization := default GENERAL (PostForm.org form) in
         let imageUrl := match truthy (PostForm.uploaded form) with
                         | Some url => Some url
                         | None => editingPost ≫= Announcement.imageUrl
                         end in
         (if bool_decide (User.role user = OFFICER
                          ∧ Some organization ≠ User.officerOrg user)
          then throw (Error ("You can only post updates for "
                               +:+ String_of (User.officerOrg user)))
          else mret ());;
         match editingPost with
         | Some post =>
             storageService.updateAnnouncement (Announcement.id post)
               (AnnouncementData.mk title content organization imageUrl
                                    EmptyString None)
         | None =>
             storageService.createAnnouncement
               (AnnouncementData.mk title content organization imageUrl
                                    (User.id user) (Some (User.role user)))
         end;;
         emit setDataTick;;
         mret (PostDialog.mk false None true))
        (λ error,
           emit (alert ("Failed to save: " +:+ formatError error));;
           mret (PostDialog.mk (PostDialog.isCreatingPost dialog) editingPost true));
      mret (PostDialog.mk (PostDialog.isCreatingPost dialog')
                          (PostDialog.editingPost dialog') false)
  end.

(** [handleCreateOrUpdateWorkshop], with its dialog ([setIsCreatingWorkshop],
    [setEditingWorkshop], [setIsSavingWorkshop]). *)
Definition handleCreateOrUpdateWorkshop (st : State) (dialog : WorkshopDialog.t)
    (fd : WorkshopForm.t) : M WorkshopDialog.t :=
  match user st with
  | None => mret dialog
  | Some user =>
      let editingWorkshop := WorkshopDialog.editingWorkshop dialog in
      dialog' ← try_catch
        (let organization := default GENERAL (WorkshopForm.org fd) in
         (if bool_decide (User.role user = OFFICER
                          ∧ Some organization ≠ User.officerOrg user)
          then throw (Error ("You can only manage workshops for "
                               +:+ String_of (User.officerOrg user)))
          else mret ());;
         let bannerUrl := match truthy (WorkshopForm.banner fd) with
                          | Some uploaded => Some uploaded
                          | None => editingWorkshop ≫= Workshop.bannerUrl
                          end in
         let badgeUrl := match truthy (WorkshopForm.badge fd) with
                         | Some uploaded => Some uploaded
                         | None => editingWorkshop ≫= Workshop.badgeUrl
                         end in
         let certificateUrl := match truthy (WorkshopForm.certificate fd) with
                               | Some uploaded => Some uploaded
                               | None => editingWorkshop ≫= Workshop.certificateUrl
                               end in
         date ← match Date_parse (WorkshopForm.date fd) with
                | Some ms => mret (Date_toISOString ms)
                | None => throw RangeError
                end;
         let workshopData :=
           WorkshopData.mk (WorkshopForm.title fd) (WorkshopForm.desc fd) date
             organization (default 0 (WorkshopForm.limit fd))
             bannerUrl badgeUrl certificateUrl in
         match editingWorkshop with
         | Some w => storageService.updateWorkshop (Workshop.id w) workshopData
         | None => storageService.createWorkshop workshopData
         end;;
         emit setDataTick;;
         mret (WorkshopDialog.mk false None true))
        (λ error,
           emit (alert ("Failed to save workshop: " +:+ formatError error));;
           mret (WorkshopDialog.mk (WorkshopDialog.isCreatingWorkshop dialog)
                                   editingWorkshop true));
      mret (WorkshopDialog.mk (WorkshopDialog.isCreatingWorkshop dialog')
                              (WorkshopDialog.editingWorkshop dialog') false)
  end.

(** The set [toggleParticipantSelection] hands to
    [setSelectedParticipants]. *)
Definition toggleParticipantSelection (st : State) (id : string) : list string :=
  let next := selectedParticipants st in
  if Set_has id next then Set_delete id next else Set_add id next.

Definition handleSelectAll (st : State) (parts : list Participant.t) : list string :=
  if decide (length (selectedParticipants st) = length parts)
  then []
  else Set_from (map Participant.id parts).


End App.
End App.

(** ** services/geminiService.ts and the chat widget *)

Module ChatRole.
Inductive t := user | model.
End ChatRole.

Module ChatMessage.
Record t := mk {
  role : ChatRole.t;
  text : string }.
End ChatMessage.

(** An entry of the history handed to the model: [{role, parts}] with
    the [text] of each part. *)
Module Turn.
Record t := mk {
  role : string;
  parts : list string }.
End Turn.

Inductive Contents :=
| Prompt (text : string)
| Conversation (turns : list Turn.t).

Module GenerateContentParameters.
Record t := mk {
  model : string;
  contents : Contents;
  systemInstruction : option string;
  temperature : option Q }.
End GenerateContentParameters.

Definition ChatRole_toString (r : ChatRole.t) : string :=
  match r with
  | ChatRole.user => "user"
  | ChatRole.model => "model"
  end.

(** [trim] is [String.prototype.trim]; [generateContent] is the call
    [ai.models.generateContent] on the client both functions construct
    before their [try] block, resolving to the [text] of the response
    (absent when the response carries none) or rejecting. *)
Module geminiService.
Section geminiService.
Context (trim : string → string)
        (generateContent : GenerateContentParameters.t → M (option string)).

Definition generateWorkshopDescription (title org : string) : M string :=
  try_catch
    (let prompt :=
       "Write a professional, engaging, max 2 sentences description for a workshop: "
         +:+ dquote +:+ title +:+ dquote +:+ " by " +:+ dquote +:+ org +:+ dquote
         +:+ ". Focus on student growth." in
     text ← generateContent
              (GenerateContentParameters.mk "gemini-3-flash-preview" (Prompt prompt)
                 None None);
     mret (default "No description generated." (truthy text)))
    (λ error,
       emit (console_error "Gemini Error:");;
       mret "Could not generate description.").

(** [history.filter(h => h.parts[0].text.trim() !== "")]; reading the
    text of a turn without parts throws, which is [None] here. *)
Fixpoint cleanHistory (history : list Turn.t) : option (list Turn.t) :=
  match history with
  | [] => Some []
  | h :: rest =>
      match Turn.parts h with
      | [] => None
      | text :: _ =>
          match cleanHistory rest with
          | None => None
          | Some kept =>
              Some (if decide (trim text = EmptyString) then kept else h :: kept)
          end
      end
  end.

Definition generateChatResponse (history : list Turn.t) (message : string) : M string :=
  try_catch
    (cleaned ← match cleanHistory history with
               | Some turns => mret turns
               | None => throw (Error "Cannot read properties of undefined (reading 'text')")
               end;
     text ← generateContent
              (GenerateContentParameters.mk "gemini-3-flash-preview"
                 (Conversation (cleaned ++ [Turn.mk "user" [message]]))
                 (Some "You are Echo, the AI assistant for Echo-mmunity. You help students manage workshops and awards. Be helpful, concise, and professional.")
                 (Some (7 # 10)%Q));
     mret (default "I'm sorry, I'm having trouble processing that." (truthy text)))
    (λ error,
       emit (console_error "Chat Error:");;
       mret "I'm offline right now. Try again later!").

End geminiService.
End geminiService.

(** [handleSend] of the chat widget: the messages and the input field
    it leaves behind (the typing indicator is off again at the end). *)
Module ChatWidget.
Section ChatWidget.
Context (trim : string → string)
        (generateContent : GenerateContentParameters.t → M (option string)).

Definition handleSend (messages : list ChatMessage.t) (input : string)
    : M (list ChatMessage.t * string) :=
  if decide (trim input = EmptyString) then mret (messages, input) else
  let userMsg := input in
  let history := map (λ m, Turn.mk (ChatRole_toString (ChatMessage.role m))
                                   [ChatMessage.text m]) messages in
  response ← geminiService.generateChatResponse trim generateContent history userMsg;
  mret ((messages ++ [ChatMessage.mk ChatRole.user userMsg])
          ++ [ChatMessage.mk ChatRole.model response],
        EmptyString).

End ChatWidget.
End ChatWidget.

(** ** Vocabulary of the specification *)

Definition workshopsOf (o : Organization) (ws : list Workshop.t) : list Workshop.t :=
  filter (λ w, Workshop.organization w = o) ws.

Definition announcementsOf (o : Organization) (l : list Announcement.t)
    : list Announcement.t :=
  filter (λ a, Announcement.organization a = o) l.

Definition attendance (w : Workshop.t) : nat := length (Workshop.participants w).

Definition totalParticipation (ws : list Workshop.t) : nat :=
  sum_list (map attendance ws).



(** A calendar for worked examples: [Date] restricted to a table of
    instants. *)
Definition calendar (table : list (string * Z)) : DateApi :=
  {| Date_parse s := snd <$> Array_find (λ e, fst e = s) table;
     Date_toISOString ms := default "Invalid Date"
                              (fst <$> Array_find (λ e, snd e = ms) table) |}.

Definition y2024 : DateApi :=
  calendar [("2024-01-01T00:00:00.000Z", 1704067200000%Z);
            ("2024-03-01T00:00:00.000Z", 1709251200000%Z);
            ("2024-06-01T00:00:00.000Z", 1717200000000%Z)].

(** ** Observing a run *)

Definition result {A} (m : M A) (w : World) : Outcome A := fst (m w).
Definition after {A} (m : M A) (w : World) : World := snd (m w).

Definition requestOf (ev : Event) : option Request :=
  match ev with
  | Sent r => Some r
  | _ => None
  end.

Definition alertOf (ev : Event) : option string :=
  match ev with
  | alert msg => Some msg
  | _ => None
  end.

(** The events, requests and alerts a run from [w] to [w'] added. *)
Definition since (w w' : World) : list Event :=
  drop (length (w_trace w)) (w_trace w').

Definition sent (w w' : World) : list Request := omap requestOf (since w w').

Definition alerts (w w' : World) : list string := omap alertOf (since w w').

(** The role and organization columns of the profile updates among
    some requests, with the id of the row they address. *)
Definition roleWrites (rs : list Request)
    : list (string * Role * option Organization) :=
  omap (λ r, match r with
             | update_profile id _ _ role officer_org _ => Some (id, role, officer_org)
             | _ => None
             end) rs.

Definition isWrite (r : Request) : bool :=
  match r with
  | auth_getSession | select_profile _ | select_profiles | select_badges _
  | select_certificates _ | select_notifications _ | select_workshops
  | select_announcements _ => false
  | _ => true
  end.

Definition no_faults (w : World) : Prop := w_faults w = [].

(** ** Role and organization *)

(** The invariant as the data model words it. *)
Definition org_iff_officer (role : Role) (org : option Organization) : Prop :=
  is_Some org ↔ role = OFFICER.

(** What promotion and demotion maintain: an officer has an
    organization and a member has none (an admin may keep one). *)
Definition org_follows_role (role : Role) (org : option Organization) : Prop :=
  (role = OFFICER → is_Some org) ∧ (role = MEMBER → org = None).

(** The state machine as the specification lists it: the role and
    organization a transition writes, or [None] for a no-op. *)
Definition spec_promote (role : Role) (org : option Organization)
    : option (Role * option Organization) :=
  match role with
  | MEMBER => Some (OFFICER, Some GENERAL)
  | OFFICER => Some (ADMIN, org)
  | ADMIN => None
  end.

Definition spec_demote (role : Role) (org : option Organization)
    : option (Role * option Organization) :=
  match role with
  | ADMIN => Some (OFFICER, Some (default GENERAL org))
  | OFFICER => Some (MEMBER, None)
  | MEMBER => None
  end.

(** Every profile row with this id carries this role and organization. *)
Definition stored_role (db : DB) (id : string) (role : Role)
    (org : option Organization) : Prop :=
  Forall (λ p, profiles.id p = id →
               profiles.role p = role ∧ profiles.officer_org p = org)
         (t_profiles db).

(** The browser and the store together. *)
Record Sys := mkSys {
  app : App.State;
  world : World }.

(** [I] holds of every profile row of the store and of every user record
    the view-controller holds. *)
Definition everywhere (I : Role → option Organization → Prop) (s : Sys) : Prop :=
  Forall (λ p, I (profiles.role p) (profiles.officer_org p))
         (t_profiles (w_db (world s)))
  ∧ Forall (λ u, I (User.role u) (User.officerOrg u)) (App.users (app s))
  ∧ (∀ u, App.user (app s) = Some u → I (User.role u) (User.officerOrg u)).

(** The role operations of the UI, the reload that follows every
    mutation, and what the environment may change in between (pending
    faults, clock, answers to [confirm], session). *)
Inductive ui_step `{DateApi} : Sys → Sys → Prop :=
| step_promote st w target :
    target ∈ App.users st →
    ui_step (mkSys st w) (mkSys st (after (App.handlePromoteUser st target) w))
| step_demote st w target :
    target ∈ App.users st →
    ui_step (mkSys st w) (mkSys st (after (App.handleDemoteUser st target) w))
| step_profile_save st w newName uploaded :
    ui_step (mkSys st w)
            (mkSys st (after (App.handleUpdateProfile st newName uploaded) w))
| step_reload st w st' :
    result (App.loadAll st) w = Resolved st' →
    ui_step (mkSys st w) (mkSys st' (after (App.loadAll st) w))
| step_environment st w session faults now answers :
    ui_step (mkSys st w)
            (mkSys st (mkWorld (w_db w) session faults now answers (w_trace w))).

Inductive reachable `{DateApi} (s : Sys) : Sys → Prop :=
| reach_here : reachable s s
| reach_step s1 s2 : reachable s s1 → ui_step s1 s2 → reachable s s2.

(** [m] keeps a property of the tables, whatever the faults. *)
Definition maintains {A} (P : DB → Prop) (m : M A) : Prop :=
  ∀ w, P (w_db w) → P (w_db (after m w)).

Definition rows_satisfy (I : Role → option Organization → Prop) (db : DB) : Prop :=
  Forall (λ p, I (profiles.role p) (profiles.officer_org p)) (t_profiles db).

(** ** Participation and likes *)

Definition participations (workshopId userId : string) (db : DB) : nat :=
  length (filter (λ wp, workshop_participants.workshop_id wp = workshopId
                        ∧ workshop_participants.user_id wp = userId)
                 (t_workshop_participants db)).

(** The user ids [getAnnouncements] reports as the likes of an
    announcement. *)
Definition likes_of (db : DB) (announcementId : string) : list string :=
  map announcement_likes.user_id
      (filter (λ l, announcement_likes.announcement_id l = announcementId)
              (t_announcement_likes db)).

Definition likeSet (db : DB) (announcementId : string) : gset string :=
  list_to_set (likes_of db announcementId).

(** Two toggles in a row, each passed the membership the store shows at
    the time of the call. *)
Definition toggleTwice `{DateApi} (announcementId userId : string) : M unit :=
  λ w,
  let liked := bool_decide (userId ∈ likes_of (w_db w) announcementId) in
  let w1 := after (storageService.toggleAnnouncementLike announcementId userId liked) w in
  let liked1 := bool_decide (userId ∈ likes_of (w_db w1) announcementId) in
  storageService.toggleAnnouncementLike announcementId userId liked1 w1.

(** The run from [w] to [w'] asked for a refresh: [setDataTick] is what
    makes the effect hook call [loadAll]. *)
Definition ticked (w w' : World) : bool :=
  existsb (λ ev, match ev with setDataTick => true | _ => false end) (since w w').


(** ** Awards *)

Definition badgeInserts (rs : list Request) : list BadgeData.t :=
  omap (λ r, match r with
             | insert_badge user_id title organization workshop_title issued_at image_url =>
                 Some (BadgeData.mk user_id title organization workshop_title
                                    issued_at image_url)
             | _ => None
             end) rs.

Definition certificateInserts (rs : list Request) : list CertificateData.t :=
  omap (λ r, match r with
             | insert_certificate user_id title organization workshop_title content
                                  issued_at file_url =>
                 Some (CertificateData.mk user_id title organization workshop_title
                                          content issued_at file_url)
             | _ => None
             end) rs.

Definition notificationInserts (rs : list Request) : list string :=
  omap (λ r, match r with
             | insert_notification user_id _ _ _ _ => Some user_id
             | _ => None
             end) rs.

(** ** Sub-fetches of the profile mapper *)

(** What one sub-fetch of [mapProfileToUser] contributes, given the
    fault that meets it: the stored rows, nothing on an error reply
    ([data] is [null]), or the rejection. *)
Definition fetched {T} (fault : option Failure) (stored : list T)
    : Outcome (list T) :=
  match fault with
  | None => Resolved stored
  | Some (error_reply _) => Resolved []
  | Some (rejection e) => Rejected e
  end.

(** The fault that meets the [i]-th coming request. *)
Definition fault_at (w : World) (i : nat) : option Failure :=
  default None (w_faults w !! i).

Definition badgesOf (db : DB) (userId : string) : list badges.row :=
  filter (λ b, badges.user_id b = userId) (t_badges db).

Definition certificatesOf (db : DB) (userId : string) : list certificates.row :=
  filter (λ c, certificates.user_id c = userId) (t_certificates db).

Definition notificationsOf (db : DB) (userId : string) : list notifications.row :=
  filter (λ n, notifications.user_id n = userId) (t_notifications db).

(** The user a profile maps to, with the given collections. *)
Definition userOf (p : profiles.row) (bs : list badges.row)
    (cs : list certificates.row) (ns : list notifications.row) : User.t :=
  User.mk (profiles.id p) (profiles.name p) (profiles.email p) (profiles.role p)
          (profiles.officer_org p) (profiles.avatar_url p) (profiles.created_at p)
          (map mapBadge bs) (map mapCertificate cs) (map mapNotification ns).

(** [u] carries the identity, role and organization of the row [p]. *)
Definition mapped_from (p : profiles.row) (u : User.t) : Prop :=
  User.id u = profiles.id p
  ∧ User.role u = profiles.role p
  ∧ User.officerOrg u = profiles.officer_org p.

(** [u] was mapped from some profile row of [db]. *)
Definition from_store (db : DB) (u : User.t) : Prop :=
  ∃ p, p ∈ t_profiles db ∧ mapped_from p u.



(** The participants for whom a badge insert was sent, in order. *)
Definition badged (l : list Event) : list string :=
  map BadgeData.userId (badgeInserts (omap requestOf l)).

(** [m] sends badge inserts for exactly [ids], whatever the faults. *)
Definition starts {A} (m : M A) (ids : list string) : Prop :=
  ∀ w, ∃ l, w_trace (after m w) = w_trace w ++ l ∧ badged l = ids.

(** ** A small community for worked examples *)

Definition t0 : string := "2024-01-01T00:00:00.000Z".
Definition t1 : string := "2024-03-01T00:00:00.000Z".
Definition t2 : string := "2024-06-01T00:00:00.000Z".

Definition ada : profiles.row :=
  profiles.mk "u-ada" "Ada" "ada@campus.edu" ADMIN None None t0.
Definition ben : profiles.row :=
  profiles.mk "u-ben" "Ben" "ben@campus.edu" MEMBER None None t0.
Definition cyd : profiles.row :=
  profiles.mk "u-cyd" "Cyd" "cyd@campus.edu" MEMBER None None t0.

Definition rocq_night : workshops.row :=
  workshops.mk "w-1" "Rocq Night" "Proofs after dark" t2 TCC None None None (Some 0).

Definition campus : DB :=
  mkDB [ada; ben; cyd] [] [] [] [rocq_night]
       [workshop_participants.mk "w-1" "u-ben"; workshop_participants.mk "w-1" "u-cyd"]
       [] [] [] [] 0.

(** The world on 1 March 2024 with Ada signed in; [faults] is the fate of
    the coming requests and every [confirm] is accepted. *)
Definition march (db : DB) (faults : list (option Failure)) : World :=
  mkWorld db (Some "u-ada") faults 1709251200000%Z (λ _, true) [].

Definition outage : JsError :=
  ErrObject (Some "Service unavailable") None "{}".

Definition asUser (p : profiles.row) : User.t :=
  User.mk (profiles.id p) (profiles.name p) (profiles.email p) (profiles.role p)
          (profiles.officer_org p) (profiles.avatar_url p) (profiles.created_at p)
          [] [] [].

Definition asParticipant (p : profiles.row) : Participant.t :=
  Participant.mk (profiles.id p) (profiles.name p) (profiles.email p)
                 (profiles.avatar_url p).

Definition rocq_night_view : Workshop.t :=
  Workshop.mk "w-1" "Rocq Night" "Proofs after dark" t2 TCC None None None 0
              [asParticipant ben; asParticipant cyd] [].

(** Ada's screen: the admin panel lists the three profiles, the workshop
    "w-1" is open and both of its participants are ticked. *)
Definition adas_screen : App.State :=
  App.mkState (Some (asUser ada)) [rocq_night_view] []
              [asUser ada; asUser ben; asUser cyd] None GENERAL
              (Some "w-1") ["u-ben"; "u-cyd"].

Definition bens_badge : badges.row :=
  badges.mk "row-0" "u-ben" "Rocq Night Graduate" TCC "Rocq Night" t1 None.

Definition bens_certificate : certificates.row :=
  certificates.mk "row-1" "u-ben" "Certificate of Completion - Rocq Night" TCC
    "Rocq Night" "This certifies that Ben has completed Rocq Night." t1 None.

(** The campus after Ben received his awards. *)
Definition awarded : DB :=
  mkDB [ada; ben; cyd] [bens_badge] [bens_certificate] [] [rocq_night]
       [workshop_participants.mk "w-1" "u-ben"; workshop_participants.mk "w-1" "u-cyd"]
       [] [] [] [] 2.

(** What a sub-fetch that did not reject leaves in its collection. *)
Definition kept {T} (fault : option Failure) (stored : list T) : list T :=
  match fault with
  | None => stored
  | Some _ => []
  end.

(** Ben's screen: he is signed in and registered for "w-1". *)
Definition bens_screen : App.State :=
  App.mkState (Some (asUser ben)) [rocq_night_view] [] [] None GENERAL
              (Some "w-1") [].

Definition bens_world : World :=
  mkWorld campus (Some "u-ben") [] 1709251200000%Z (λ _, true) [].

(** The campus with two likes on announcement "a-1". *)
Definition liked_campus : DB :=
  mkDB [ada; ben; cyd] [] [] [] [rocq_night] [] [] [] []
       [announcement_likes.mk "a-1" "u-ben"; announcement_likes.mk "a-1" "u-cyd"] 0.

(** An earlier workshop, with one participant. *)
Definition welcome_view : Workshop.t :=
  Workshop.mk "w-0" "Welcome Day" "Meet the organizations" t0 GENERAL None None None 0
              [asParticipant cyd] [].

(** The campus with two announcements: Ada's for TCC, liked by Ben and
    Cyd, and an older one whose author has left (no profile). *)
Definition adas_post : announcements.row :=
  announcements.mk "a-1" "Rocq Night" "Bring a laptop" None TCC "u-ada" OFFICER t1.

Definition orphan_post : announcements.row :=
  announcements.mk "a-0" "Welcome" "Hello campus" None GENERAL "u-gone" ADMIN t0.

Definition newsroom : DB :=
  mkDB [ada; ben; cyd] [] [] [] [rocq_night] [] [] [orphan_post; adas_post] []
       [announcement_likes.mk "a-1" "u-ben"; announcement_likes.mk "a-1" "u-cyd"] 0.

(** The campus with an unread notification each for Ben and Cyd. *)
Definition inboxes : DB :=
  mkDB [ada; ben; cyd] [] []
       [notifications.mk "n-1" "u-ben" "Registered!" "See you there" SUCCESS false t0;
        notifications.mk "n-2" "u-cyd" "Registered!" "See you there" SUCCESS false t0]
       [rocq_night]
       [workshop_participants.mk "w-1" "u-ben"; workshop_participants.mk "w-1" "u-cyd"]
       [] [] [] [] 0.

(** ** Vocabulary for the remaining handlers *)

(** The screen after [setSelectedParticipants ids]. *)
Definition withSelection (st : App.State) (ids : list string) : App.State :=
  App.mkState (App.user st) (App.workshops st) (App.announcements st) (App.users st)
              (App.orgFilter st) (App.activeOrg st) (App.selectedWorkshopId st) ids.

(** The instant of a notification, for notifications whose date parses. *)
Definition received `{DateApi} (n : Notification.t) : Z :=
  default 0%Z (Date_parse (Notification.createdAt n)).

(** The world after the store accepted the request [r]. *)
Definition accepted `{DateApi} (r : Request) (w : World) : World :=
  mkWorld (apply_request (Date_toISOString (w_now w)) r (w_db w))
          (w_session w) [] (w_now w) (w_confirm w) (w_trace w ++ [Sent r]).

(** * Properties *)

(** ** Array.prototype.sort *)

Lemma sort_insert_perm {A} (cmp : A → A → Z) x l :
  sort_insert cmp x l ≡ₚ x :: l.
Proof.
  induction l as [|y l IH]; simpl; [done|].
  destruct (cmp x y <=? 0)%Z; [done|].
  rewrite IH. apply perm_swap.
Qed.

Lemma Array_sort_perm {A} (cmp : A → A → Z) l : Array_sort cmp l ≡ₚ l.
Proof.
  induction l as [|x l IH]; simpl; [done|].
  unfold Array_sort in *. simpl. rewrite sort_insert_perm. by rewrite IH.
Qed.


Section sort_by_key.
Context {A : Type} (cmp : A → A → Z) (key : A → Z) (P : A → Prop).
Hypothesis cmp_key : ∀ a b, P a → P b → (cmp a b ≤ 0 ↔ key a ≤ key b)%Z.

Let ordered (a b : A) : Prop := (key a ≤ key b)%Z.

Lemma sort_insert_sorted x l :
  P x → Forall P l →
  StronglySorted ordered l → StronglySorted ordered (sort_insert cmp x l).
Proof.
  intros Px Pl Hs. induction Hs as [|y l Hs IH Hy]; simpl.
  - repeat constructor.
  - apply Forall_cons in Pl as [Py Pl].
    destruct (Z.leb_spec (cmp x y) 0) as [Hle|Hgt].
    + constructor; [by constructor|].
      apply cmp_key in Hle; [|done..].
      constructor; [done|].
      eapply Forall_impl; [exact Hy|]. unfold ordered. intros; lia.
    + constructor; [by apply IH|].
      rewrite sort_insert_perm. constructor; [|done].
      unfold ordered. specialize (cmp_key x y Px Py). lia.
Qed.

Lemma Array_sort_sorted l :
  Forall P l → StronglySorted ordered (Array_sort cmp l).
Proof.
  induction 1 as [|x l Px Pl IH]; [constructor|].
  unfold Array_sort in *. simpl. apply sort_insert_sorted; [done| |done].
  change (Forall P (Array_sort cmp l)). by rewrite Array_sort_perm.
Qed.
End sort_by_key.

Lemma StronglySorted_impl {A} (R1 R2 : A → A → Prop) l :
  (∀ a b, R1 a b → R2 a b) → StronglySorted R1 l → StronglySorted R2 l.
Proof.
  intros HR. induction 1 as [|x l Hs IH Hx]; constructor; [done|].
  eapply Forall_impl; [exact Hx|]. auto.
Qed.

(** ** Derived analytics *)

Lemma foldl_attendance (ws : list Workshop.t) (acc : nat) :
  foldl (λ acc w, acc + length (Workshop.participants w)) acc ws
  = acc + totalParticipation ws.
Proof.
  revert acc. induction ws as [|w ws IH]; intros acc; simpl.
  - unfold totalParticipation. simpl. lia.
  - rewrite IH. unfold totalParticipation, attendance. simpl. lia.
Qed.

Lemma perOrgEntry_spec ws ans o :
  let e := perOrgEntry ws ans o in
  OrgStat.name e = o
  ∧ OrgStat.workshops e = length (workshopsOf o ws)
  ∧ OrgStat.announcements e = length (announcementsOf o ans)
  ∧ OrgStat.participants e = totalParticipation (workshopsOf o ws)
  ∧ OrgStat.score e
    = 5 * OrgStat.workshops e + 2 * OrgStat.announcements e + 1 * OrgStat.participants e.
Proof.
  unfold perOrgEntry. simpl. rewrite foldl_attendance.
  unfold workshopsOf, announcementsOf. repeat split; lia.
Qed.

Lemma rankings_sorted (l : list OrgStat.t) :
  StronglySorted (λ a b, OrgStat.score b ≤ OrgStat.score a) (Array_sort byScoreDesc l).
Proof.
  pose proof (Array_sort_sorted byScoreDesc (λ e, (- Z.of_nat (OrgStat.score e))%Z)
                (λ _, True)) as Hs.
  eapply StronglySorted_impl; [|apply Hs].
  - intros a b Hab. simpl in Hab. lia.
  - intros a b _ _. unfold byScoreDesc. lia.
  - by apply Forall_true.
Qed.

Lemma head_of_sorted_is_top (l sorted : list OrgStat.t) :
  sorted ≡ₚ l → l ≠ [] →
  StronglySorted (λ a b, OrgStat.score b ≤ OrgStat.score a) sorted →
  ∃ top, head sorted = Some top ∧ top ∈ l
         ∧ Forall (λ e, OrgStat.score e ≤ OrgStat.score top) l.
Proof.
  intros Hperm Hne Hs. destruct sorted as [|top rest].
  - apply Permutation_nil in Hperm. congruence.
  - exists top. split; [done|]. split.
    + rewrite <- Hperm. apply list_elem_of_here.
    + rewrite <- Hperm. apply StronglySorted_inv in Hs as [_ Hall].
      constructor; [lia|done].
Qed.

(** C1. For every list of workshops, announcements and users, the
    analytics computation gives each organization of CES, TCC, ICSO and
    GENERAL one entry whose score is exactly 5 times its workshop count
    plus 2 times its announcement count plus its total participant
    count; the ranking lists the entries by score, highest first; and
    the entry flagged most active has the highest score. *)
Theorem analytics_engagement_score `{DateApi} (thirtyDaysAgo : Z)
    (ws : list Workshop.t) (ans : list Announcement.t) (us : list User.t) :
  let d := analyticsData thirtyDaysAgo ws ans us in
  map OrgStat.name (AnalyticsData.perOrg d) = [CES; TCC; ICSO; GENERAL]
  ∧ Forall (λ e,
      OrgStat.workshops e = length (workshopsOf (OrgStat.name e) ws)
      ∧ OrgStat.announcements e = length (announcementsOf (OrgStat.name e) ans)
      ∧ OrgStat.participants e = totalParticipation (workshopsOf (OrgStat.name e) ws)
      ∧ OrgStat.score e
        = 5 * OrgStat.workshops e + 2 * OrgStat.announcements e
          + 1 * OrgStat.participants e)
      (AnalyticsData.perOrg d)
  ∧ rankings d ≡ₚ AnalyticsData.perOrg d
  ∧ StronglySorted (λ a b, OrgStat.score b ≤ OrgStat.score a) (rankings d)
  ∧ ∃ top, AnalyticsData.mostActive d = Some top
           ∧ top ∈ AnalyticsData.perOrg d
           ∧ Forall (λ e, OrgStat.score e ≤ OrgStat.score top)
                    (AnalyticsData.perOrg d).
Proof.
  intros d. subst d. unfold analyticsData, rankings.
  cbn [AnalyticsData.perOrg AnalyticsData.mostActive].
  split; [reflexivity|]. split.
  { unfold orgs. cbn [map]. repeat constructor; apply perOrgEntry_spec. }
  split; [apply Array_sort_perm|].
  split; [apply rankings_sorted|].
  apply head_of_sorted_is_top; [apply Array_sort_perm|done|apply rankings_sorted].
Qed.

(** The worked figure of the specification: 2 workshops, 3 announcements
    and 10 participants score 26. *)
Lemma engagement_score_26 (e : OrgStat.t) ws ans o :
  e = perOrgEntry ws ans o →
  OrgStat.workshops e = 2 → OrgStat.announcements e = 3 →
  OrgStat.participants e = 10 → OrgStat.score e = 26.
Proof.
  intros -> Hw Ha Hp.
  destruct (perOrgEntry_spec ws ans o) as (_ & _ & _ & _ & Hs).
  cbv zeta in Hs. rewrite Hw, Ha, Hp in Hs. exact Hs.
Qed.

(** ** Attendance trend sampling *)













(** The same two workshops, charted: Welcome Day first, both points
    inside the plot, the axis scaled by the floor of 5. *)
Lemma attendance_trend_example :
  ∃ d, chartData (H := y2024) [rocq_night_view; welcome_view] = Some d
       ∧ ChartData.maxAttendance d = 5
       ∧ map ChartPoint.title (ChartData.points d) = ["Welcome Day"; "Rocq Night"]
       ∧ map ChartPoint.count (ChartData.points d) = [1; 2].
Proof. eexists. vm_compute. repeat split. Qed.

(** ** One request *)

Ltac unfold_monad :=
  unfold result, after, mbind, M_bind, mret, M_ret, try_catch, try_finally,
    throw, emit, confirm, settle in *.

Lemma supabase_error_reply `{DateApi} {T} r (answer : DB → Response T) w e fs :
  w_faults w = Some (error_reply e) :: fs →
  supabase r answer w
  = (Resolved (mkResponse None (Some e)),
     mkWorld (w_db w) (w_session w) fs (w_now w) (w_confirm w)
             (w_trace w ++ [Sent r])).
Proof. intros Hf. unfold supabase. by rewrite Hf. Qed.

Lemma supabase_rejection `{DateApi} {T} r (answer : DB → Response T) w e fs :
  w_faults w = Some (rejection e) :: fs →
  supabase r answer w
  = (Rejected e,
     mkWorld (w_db w) (w_session w) fs (w_now w) (w_confirm w)
             (w_trace w ++ [Sent r])).
Proof. intros Hf. unfold supabase. by rewrite Hf. Qed.

(** Every request is logged, whatever its fate, and reads leave the
    tables alone. *)
Lemma supabase_trace `{DateApi} {T} r (answer : DB → Response T) w :
  w_trace (after (supabase r answer) w) = w_trace w ++ [Sent r].
Proof.
  unfold after, supabase. by destruct (w_faults w) as [|[[e|e]|] fs].
Qed.

Lemma supabase_read_db `{DateApi} {T} r (answer : DB → Response T) w :
  isWrite r = false → w_db (after (supabase r answer) w) = w_db w.
Proof.
  unfold after, supabase. intros Hr.
  destruct (w_faults w) as [|[[e|e]|] fs]; simpl; try done;
    by destruct r.
Qed.

(** The three fates of a request. *)
Lemma supabase_cases `{DateApi} {T} r (answer : DB → Response T) w :
  (∃ e, result (supabase r answer) w = Rejected e
        ∧ w_db (after (supabase r answer) w) = w_db w)
  ∨ (∃ e, result (supabase r answer) w = Resolved (mkResponse None (Some e))
          ∧ w_db (after (supabase r answer) w) = w_db w)
  ∨ (result (supabase r answer) w = Resolved (answer (w_db w))
     ∧ w_db (after (supabase r answer) w)
       = apply_request (Date_toISOString (w_now w)) r (w_db w)).
Proof.
  unfold result, after, supabase.
  destruct (w_faults w) as [|[[e|e]|] fs]; simpl; eauto.
Qed.

(** ** Error policy of the service layer *)

(** The operations that test [error] raise it. *)
Lemma throw_on_error_raises `{DateApi} r w e fs :
  w_faults w = Some (error_reply e) :: fs →
  result (throw_on_error r) w = Rejected e
  ∧ w_db (after (throw_on_error r) w) = w_db w.
Proof.
  intros Hf. unfold result, after, throw_on_error, mbind, M_bind.
  by rewrite (supabase_error_reply _ _ _ _ _ Hf).
Qed.

(** The operations that drop the reply resolve as if nothing had
    happened, and nothing was written. *)
Lemma ignore_reply_resolves `{DateApi} r w e fs :
  w_faults w = Some (error_reply e) :: fs →
  result (ignore_reply r) w = Resolved ()
  ∧ w_db (after (ignore_reply r) w) = w_db w
  ∧ w_faults (after (ignore_reply r) w) = fs.
Proof.
  intros Hf. unfold result, after, ignore_reply, mbind, M_bind.
  by rewrite (supabase_error_reply _ _ _ _ _ Hf).
Qed.

Lemma checked_writes_raise `{DateApi} w e fs :
  w_faults w = Some (error_reply e) :: fs →
  (∀ u, result (storageService.saveUser u) w = Rejected e)
  ∧ (∀ d, result (storageService.createWorkshop d) w = Rejected e)
  ∧ (∀ id d, result (storageService.updateWorkshop id d) w = Rejected e)
  ∧ (∀ id, result (storageService.deleteWorkshop id) w = Rejected e)
  ∧ (∀ wid uid, result (storageService.joinWorkshop wid uid) w = Rejected e)
  ∧ (∀ wid uid, result (storageService.removeParticipant wid uid) w = Rejected e)
  ∧ (∀ d, result (storageService.createAnnouncement d) w = Rejected e)
  ∧ (∀ id d, result (storageService.updateAnnouncement id d) w = Rejected e)
  ∧ (∀ id, result (storageService.deleteAnnouncement id) w = Rejected e).
Proof.
  intros Hf. repeat split; intros; by apply throw_on_error_raises with fs.
Qed.

Lemma unchecked_writes_resolve `{DateApi} w e fs :
  w_faults w = Some (error_reply e) :: fs →
  (∀ aid uid liked,
     result (storageService.toggleAnnouncementLike aid uid liked) w = Resolved ())
  ∧ (∀ aid uid c, result (storageService.addAnnouncementComment aid uid c) w = Resolved ())
  ∧ (∀ wid uid c, result (storageService.addComment wid uid c) w = Resolved ())
  ∧ (∀ uid t m ty, result (storageService.sendNotification uid t m ty) w = Resolved ())
  ∧ (∀ id, result (storageService.markNotificationRead id) w = Resolved ())
  ∧ (∀ uid, result (storageService.markAllNotificationsRead uid) w = Resolved ())
  ∧ (∀ b, result (storageService.issueBadge b) w = Resolved ())
  ∧ (∀ c, result (storageService.issueCertificate c) w = Resolved ()).
Proof.
  intros Hf. repeat split; intros;
    try (by eapply ignore_reply_resolves).
  unfold storageService.toggleAnnouncementLike.
  destruct liked; by eapply ignore_reply_resolves.
Qed.

(** Reads answer a failed request with the empty result. *)
Lemma reads_swallow_errors `{DateApi} w f fs :
  w_faults w = Some f :: fs →
  result storageService.getWorkshops w = Resolved []
  ∧ (∀ org, result (storageService.getAnnouncements org) w = Resolved [])
  ∧ result storageService.getUsers w = Resolved []
  ∧ result storageService.getCurrentUser w = Resolved None.
Proof.
  intros Hf.
  unfold storageService.getWorkshops, storageService.getAnnouncements,
    storageService.getUsers, storageService.getCurrentUser, getSession.
  unfold_monad.
  destruct f as [e|e].
  - repeat split; intros; by rewrite (supabase_error_reply _ _ _ _ _ Hf).
  - repeat split; intros; by rewrite (supabase_rejection _ _ _ _ _ Hf).
Qed.

(** ** The profile mapper *)

Lemma mapProfileToUser_run `{DateApi} (profile : profiles.row) (w : World) :
  result (mapProfileToUser profile) w
  = Resolved
      match fetched (fault_at w 0) (badgesOf (w_db w) (profiles.id profile)),
            fetched (fault_at w 1) (certificatesOf (w_db w) (profiles.id profile)),
            fetched (fault_at w 2) (notificationsOf (w_db w) (profiles.id profile))
      with
      | Resolved bs, Resolved cs, Resolved ns => userOf profile bs cs ns
      | _, _, _ => userOf profile [] [] []
      end
  ∧ w_db (after (mapProfileToUser profile) w) = w_db w
  ∧ w_session (after (mapProfileToUser profile) w) = w_session w.
Proof.
  destruct w as [db session faults now answers trace].
  unfold fault_at, badgesOf, certificatesOf, notificationsOf.
  destruct faults as [|[[e0|e0]|] [|[[e1|e1]|] [|[[e2|e2]|] faults]]];
    repeat split.
Qed.

(** C8 as the specification words it fails: a sub-fetch that comes back
    with an error reply empties its own collection only.  Here the badge
    fetch fails and Ben's certificate is still mapped. *)
Lemma failed_fetch_keeps_other_collections :
  ∃ u, result (mapProfileToUser (H := y2024) ben)
              (march awarded [Some (error_reply outage)]) = Resolved u
       ∧ fault_at (march awarded [Some (error_reply outage)]) 0
         = Some (error_reply outage)
       ∧ User.badges u = []
       ∧ User.certificates u = [mapCertificate bens_certificate].
Proof. eexists. repeat split. Qed.

(** C8, amended. For every raw profile record and every state of the
    backend the mapper returns a User, never an error, with the scalar
    fields copied from the profile.  When the three sub-fetches find no
    rows, or when one of them rejects, the three collections are empty.
    When none rejects, each collection holds the rows its own
    sub-fetch returned, and is empty where that sub-fetch came back
    with an error reply. *)
Theorem mapProfileToUser_total `{DateApi} (profile : profiles.row) (w : World) :
  ∃ u,
    result (mapProfileToUser profile) w = Resolved u
    ∧ User.id u = profiles.id profile
    ∧ User.name u = profiles.name profile
    ∧ User.email u = profiles.email profile
    ∧ User.role u = profiles.role profile
    ∧ User.officerOrg u = profiles.officer_org profile
    ∧ User.avatarUrl u = profiles.avatar_url profile
    ∧ User.createdAt u = profiles.created_at profile
    ∧ (badgesOf (w_db w) (profiles.id profile) = [] →
       certificatesOf (w_db w) (profiles.id profile) = [] →
       notificationsOf (w_db w) (profiles.id profile) = [] →
       User.badges u = [] ∧ User.certificates u = [] ∧ User.notifications u = [])
    ∧ ((∃ i e, i < 3 ∧ fault_at w i = Some (rejection e)) →
       User.badges u = [] ∧ User.certificates u = [] ∧ User.notifications u = [])
    ∧ ((∀ i e, i < 3 → fault_at w i ≠ Some (rejection e)) →
       User.badges u
       = map mapBadge (kept (fault_at w 0) (badgesOf (w_db w) (profiles.id profile)))
       ∧ User.certificates u
         = map mapCertificate
               (kept (fault_at w 1) (certificatesOf (w_db w) (profiles.id profile)))
       ∧ User.notifications u
         = map mapNotification
               (kept (fault_at w 2) (notificationsOf (w_db w) (profiles.id profile)))).
Proof.
  destruct (mapProfileToUser_run profile w) as (Hrun & _ & _).
  eexists. split; [exact Hrun|].
  destruct (fault_at w 0) as [[e0|e0]|] eqn:H0;
  destruct (fault_at w 1) as [[e1|e1]|] eqn:H1;
  destruct (fault_at w 2) as [[e2|e2]|] eqn:H2; simpl;
  repeat (split; [reflexivity|]);
  (split; [intros Hb Hc Hn; rewrite ?Hb, ?Hc, ?Hn; done|]);
  (split;
   [ intros (i & e & Hi & He);
     first [ done | destruct i as [|[|[|i]]]; first [lia | congruence] ]
   | intros Hno;
     first [ done
           | exfalso;
             first [ by apply (Hno 0 e0); [lia|]
                   | by apply (Hno 1 e1); [lia|]
                   | by apply (Hno 2 e2); [lia|] ] ] ]).
Qed.

Lemma mapProfileToUser_total_witness :
  ∃ u, result (mapProfileToUser (H := y2024) ben)
              (march awarded [Some (error_reply outage)]) = Resolved u
       ∧ User.badges u = []
       ∧ User.certificates u = [mapCertificate bens_certificate]
       ∧ User.notifications u = [].
Proof.
  destruct (mapProfileToUser_total (H := y2024) ben
              (march awarded [Some (error_reply outage)]))
    as (u & Hu & _ & _ & _ & _ & _ & _ & _ & _ & _ & Hkept).
  exists u. split; [exact Hu|]. apply Hkept.
  intros i e Hi. destruct i as [|[|[|i]]]; [discriminate..|lia].
Defined.

(** ** Running compound computations *)

Lemma run_pair {A} (m : M A) w : m w = (result m w, after m w).
Proof. unfold result, after. by destruct (m w). Qed.

Lemma bind_run {A B} (m : M A) (f : A → M B) w :
  (m ≫= f) w
  = match result m w with
    | Resolved a => f a (after m w)
    | Rejected e => (Rejected e, after m w)
    end.
Proof.
  unfold mbind, M_bind, result, after. by destruct (m w) as [[a|e] w'].
Qed.

Lemma try_catch_run {A} (m : M A) (h : JsError → M A) w :
  try_catch m h w
  = match result m w with
    | Resolved a => (Resolved a, after m w)
    | Rejected e => h e (after m w)
    end.
Proof.
  unfold try_catch, result, after. by destruct (m w) as [[a|e] w'].
Qed.

(** A computation that only reads: it never touches the tables or the
    session, whatever the faults. *)
Definition reads_only {A} (m : M A) : Prop :=
  ∀ w, w_db (after m w) = w_db w ∧ w_session (after m w) = w_session w.

Lemma reads_only_ret {A} (a : A) : reads_only (mret a).
Proof. by intros w. Qed.

Lemma reads_only_emit ev : reads_only (emit ev).
Proof. by intros w. Qed.

Lemma reads_only_throw {A} e : reads_only (@throw A e).
Proof. by intros w. Qed.

Lemma reads_only_bind {A B} (m : M A) (f : A → M B) :
  reads_only m → (∀ a, reads_only (f a)) → reads_only (m ≫= f).
Proof.
  intros Hm Hf w. unfold after. rewrite bind_run.
  destruct (Hm w) as [Hdb Hs].
  destruct (result m w) as [a|e]; [|done].
  change (w_db (after (f a) (after m w)) = w_db w
          ∧ w_session (after (f a) (after m w)) = w_session w).
  by destruct (Hf a (after m w)) as [-> ->].
Qed.

Lemma reads_only_try_catch {A} (m : M A) (h : JsError → M A) :
  reads_only m → (∀ e, reads_only (h e)) → reads_only (try_catch m h).
Proof.
  intros Hm Hh w. unfold after. rewrite try_catch_run.
  destruct (Hm w) as [Hdb Hs].
  destruct (result m w) as [a|e]; [done|].
  change (w_db (after (h e) (after m w)) = w_db w
          ∧ w_session (after (h e) (after m w)) = w_session w).
  by destruct (Hh e (after m w)) as [-> ->].
Qed.

Lemma reads_only_settle {A} (m : M A) : reads_only m → reads_only (settle m).
Proof.
  intros Hm w. specialize (Hm w). unfold after, settle in *.
  by destruct (m w).
Qed.

Lemma reads_only_supabase `{DateApi} {T} r (answer : DB → Response T) :
  isWrite r = false → reads_only (supabase r answer).
Proof.
  intros Hr w. split; [by apply supabase_read_db|].
  unfold after, supabase. by destruct (w_faults w) as [|[[e|e]|] fs].
Qed.

Lemma reads_only_mapProfileToUser `{DateApi} profile :
  reads_only (mapProfileToUser profile).
Proof. intros w. by destruct (mapProfileToUser_run profile w) as (_ & ? & ?). Qed.

Lemma reads_only_settle_all {A} (ms : list (M A)) :
  Forall reads_only ms → reads_only (settle_all ms).
Proof.
  induction 1 as [|m ms Hm Hms IH]; simpl; [apply reads_only_ret|].
  apply reads_only_bind; [by apply reads_only_settle|]. intros o.
  apply reads_only_bind; [done|]. intros os. apply reads_only_ret.
Qed.

Lemma reads_only_Promise_all {A} (ms : list (M A)) :
  Forall reads_only ms → reads_only (Promise_all ms).
Proof.
  intros Hms. unfold Promise_all.
  apply reads_only_bind; [by apply reads_only_settle_all|]. intros os.
  destruct (gather os); [apply reads_only_ret|apply reads_only_throw].
Qed.

Lemma reads_only_getSession `{DateApi} : reads_only getSession.
Proof.
  intros w. unfold after, getSession.
  pose proof (reads_only_supabase auth_getSession (λ _, rows ()) eq_refl w) as Hr.
  unfold after in Hr. by destruct (supabase auth_getSession _ w) as [[res|e] w'].
Qed.

Lemma reads_only_getWorkshops `{DateApi} : reads_only storageService.getWorkshops.
Proof.
  apply reads_only_try_catch.
  - apply reads_only_bind; [by apply reads_only_supabase|]. intros res.
    destruct (error res); [apply reads_only_throw|apply reads_only_ret].
  - intros e. apply reads_only_bind; [apply reads_only_emit|].
    intros _. apply reads_only_ret.
Qed.

Lemma reads_only_getAnnouncements `{DateApi} org :
  reads_only (storageService.getAnnouncements org).
Proof.
  apply reads_only_try_catch.
  - apply reads_only_bind; [by apply reads_only_supabase|]. intros res.
    destruct (error res); [apply reads_only_throw|apply reads_only_ret].
  - intros e. apply reads_only_bind; [apply reads_only_emit|].
    intros _. apply reads_only_ret.
Qed.

Lemma reads_only_getUsers `{DateApi} : reads_only storageService.getUsers.
Proof.
  apply reads_only_try_catch; [|intros e; apply reads_only_ret].
  apply reads_only_bind; [by apply reads_only_supabase|]. intros res.
  destruct (error res); [apply reads_only_throw|].
  destruct (data res) as [ps|]; [|apply reads_only_throw].
  apply reads_only_Promise_all, Forall_fmap, Forall_true.
  intros p. apply reads_only_mapProfileToUser.
Qed.

Lemma reads_only_getCurrentUser `{DateApi} : reads_only storageService.getCurrentUser.
Proof.
  apply reads_only_try_catch; [|intros e; apply reads_only_ret].
  apply reads_only_bind; [apply reads_only_getSession|]. intros [uid|];
    [|apply reads_only_ret].
  apply reads_only_bind; [by apply reads_only_supabase|]. intros res.
  destruct (error res); [apply reads_only_ret|].
  destruct (data res) as [p|]; [|apply reads_only_ret].
  apply reads_only_bind; [apply reads_only_mapProfileToUser|].
  intros u. apply reads_only_ret.
Qed.

Lemma reads_only_loadAll `{DateApi} st : reads_only (App.loadAll st).
Proof.
  unfold App.loadAll.
  apply reads_only_bind; [apply reads_only_getWorkshops|]. intros wData.
  apply reads_only_bind; [apply reads_only_getAnnouncements|]. intros aData.
  apply reads_only_bind.
  { destruct (App.isAdmin _); [apply reads_only_getUsers|apply reads_only_ret]. }
  intros uData.
  apply reads_only_bind; [apply reads_only_getCurrentUser|]. intros currUser.
  apply reads_only_ret.
Qed.

(** ** Reads never reject *)

Lemma result_bind {A B} (m : M A) (f : A → M B) w :
  result (m ≫= f) w
  = match result m w with
    | Resolved a => result (f a) (after m w)
    | Rejected e => Rejected e
    end.
Proof. unfold result at 1. rewrite bind_run. by destruct (result m w). Qed.

Lemma result_try_catch {A} (m : M A) (h : JsError → M A) w :
  result (try_catch m h) w
  = match result m w with
    | Resolved a => Resolved a
    | Rejected e => result (h e) (after m w)
    end.
Proof. unfold result at 1. rewrite try_catch_run. by destruct (result m w). Qed.

Lemma after_bind {A B} (m : M A) (f : A → M B) w :
  after (m ≫= f) w
  = match result m w with
    | Resolved a => after (f a) (after m w)
    | Rejected e => after m w
    end.
Proof. unfold after at 1. rewrite bind_run. by destruct (result m w). Qed.

Lemma after_try_catch {A} (m : M A) (h : JsError → M A) w :
  after (try_catch m h) w
  = match result m w with
    | Resolved a => after m w
    | Rejected e => after (h e) (after m w)
    end.
Proof. unfold after at 1. rewrite try_catch_run. by destruct (result m w). Qed.

Lemma result_ret {A} (a : A) w : result (mret a) w = Resolved a.
Proof. done. Qed.

Lemma after_ret {A} (a : A) w : after (mret a) w = w.
Proof. done. Qed.

Lemma result_emit ev w : result (emit ev) w = Resolved ().
Proof. done. Qed.

Lemma result_confirm prompt w : result (confirm prompt) w = Resolved (w_confirm w prompt).
Proof. done. Qed.

Lemma after_confirm prompt w : after (confirm prompt) w = w.
Proof. done. Qed.

Lemma result_settle {A} (m : M A) w : result (settle m) w = Resolved (result m w).
Proof. unfold result, settle. by destruct (m w). Qed.

Lemma after_settle {A} (m : M A) w : after (settle m) w = after m w.
Proof. unfold after, settle. by destruct (m w). Qed.

Lemma mapProfileToUser_mapped `{DateApi} profile w :
  ∃ u, result (mapProfileToUser profile) w = Resolved u ∧ mapped_from profile u.
Proof.
  destruct (mapProfileToUser_total profile w) as (u & Hu & Hid & _ & _ & Hr & Ho & _).
  by exists u.
Qed.

Lemma gather_resolved {A} (l : list A) : gather (map Resolved l) = Resolved l.
Proof. induction l as [|a l IH]; simpl; [done|]. by rewrite IH. Qed.

Lemma settle_all_profiles `{DateApi} (ps : list profiles.row) w :
  ∃ us, result (settle_all (map mapProfileToUser ps)) w = Resolved (map Resolved us)
        ∧ Forall2 mapped_from ps us.
Proof.
  revert w. induction ps as [|p ps IH]; intros w.
  - exists []. split; [done|constructor].
  - cbn [map settle_all]. rewrite result_bind, result_settle, after_settle.
    destruct (mapProfileToUser_mapped p w) as (u & Hu & Hpu).
    destruct (IH (after (mapProfileToUser p) w)) as (us & Hus & Hall).
    exists (u :: us). rewrite result_bind, Hus, Hu. split; [done|].
    by constructor.
Qed.

Lemma Promise_all_profiles `{DateApi} (ps : list profiles.row) w :
  ∃ us, result (Promise_all (map mapProfileToUser ps)) w = Resolved us
        ∧ Forall2 mapped_from ps us.
Proof.
  destruct (settle_all_profiles ps w) as (us & Hus & Hall).
  exists us. split; [|done].
  unfold Promise_all. rewrite result_bind, Hus, gather_resolved. done.
Qed.

Lemma getWorkshops_result `{DateApi} w :
  result storageService.getWorkshops w = Resolved []
  ∨ result storageService.getWorkshops w
    = Resolved (map mapWorkshop (answer_workshops (w_db w))).
Proof.
  unfold storageService.getWorkshops.
  rewrite result_try_catch, result_bind.
  destruct (supabase_cases select_workshops (λ db, rows (answer_workshops db)) w)
    as [(e & -> & _)|[(e & -> & _)|(-> & _)]]; simpl; auto.
Qed.

Lemma getAnnouncements_result `{DateApi} org w :
  ∃ l, result (storageService.getAnnouncements org) w = Resolved l.
Proof.
  unfold storageService.getAnnouncements.
  rewrite result_try_catch, result_bind.
  destruct (supabase_cases (select_announcements org)
              (λ db, rows (answer_announcements org db)) w)
    as [(e & -> & _)|[(e & -> & _)|(-> & _)]]; simpl; eauto.
Qed.

Lemma getUsers_result `{DateApi} w :
  ∃ us, result storageService.getUsers w = Resolved us
        ∧ Forall (from_store (w_db w)) us.
Proof.
  unfold storageService.getUsers.
  rewrite result_try_catch, result_bind.
  set (q := supabase select_profiles _).
  destruct (supabase_cases select_profiles
              (λ db, rows (Array_sort (λ x y, compare_strings (profiles.name x)
                                                              (profiles.name y))
                                      (t_profiles db))) w)
    as [(e & Hq & _)|[(e & Hq & _)|(Hq & _)]]; fold q in Hq; rewrite Hq; simpl.
  - exists []. split; [done|constructor].
  - exists []. split; [done|constructor].
  - set (ps := Array_sort _ _).
    destruct (Promise_all_profiles ps (after q w)) as (us & Hus & Hall).
    rewrite Hus. exists us. split; [done|].
    apply Forall_forall. intros u Hu.
    destruct (proj1 (list_elem_of_lookup us u) Hu) as [i Hi].
    destruct (Forall2_lookup_r _ _ _ _ _ Hall Hi) as (p & Hp & Hpu).
    exists p. split; [|done].
    apply list_elem_of_lookup_2 in Hp. unfold ps in Hp.
    by rewrite Array_sort_perm in Hp.
Qed.

Lemma getSession_result `{DateApi} w :
  (∃ e, result getSession w = Rejected e)
  ∨ result getSession w = Resolved None
  ∨ result getSession w = Resolved (w_session w).
Proof.
  unfold result, getSession, supabase.
  destruct (w_faults w) as [|[[e|e]|] fs]; simpl; eauto.
Qed.

Lemma single_inv {T} (l : list T) (x : T) :
  data (single l) = Some x → l = [x].
Proof. destruct l as [|y [|z l]]; simpl; congruence. Qed.

Lemma getCurrentUser_result `{DateApi} w :
  ∃ ou, result storageService.getCurrentUser w = Resolved ou
        ∧ ∀ u, ou = Some u →
               from_store (w_db w) u ∧ w_session w = Some (User.id u).
Proof.
  unfold storageService.getCurrentUser.
  rewrite result_try_catch, result_bind.
  destruct (reads_only_getSession w) as [Hdb Hsess].
  destruct (getSession_result w) as [(e & ->)|[->| ->]]; simpl.
  - by exists None.
  - by exists None.
  - destruct (w_session w) as [uid|] eqn:Hs; simpl; [|by exists None].
    rewrite result_bind.
    set (q := supabase (select_profile uid) _).
    destruct (supabase_cases (select_profile uid)
                (λ db, single (filter (λ p, profiles.id p = uid) (t_profiles db)))
                (after getSession w))
      as [(e & Hq & _)|[(e & Hq & _)|(Hq & _)]]; fold q in Hq; rewrite Hq; simpl.
    + by exists None.
    + by exists None.
    + destruct (single _) as [[p|] [e|]] eqn:Hsingle; simpl;
        try (by exists None).
      rewrite result_bind.
      destruct (mapProfileToUser_mapped p (after q (after getSession w)))
        as (u & -> & Hpu).
      exists (Some u). split; [done|]. intros ? [= <-].
      assert (Hp : filter (λ p, profiles.id p = uid)
                          (t_profiles (w_db (after getSession w))) = [p]).
      { apply single_inv. by rewrite Hsingle. }
      assert (Hin : p ∈ filter (λ p, profiles.id p = uid)
                               (t_profiles (w_db (after getSession w)))).
      { rewrite Hp. apply list_elem_of_here. }
      apply list_elem_of_filter in Hin as [Hid Hin]. rewrite Hdb in Hin.
      split; [by exists p|].
      destruct Hpu as (-> & _). by rewrite Hid.
Qed.

(** What a reload leaves on the screen: the workshops of the store (or
    none when the fetch failed), users of the store or the previous
    ones, and the signed-in user as the store has it or as it was. *)
Lemma loadAll_result `{DateApi} st w :
  ∃ st', result (App.loadAll st) w = Resolved st'
    ∧ (App.workshops st' = []
       ∨ App.workshops st' = map mapWorkshop (answer_workshops (w_db w)))
    ∧ Forall (λ u, u ∈ App.users st ∨ from_store (w_db w) u) (App.users st')
    ∧ (App.user st' = App.user st
       ∨ ∃ u, App.user st' = Some u ∧ from_store (w_db w) u
              ∧ w_session w = Some (User.id u)).
Proof.
  unfold App.loadAll.
  rewrite result_bind.
  destruct (reads_only_getWorkshops w) as [Hdb1 Hs1].
  set (w1 := after storageService.getWorkshops w) in *.
  assert (Hws : ∃ wData, result storageService.getWorkshops w = Resolved wData
                  ∧ (wData = [] ∨ wData = map mapWorkshop (answer_workshops (w_db w)))).
  { destruct (getWorkshops_result w) as [->| ->]; eauto. }
  destruct Hws as (wData & -> & HwData).
  rewrite result_bind.
  destruct (reads_only_getAnnouncements (App.orgFilter st) w1) as [Hdb2 Hs2].
  destruct (getAnnouncements_result (App.orgFilter st) w1) as (aData & ->).
  set (w2 := after (storageService.getAnnouncements (App.orgFilter st)) w1) in *.
  rewrite result_bind.
  set (mu := if App.isAdmin (App.user st) then storageService.getUsers else mret []).
  assert (Hmu : reads_only mu
                ∧ ∃ uData, result mu w2 = Resolved uData
                           ∧ Forall (from_store (w_db w2)) uData).
  { unfold mu. destruct (App.isAdmin _).
    - split; [apply reads_only_getUsers|apply getUsers_result].
    - split; [apply reads_only_ret|]. exists []. split; [done|constructor]. }
  destruct Hmu as (Hro & uData & -> & HuData).
  destruct (Hro w2) as [Hdb3 Hs3].
  set (w3 := after mu w2) in *.
  rewrite result_bind.
  destruct (getCurrentUser_result w3) as (currUser & -> & Hcurr).
  assert (Hdb : w_db w3 = w_db w) by congruence.
  assert (Hdb' : w_db w2 = w_db w) by congruence.
  assert (Hsess : w_session w3 = w_session w) by congruence.
  rewrite Hdb in Hcurr. rewrite Hsess in Hcurr. rewrite Hdb' in HuData.
  assert (Husers : Forall (λ u, u ∈ App.users st ∨ from_store (w_db w) u)
                          (if decide (0 < length uData) then uData else App.users st)).
  { destruct (decide _).
    - eapply Forall_impl; [exact HuData|]. auto.
    - apply Forall_forall. auto. }
  destruct currUser as [u|]; eexists; (split; [reflexivity|]); simpl;
    (split; [done|]); (split; [done|]).
  - right. exists u. by destruct (Hcurr u eq_refl).
  - by left.
Qed.

(** C3. Reads swallow backend errors: [reads_swallow_errors] and the
    [_result] lemmas above.  The writes do not all raise.  The store
    answers every request below with an error reply; [saveUser] raises
    it, as do the other operations that test [error]
    ([checked_writes_raise]), but the like toggle, both comment
    appends, the three notification operations, badge and certificate
    issuance and award revocation resolve as if the write had
    succeeded, nothing is stored, and the caller's alert is never
    reached. *)
Theorem error_replies_dropped_by_writes :
  let w := march campus [Some (error_reply outage); Some (error_reply outage)] in
  result (storageService.saveUser (H := y2024) (asUser ben)) w = Rejected outage
  ∧ result (storageService.toggleAnnouncementLike (H := y2024) "a-1" "u-ben" false) w
    = Resolved ()
  ∧ result (storageService.toggleAnnouncementLike (H := y2024) "a-1" "u-ben" true) w
    = Resolved ()
  ∧ result (storageService.addAnnouncementComment (H := y2024) "a-1" "u-ben" "Nice") w
    = Resolved ()
  ∧ result (storageService.addComment (H := y2024) "w-1" "u-ben" "Nice") w = Resolved ()
  ∧ result (storageService.sendNotification (H := y2024) "u-ben" "Hi" "there" INFO) w
    = Resolved ()
  ∧ result (storageService.markNotificationRead (H := y2024) "row-0") w = Resolved ()
  ∧ result (storageService.markAllNotificationsRead (H := y2024) "u-ben") w = Resolved ()
  ∧ result (storageService.issueBadge (H := y2024)
              (BadgeData.mk "u-ben" "Rocq Night Graduate" TCC "Rocq Night" t1 None)) w
    = Resolved ()
  ∧ w_db (after (storageService.issueBadge (H := y2024)
                   (BadgeData.mk "u-ben" "Rocq Night Graduate" TCC "Rocq Night" t1 None)) w)
    = campus
  ∧ result (storageService.issueCertificate (H := y2024)
              (CertificateData.mk "u-ben" "Certificate" TCC "Rocq Night" "text" t1 None)) w
    = Resolved ()
  ∧ result (storageService.revokeAwards (H := y2024) "u-ben" "Rocq Night") w = Resolved ()
  ∧ alerts w (after (App.handleLike (H := y2024) adas_screen "a-1" false) w) = []
  ∧ w_db (after (App.handleLike (H := y2024) adas_screen "a-1" false) w) = campus.
Proof. vm_compute. repeat split. Qed.

(** ** Promotion and demotion *)

Ltac trace_simpl :=
  unfold sent, alerts, roleWrites, since; cbn [w_trace];
  rewrite <- ?app_assoc, ?drop_app_length, ?drop_all; cbn.

Lemma updated_rows_stored id name email role org avatar (l : list profiles.row) :
  Forall (λ p, profiles.id p = id →
               profiles.role p = role ∧ profiles.officer_org p = org)
         (map (λ p, if decide (profiles.id p = id)
                    then profiles.mk id name email role org avatar
                                     (profiles.created_at p)
                    else p) l).
Proof.
  apply Forall_fmap, Forall_true. intros p. simpl.
  destruct (decide (profiles.id p = id)); simpl; [done|]. intros; done.
Qed.

(** The common tail of both handlers: the profile write, the refresh
    tick and the notification, with the alert on failure. *)
Lemma save_then_notify `{DateApi} (u : User.t) (uid title msg : string)
    (ty : NotificationType) (prefix : string) (w : World) :
  let w' := after (try_catch
                     (storageService.saveUser u;;
                      emit setDataTick;;
                      storageService.sendNotification uid title msg ty)
                     (λ e, emit (alert (prefix +:+ formatError e)))) w in
  roleWrites (sent w w') = [(User.id u, User.role u, User.officerOrg u)]
  ∧ (no_faults w →
     stored_role (w_db w') (User.id u) (User.role u) (User.officerOrg u)).
Proof.
  destruct w as [db session faults now answers trace].
  unfold no_faults, after, storageService.saveUser, storageService.sendNotification,
    throw_on_error, ignore_reply, supabase.
  unfold_monad.
  destruct faults as [|[[e|e]|] [|[[e'|e']|] faults]]; cbn;
    (split; [by trace_simpl|]); intros Hnf; try discriminate;
    apply updated_rows_stored.
Qed.

Lemma handlePromoteUser_run `{DateApi} (st : App.State) (target : User.t) (w : World) :
  App.isAdmin (App.user st) = true →
  (∀ prompt, w_confirm w prompt = true) →
  App.handlePromoteUser st target w
  = match spec_promote (User.role target) (User.officerOrg target) with
    | Some (nextRole, nextOrg) =>
        try_catch
          (storageService.saveUser (with_role target nextRole nextOrg);;
           emit setDataTick;;
           storageService.sendNotification (User.id target) "Role Upgrade!"
             ("You have been promoted to " +:+ Role_toString nextRole
                +:+ match nextOrg with
                    | Some o => " for " +:+ Organization_toString o
                    | None => EmptyString
                    end
                +:+ ".") SUCCESS)
          (λ e, emit (alert ("Failed to update role: " +:+ formatError e))) w
    | None => emit (alert "User is already an Admin.") w
    end.
Proof.
  intros Hadmin Hconfirm. unfold App.handlePromoteUser. rewrite Hadmin.
  cbn [negb]. destruct (User.role target); cbn [spec_promote];
    unfold mbind, M_bind, mret, M_ret, confirm, emit; rewrite ?Hconfirm; done.
Qed.

Lemma handleDemoteUser_run `{DateApi} (st : App.State) (target : User.t) (w : World) :
  App.isAdmin (App.user st) = true →
  (∀ prompt, w_confirm w prompt = true) →
  App.handleDemoteUser st target w
  = match spec_demote (User.role target) (User.officerOrg target) with
    | Some (nextRole, nextOrg) =>
        try_catch
          (storageService.saveUser (with_role target nextRole nextOrg);;
           emit setDataTick;;
           storageService.sendNotification (User.id target) "Role Change"
             ("Your role has been updated to " +:+ Role_toString nextRole +:+ ".")
             WARNING)
          (λ e, emit (alert ("Demote failed: " +:+ formatError e))) w
    | None => emit (alert "User is already at the lowest role.") w
    end.
Proof.
  intros Hadmin Hconfirm. unfold App.handleDemoteUser. rewrite Hadmin.
  cbn [negb]. destruct (User.role target); cbn [spec_demote];
    unfold mbind, M_bind, mret, M_ret, confirm, emit; rewrite ?Hconfirm;
    try done.
  by destruct (User.officerOrg target).
Qed.

Lemma emit_alert_observed (msg : string) (w : World) :
  sent w (after (emit (alert msg)) w) = []
  ∧ w_db (after (emit (alert msg)) w) = w_db w
  ∧ alerts w (after (emit (alert msg)) w) = [msg].
Proof. unfold after, emit. simpl. repeat split; by trace_simpl. Qed.

(** C2. For every target user, whenever an admin runs the handler and
    accepts the confirmation it may ask, promotion and demotion follow
    the state machine of the specification: the single profile write
    carries the role and organization of [spec_promote] (MEMBER to
    OFFICER of GENERAL, OFFICER to ADMIN with the organization
    unchanged) or [spec_demote] (ADMIN to OFFICER, of GENERAL only when
    none was set; OFFICER to MEMBER with no organization), and the
    store holds them once it accepted the write; promoting an ADMIN and
    demoting a MEMBER send nothing, change nothing and show one
    message. *)
Theorem role_state_machine `{DateApi} (st : App.State) (target : User.t) (w : World) :
  App.isAdmin (App.user st) = true →
  (∀ prompt, w_confirm w prompt = true) →
  let promoted := after (App.handlePromoteUser st target) w in
  let demoted := after (App.handleDemoteUser st target) w in
  match spec_promote (User.role target) (User.officerOrg target) with
  | Some (role, org) =>
      roleWrites (sent w promoted) = [(User.id target, role, org)]
      ∧ (no_faults w → stored_role (w_db promoted) (User.id target) role org)
  | None =>
      sent w promoted = [] ∧ w_db promoted = w_db w
      ∧ alerts w promoted = ["User is already an Admin."]
  end
  ∧ match spec_demote (User.role target) (User.officerOrg target) with
    | Some (role, org) =>
        roleWrites (sent w demoted) = [(User.id target, role, org)]
        ∧ (no_faults w → stored_role (w_db demoted) (User.id target) role org)
    | None =>
        sent w demoted = [] ∧ w_db demoted = w_db w
        ∧ alerts w demoted = ["User is already at the lowest role."]
    end.
Proof.
  intros Hadmin Hconfirm promoted demoted. subst promoted demoted.
  unfold after at 1 2 3 4 5 6 7 8 9 10.
  rewrite (handlePromoteUser_run st target w Hadmin Hconfirm).
  rewrite (handleDemoteUser_run st target w Hadmin Hconfirm).
  split.
  - destruct (spec_promote _ _) as [[role org]|].
    + apply (save_then_notify (with_role target role org)).
    + apply emit_alert_observed.
  - destruct (spec_demote _ _) as [[role org]|].
    + apply (save_then_notify (with_role target role org)).
    + apply emit_alert_observed.
Qed.

Lemma role_state_machine_witness :
  roleWrites (sent (march campus [])
                   (after (App.handlePromoteUser (H := y2024) adas_screen (asUser ben))
                          (march campus [])))
  = [("u-ben", OFFICER, Some GENERAL)]
  ∧ stored_role
      (w_db (after (App.handlePromoteUser (H := y2024) adas_screen (asUser ben))
                   (march campus [])))
      "u-ben" OFFICER (Some GENERAL)
  ∧ sent (march campus [])
         (after (App.handleDemoteUser (H := y2024) adas_screen (asUser ben))
                (march campus []))
    = [].
Proof.
  pose proof (role_state_machine (H := y2024) adas_screen (asUser ben)
                (march campus []) eq_refl (λ _, eq_refl)) as Hthm.
  cbv zeta in Hthm.
  change (spec_promote (User.role (asUser ben)) (User.officerOrg (asUser ben)))
    with (Some (OFFICER, Some GENERAL)) in Hthm.
  change (spec_demote (User.role (asUser ben)) (User.officerOrg (asUser ben)))
    with (@None (Role * option Organization)) in Hthm.
  destruct Hthm as [[Hwrite Hstored] [Hnone _]].
  split; [exact Hwrite|]. split; [exact (Hstored eq_refl)|exact Hnone].
Defined.

(** ** The role invariant *)

Section maintains.
Context `{DateApi} (P : DB → Prop).

Lemma maintains_ret {A} (a : A) : maintains P (mret a).
Proof. by intros w. Qed.

Lemma maintains_emit ev : maintains P (emit ev).
Proof. by intros w. Qed.

Lemma maintains_throw {A} e : maintains P (@throw A e).
Proof. by intros w. Qed.

Lemma maintains_confirm prompt : maintains P (confirm prompt).
Proof. by intros w. Qed.

Lemma maintains_bind {A B} (m : M A) (f : A → M B) :
  maintains P m → (∀ a, maintains P (f a)) → maintains P (m ≫= f).
Proof.
  intros Hm Hf w Hw. rewrite after_bind.
  destruct (result m w) as [a|e]; [|by apply Hm].
  by apply Hf, Hm.
Qed.

Lemma maintains_try_catch {A} (m : M A) (h : JsError → M A) :
  maintains P m → (∀ e, maintains P (h e)) → maintains P (try_catch m h).
Proof.
  intros Hm Hh w Hw. rewrite after_try_catch.
  destruct (result m w) as [a|e]; [by apply Hm|].
  by apply Hh, Hm.
Qed.

Lemma maintains_supabase {T} r (answer : DB → Response T) :
  (∀ stamp db, P db → P (apply_request stamp r db)) →
  maintains P (supabase r answer).
Proof.
  intros Hr w Hw.
  destruct (supabase_cases r answer w) as [(e & _ & ->)|[(e & _ & ->)|(_ & ->)]];
    auto.
Qed.

Lemma maintains_throw_on_error r :
  (∀ stamp db, P db → P (apply_request stamp r db)) →
  maintains P (throw_on_error r).
Proof.
  intros Hr. apply maintains_bind; [by apply maintains_supabase|].
  intros res. destruct (error res); [apply maintains_throw|apply maintains_ret].
Qed.

Lemma maintains_ignore_reply r :
  (∀ stamp db, P db → P (apply_request stamp r db)) →
  maintains P (ignore_reply r).
Proof.
  intros Hr. apply maintains_bind; [by apply maintains_supabase|].
  intros res. apply maintains_ret.
Qed.
End maintains.

Lemma saveUser_maintains `{DateApi} (u : User.t) :
  org_follows_role (User.role u) (User.officerOrg u) →
  maintains (rows_satisfy org_follows_role) (storageService.saveUser u).
Proof.
  intros Hu. apply maintains_throw_on_error. intros stamp db Hdb.
  unfold rows_satisfy in *. simpl. apply Forall_fmap.
  eapply Forall_impl; [exact Hdb|]. intros p Hp. simpl.
  by destruct (decide (profiles.id p = User.id u)).
Qed.

Lemma sendNotification_maintains `{DateApi} I uid title msg ty :
  maintains (rows_satisfy I) (storageService.sendNotification uid title msg ty).
Proof. apply maintains_ignore_reply. by intros stamp db Hdb. Qed.

Lemma role_block_maintains `{DateApi} (u : User.t) uid title msg ty prefix :
  org_follows_role (User.role u) (User.officerOrg u) →
  maintains (rows_satisfy org_follows_role)
    (try_catch
       (storageService.saveUser u;;
        emit setDataTick;;
        storageService.sendNotification uid title msg ty)
       (λ e, emit (alert (prefix +:+ formatError e)))).
Proof.
  intros Hu. apply maintains_try_catch; [|intros e; apply maintains_emit].
  apply maintains_bind; [by apply saveUser_maintains|]. intros _.
  apply maintains_bind; [apply maintains_emit|]. intros _.
  apply sendNotification_maintains.
Qed.

Lemma handlePromoteUser_maintains `{DateApi} st (target : User.t) :
  org_follows_role (User.role target) (User.officerOrg target) →
  maintains (rows_satisfy org_follows_role) (App.handlePromoteUser st target).
Proof.
  intros Htarget w Hw. unfold App.handlePromoteUser.
  destruct (negb _); [done|].
  rewrite after_bind.
  destruct (User.role target) eqn:Hrole.
  - rewrite result_ret, after_ret.
    apply (role_block_maintains (with_role target OFFICER (Some GENERAL)));
      [|done].
    split; [by eexists|done].
  - by rewrite result_bind, result_emit, result_ret.
  - rewrite result_bind, result_confirm, after_bind, result_confirm,
      after_confirm, result_ret, after_ret.
    destruct (w_confirm w _); [|done].
    apply (role_block_maintains (with_role target ADMIN (User.officerOrg target)));
      [|done].
    by split.
Qed.

Lemma handleDemoteUser_maintains `{DateApi} st (target : User.t) :
  maintains (rows_satisfy org_follows_role) (App.handleDemoteUser st target).
Proof.
  intros w Hw. unfold App.handleDemoteUser.
  destruct (negb _); [done|].
  rewrite after_bind.
  destruct (User.role target) eqn:Hrole.
  - by rewrite result_bind, result_emit, result_ret.
  - rewrite result_bind, result_confirm, after_bind, result_confirm,
      after_confirm, result_ret, after_ret.
    destruct (w_confirm w _); [|done].
    apply (role_block_maintains
             (with_role target OFFICER
                match User.officerOrg target with
                | Some o => Some o
                | None => Some GENERAL
                end)); [|done].
    split; [|done]. intros _. simpl. destruct (User.officerOrg target); by eexists.
  - rewrite result_bind, result_confirm, after_bind, result_confirm,
      after_confirm, result_ret, after_ret.
    destruct (w_confirm w _); [|done].
    apply (role_block_maintains (with_role target MEMBER None)); [|done].
    by split.
Qed.

Lemma handleUpdateProfile_maintains `{DateApi} st newName uploaded :
  (∀ u, App.user st = Some u → org_follows_role (User.role u) (User.officerOrg u)) →
  maintains (rows_satisfy org_follows_role)
            (App.handleUpdateProfile st newName uploaded).
Proof.
  intros Huser. unfold App.handleUpdateProfile.
  destruct (App.user st) as [u|]; [|apply maintains_ret].
  apply maintains_try_catch; [|intros e; apply maintains_emit].
  apply maintains_bind.
  { apply saveUser_maintains. simpl. by apply Huser. }
  intros _.
  apply maintains_bind; [apply maintains_emit|]. intros _. apply maintains_emit.
Qed.

Lemma from_store_satisfies I db u :
  rows_satisfy I db → from_store db u → I (User.role u) (User.officerOrg u).
Proof.
  intros Hdb (p & Hp & _ & -> & ->).
  by apply (proj1 (Forall_forall _ _) Hdb).
Qed.

Lemma ui_step_invariant `{DateApi} s s' :
  ui_step s s' →
  everywhere org_follows_role s → everywhere org_follows_role s'.
Proof.
  intros Hstep (Hrows & Husers & Huser).
  destruct Hstep as [st w target Hin|st w target Hin|st w newName uploaded
                     |st w st' Hres|st w session faults now answers];
    simpl in *.
  - split; [|done]. apply handlePromoteUser_maintains; [|done].
    by apply (proj1 (Forall_forall _ _) Husers).
  - split; [|done]. by apply handleDemoteUser_maintains.
  - split; [|done]. by apply handleUpdateProfile_maintains.
  - destruct (reads_only_loadAll st w) as [Hdb _].
    destruct (loadAll_result st w) as (st'' & Hres' & _ & Hus & Hu).
    rewrite Hres in Hres'. injection Hres' as <-.
    unfold everywhere. simpl. rewrite Hdb. split; [done|]. split.
    + eapply Forall_impl; [exact Hus|]. intros u [Hold|Hnew].
      * by apply (proj1 (Forall_forall _ _) Husers).
      * by eapply from_store_satisfies.
    + intros u Hust'. destruct Hu as [Hsame|(u' & Hu' & Hfrom & _)].
      * apply Huser. congruence.
      * assert (u = u') as -> by congruence. by eapply from_store_satisfies.
  - done.
Qed.

(** C4, amended. Along every sequence of promotions, demotions, profile
    saves and reloads, under any backend faults and any answers to the
    confirmation prompts, every stored profile and every user record on
    screen keeps: an OFFICER has an organization and a MEMBER has none.
    (An ADMIN may carry one: promotion leaves it in place.) *)
Theorem role_invariant_preserved `{DateApi} (s s' : Sys) :
  everywhere org_follows_role s → reachable s s' →
  everywhere org_follows_role s'.
Proof.
  intros Hs Hreach. induction Hreach as [|s1 s2 _ IH Hstep]; [done|].
  by eapply ui_step_invariant.
Qed.

(** C4 as the specification words it fails.  Ben is a MEMBER without
    organization and every record satisfies "organization set if and
    only if OFFICER".  Ada promotes him, the screen reloads, she
    promotes him again: the stored profile is an ADMIN whose
    organization is still GENERAL. *)
Lemma promoted_officer_keeps_organization :
  everywhere org_iff_officer (mkSys adas_screen (march campus []))
  ∧ ∃ s, reachable (H := y2024) (mkSys adas_screen (march campus [])) s
         ∧ ¬ everywhere org_iff_officer s.
Proof.
  split.
  { unfold everywhere, org_iff_officer. simpl.
    repeat split; repeat constructor; simpl;
      try (intros [? [=]]); try discriminate.
    all: intros; simplify_eq. }
  eexists. split.
  { eapply reach_step; [eapply reach_step; [eapply reach_step; [apply reach_here|]|]|].
    - apply (step_promote _ _ (asUser ben)). simpl.
      apply list_elem_of_further, list_elem_of_here.
    - eapply step_reload. lazy. reflexivity.
    - eapply step_promote. lazy. apply list_elem_of_further, list_elem_of_here. }
  intros (Hrows & _). vm_compute in Hrows.
  apply Forall_cons in Hrows as [_ Hrows].
  apply Forall_cons in Hrows as [[Hben _] _].
  specialize (Hben ltac:(by eexists)). discriminate.
Qed.

Lemma role_invariant_preserved_witness :
  everywhere org_follows_role
    (mkSys adas_screen
           (after (App.handlePromoteUser (H := y2024) adas_screen (asUser ben))
                  (march campus []))).
Proof.
  apply (role_invariant_preserved (H := y2024) (mkSys adas_screen (march campus []))).
  - unfold everywhere, org_follows_role. simpl.
    repeat split; repeat constructor; simpl; try discriminate; try done.
    all: intros; simplify_eq.
  - eapply reach_step; [apply reach_here|].
    apply (step_promote _ _ (asUser ben)). simpl.
    apply list_elem_of_further, list_elem_of_here.
Defined.

(** ** Joining a workshop *)

Lemma Array_find_Some {A} (P : A → Prop) `{∀ x, Decision (P x)} (l : list A) x :
  Array_find P l = Some x → x ∈ l ∧ P x.
Proof.
  unfold Array_find. destruct (list_find P l) as [[i y]|] eqn:Hfind; [|done].
  simpl. intros [= <-]. apply list_find_Some in Hfind as (Hl & HP & _).
  split; [by eapply list_elem_of_lookup_2|done].
Qed.

Lemma Array_some_true {A} (P : A → Prop) `{∀ x, Decision (P x)} (l : list A) :
  Array_some P l = true ↔ Exists P l.
Proof. unfold Array_some. apply bool_decide_eq_true. Qed.





Lemma isExpired_true `{DateApi} (now : Z) (dateString : string) :
  isExpired now dateString = true
  ↔ ∃ t, Date_parse dateString = Some t ∧ (t < now)%Z.
Proof.
  unfold isExpired. destruct (Date_parse dateString) as [t|].
  - rewrite bool_decide_eq_true. split.
    + intros Hlt. by exists t.
    + by intros (t' & [= <-] & Hlt).
  - split; [done|]. by intros (t & Ht & _).
Qed.

(** After a reload, a stored participation of a user who has a profile
    shows among the participants of the workshop on screen. *)
Lemma reload_shows_participant (db : DB) (wId uid : string) (ws : Workshop.t) :
  workshop_participants.mk wId uid ∈ t_workshop_participants db →
  is_Some (find_profile db uid) →
  Array_find (λ item, Workshop.id item = wId) (map mapWorkshop (answer_workshops db))
  = Some ws →
  Exists (λ p, Participant.id p = uid) (Workshop.participants ws).
Proof.
  intros Hrow [p Hp] Hfind.
  apply Array_find_Some in Hfind as [Hin Hid].
  apply list_elem_of_fmap in Hin as (jr & -> & Hjr).
  unfold answer_workshops in Hjr.
  apply list_elem_of_fmap in Hjr as (r & -> & Hr).
  simpl in Hid. apply Exists_exists. exists (mapParticipant p).
  apply Array_find_Some in Hp as Hp'. destruct Hp' as [_ Hpid].
  split; [|done]. simpl.
  apply list_elem_of_fmap_2, list_elem_of_omap. exists (Some p). split; [|done].
  apply list_elem_of_fmap. exists (workshop_participants.mk wId uid).
  split; [by rewrite <- Hp|].
  apply list_elem_of_filter. by split.
Qed.






(** ** Likes *)

Lemma liked_iff (db : DB) (a v : string) :
  v ∈ likes_of db a ↔ announcement_likes.mk a v ∈ t_announcement_likes db.
Proof.
  unfold likes_of. rewrite list_elem_of_fmap. split.
  - intros ([a' v'] & -> & Hin). apply list_elem_of_filter in Hin as [Ha Hin].
    simpl in *. by subst.
  - intros Hin. exists (announcement_likes.mk a v). split; [done|].
    by apply list_elem_of_filter.
Qed.

Lemma toggle_accepted `{DateApi} (aid uid : string) (liked : bool) (w : World) :
  no_faults w →
  no_faults (after (storageService.toggleAnnouncementLike aid uid liked) w)
  ∧ t_announcement_likes
      (w_db (after (storageService.toggleAnnouncementLike aid uid liked) w))
    = if liked
      then filter (λ l, ¬ (announcement_likes.announcement_id l = aid
                           ∧ announcement_likes.user_id l = uid))
                  (t_announcement_likes (w_db w))
      else t_announcement_likes (w_db w) ++ [announcement_likes.mk aid uid].
Proof.
  destruct w as [db session faults now answers trace]. unfold no_faults. simpl.
  intros ->. by destruct liked.
Qed.

Lemma unlike_then_like (likes : list announcement_likes.row) (aid uid : string)
    (row : announcement_likes.row) :
  announcement_likes.mk aid uid ∈ likes →
  row ∈ filter (λ l, ¬ (announcement_likes.announcement_id l = aid
                        ∧ announcement_likes.user_id l = uid)) likes
        ++ [announcement_likes.mk aid uid]
  ↔ row ∈ likes.
Proof.
  intros Hliked. rewrite elem_of_app, list_elem_of_filter, list_elem_of_singleton.
  destruct row as [a v]. simpl. split.
  - intros [[_ Hin]|[= -> ->]]; done.
  - intros Hin.
    destruct (decide (a = aid ∧ v = uid)) as [[-> ->]|Hne]; [by right|by left].
Qed.

Lemma filter_all {A} (P : A → Prop) `{∀ x, Decision (P x)} (l : list A) :
  Forall P l → filter P l = l.
Proof.
  induction 1 as [|x l Hx Hl IH]; [done|].
  rewrite filter_cons_True; [|done]. by rewrite IH.
Qed.

Lemma like_then_unlike (likes : list announcement_likes.row) (aid uid : string) :
  announcement_likes.mk aid uid ∉ likes →
  filter (λ l, ¬ (announcement_likes.announcement_id l = aid
                  ∧ announcement_likes.user_id l = uid))
         (likes ++ [announcement_likes.mk aid uid])
  = likes.
Proof.
  intros Hnot. rewrite filter_app, filter_all.
  - rewrite filter_cons_False; [|simpl; tauto].
    by rewrite filter_nil, app_nil_r.
  - apply Forall_forall. intros [a v] Hin [Ha Hv]. simpl in *. by subst.
Qed.

(** C6. For every announcement, user and initial likes, toggling the
    like twice in a row, each call being passed the membership the
    store then shows and the store accepting both requests, leaves the
    like set of every announcement exactly as it was; when the user had
    not liked the announcement the table itself is unchanged. *)
Theorem like_toggle_round_trip `{DateApi} (announcementId userId : string) (w : World) :
  no_faults w →
  (∀ a, likeSet (w_db (after (toggleTwice announcementId userId) w)) a
        = likeSet (w_db w) a)
  ∧ (userId ∉ likes_of (w_db w) announcementId →
     t_announcement_likes (w_db (after (toggleTwice announcementId userId) w))
     = t_announcement_likes (w_db w)).
Proof.
  intros Hnf. unfold after at 1 2, toggleTwice.
  set (liked := bool_decide (userId ∈ likes_of (w_db w) announcementId)).
  destruct (toggle_accepted announcementId userId liked w Hnf) as [Hnf1 Hlikes1].
  set (w1 := after (storageService.toggleAnnouncementLike announcementId userId liked) w)
    in *.
  set (liked1 := bool_decide (userId ∈ likes_of (w_db w1) announcementId)).
  destruct (toggle_accepted announcementId userId liked1 w1 Hnf1) as [_ Hlikes2].
  fold (after (storageService.toggleAnnouncementLike announcementId userId liked1) w1).
  set (w2 := after (storageService.toggleAnnouncementLike announcementId userId liked1) w1)
    in *.
  destruct (decide (userId ∈ likes_of (w_db w) announcementId)) as [Hin|Hout].
  - assert (liked = true) as Hl by (by apply bool_decide_eq_true). rewrite Hl in Hlikes1.
    assert (liked1 = false) as Hl1.
    { apply bool_decide_eq_false. rewrite liked_iff, Hlikes1, list_elem_of_filter.
      simpl. tauto. }
    rewrite Hl1 in Hlikes2. split; [|done].
    intros a. unfold likeSet. apply set_eq. intros v.
    rewrite !elem_of_list_to_set, !liked_iff, Hlikes2, Hlikes1.
    apply unlike_then_like. by apply liked_iff.
  - assert (liked = false) as Hl by (by apply bool_decide_eq_false). rewrite Hl in Hlikes1.
    assert (liked1 = true) as Hl1.
    { apply bool_decide_eq_true. rewrite liked_iff, Hlikes1, elem_of_app.
      right. apply list_elem_of_here. }
    rewrite Hl1, Hlikes1, like_then_unlike in Hlikes2; [|by rewrite <- liked_iff].
    split; [|done].
    intros a. unfold likeSet, likes_of. by rewrite Hlikes2.
Qed.

Lemma like_toggle_round_trip_witness :
  likeSet (w_db (after (toggleTwice (H := y2024) "a-1" "u-ben") (march liked_campus [])))
          "a-1"
  = likeSet liked_campus "a-1".
Proof.
  apply (proj1 (like_toggle_round_trip (H := y2024) "a-1" "u-ben"
                  (march liked_campus []) eq_refl)).
Defined.

(** ** Traces *)

Section traces.
Context `{DateApi} (now : Z) (Q : Event → Prop).













End traces.

Lemma since_extends (w w' : World) (l : list Event) :
  w_trace w' = w_trace w ++ l → since w w' = l.
Proof. unfold since. intros ->. apply drop_app_length. Qed.

(** ** Awards *)









(** C7. The bulk workflow starts one sequence per selected participant
    and one participant's failure leaves the other sequences alone, but
    a failure is not always reported.  Ada issues awards to Ben and Cyd
    and the store refuses the insert of Ben's badge with an error
    reply: both sequences run to their end, Ben is sent a certificate
    and a congratulation without a badge, and the only alert announces
    success. *)
Theorem bulk_failure_reported_as_success :
  let w := march campus [Some (error_reply outage)] in
  let w' := after (App.handleBulkIssueAwards (H := y2024) adas_screen) w in
  fault_at w 0 = Some (error_reply outage)
  ∧ map BadgeData.userId (badgeInserts (sent w w')) = ["u-ben"; "u-cyd"]
  ∧ map CertificateData.userId (certificateInserts (sent w w')) = ["u-ben"; "u-cyd"]
  ∧ notificationInserts (sent w w') = ["u-ben"; "u-cyd"]
  ∧ map badges.user_id (t_badges (w_db w')) = ["u-cyd"]
  ∧ map certificates.user_id (t_certificates (w_db w')) = ["u-ben"; "u-cyd"]
  ∧ alerts w w' = ["Successfully issued awards to 2 participants!"].
Proof. vm_compute. repeat split. Qed.

(** When the failing request rejects instead, the other participant's
    sequence still runs to its end and one alert reports the failure. *)
Lemma bulk_rejection_reported_once :
  let w := march campus [Some (rejection outage)] in
  let w' := after (App.handleBulkIssueAwards (H := y2024) adas_screen) w in
  map BadgeData.userId (badgeInserts (sent w w')) = ["u-ben"; "u-cyd"]
  ∧ map CertificateData.userId (certificateInserts (sent w w')) = ["u-cyd"]
  ∧ notificationInserts (sent w w') = ["u-cyd"]
  ∧ alerts w w' = ["Failed to issue some awards: Service unavailable"].
Proof. vm_compute. repeat split. Qed.

(** ** Bulk issuance starts every sequence *)

Lemma badged_app (l1 l2 : list Event) : badged (l1 ++ l2) = badged l1 ++ badged l2.
Proof.
  unfold badged, badgeInserts. by rewrite !omap_app, fmap_app.
Qed.

Lemma starts_ret {A} (a : A) : starts (mret a) [].
Proof. intros w. exists []. by rewrite app_nil_r. Qed.

Lemma starts_throw {A} e : starts (@throw A e) [].
Proof. intros w. exists []. by rewrite app_nil_r. Qed.

Lemma starts_emit ev : requestOf ev = None → starts (emit ev) [].
Proof.
  intros Hev w. exists [ev]. split; [done|].
  unfold badged. simpl. by rewrite Hev.
Qed.

Lemma starts_now `{DateApi} : starts now_ISOString [].
Proof. intros w. exists []. by rewrite app_nil_r. Qed.

Lemma starts_ignore_reply `{DateApi} r : starts (ignore_reply r) (badged [Sent r]).
Proof.
  intros w. exists [Sent r]. split; [|done].
  unfold ignore_reply. rewrite after_bind.
  pose proof (supabase_trace r (λ _ : DB, no_content) w) as Ht.
  by destruct (result (supabase r (λ _ : DB, no_content)) w).
Qed.

(** Sequencing when what follows sends no badge: it does not matter
    whether the first part rejects. *)
Lemma starts_then_nothing {A B} (m : M A) (f : A → M B) ids :
  starts m ids → (∀ a, starts (f a) []) → starts (m ≫= f) ids.
Proof.
  intros Hm Hf w. rewrite after_bind.
  destruct (Hm w) as (l & Hl & Hids).
  destruct (result m w) as [a|e]; [|by exists l].
  destruct (Hf a (after m w)) as (l' & Hl' & Hids').
  exists (l ++ l'). split.
  - by rewrite Hl', Hl, app_assoc.
  - by rewrite badged_app, Hids, Hids', app_nil_r.
Qed.

(** Sequencing after a part that always resolves. *)
Lemma starts_after {A B} (m : M A) (f : A → M B) ids1 ids2 :
  (∀ w, ∃ a, result m w = Resolved a) →
  starts m ids1 → (∀ a, starts (f a) ids2) → starts (m ≫= f) (ids1 ++ ids2).
Proof.
  intros Hres Hm Hf w. rewrite after_bind.
  destruct (Hm w) as (l & Hl & Hids).
  destruct (Hres w) as (a & ->).
  destruct (Hf a (after m w)) as (l' & Hl' & Hids').
  exists (l ++ l'). split.
  - by rewrite Hl', Hl, app_assoc.
  - by rewrite badged_app, Hids, Hids'.
Qed.

Lemma starts_try_catch {A} (m : M A) (h : JsError → M A) ids :
  starts m ids → (∀ e, starts (h e) []) → starts (try_catch m h) ids.
Proof.
  intros Hm Hh w. rewrite after_try_catch.
  destruct (Hm w) as (l & Hl & Hids).
  destruct (result m w) as [a|e]; [by exists l|].
  destruct (Hh e (after m w)) as (l' & Hl' & Hids').
  exists (l ++ l'). split.
  - by rewrite Hl', Hl, app_assoc.
  - by rewrite badged_app, Hids, Hids', app_nil_r.
Qed.

Lemma starts_try_finally {A} (m : M A) (f : M unit) ids :
  starts m ids → starts f [] → starts (try_finally m f) ids.
Proof.
  intros Hm Hf w.
  destruct (Hm w) as (l & Hl & Hids).
  destruct (Hf (after m w)) as (l' & Hl' & Hids').
  assert (Hafter : after (try_finally m f) w = after f (after m w)).
  { unfold after, try_finally. destruct (m w) as [o w1]. simpl.
    by destruct (f w1) as [[[]|e] w2]. }
  rewrite Hafter. exists (l ++ l'). split.
  - by rewrite Hl', Hl, app_assoc.
  - by rewrite badged_app, Hids, Hids', app_nil_r.
Qed.

Lemma starts_settle {A} (m : M A) ids : starts m ids → starts (settle m) ids.
Proof. intros Hm w. rewrite after_settle. apply Hm. Qed.

Lemma settle_all_resolves {A} (ms : list (M A)) (w : World) :
  ∃ os, result (settle_all ms) w = Resolved os.
Proof.
  revert w. induction ms as [|m ms IH]; intros w; simpl.
  - by exists [].
  - rewrite result_bind, result_settle, result_bind.
    destruct (IH (after (settle m) w)) as (os & ->). by eexists.
Qed.

Lemma starts_settle_all {A} (task : string → M A) (ids : list string) :
  (∀ pId, pId ∈ ids → starts (task pId) [pId]) →
  starts (settle_all (map task ids)) ids.
Proof.
  induction ids as [|pId ids IH]; intros Htask; simpl; [apply starts_ret|].
  apply (starts_after _ _ [pId] ids).
  - intros w. rewrite result_settle. by eexists.
  - apply starts_settle, Htask, list_elem_of_here.
  - intros o w. rewrite after_bind.
    destruct (settle_all_resolves (map task ids) w) as (os & ->).
    rewrite after_ret. apply IH.
    intros p Hp. apply Htask. by apply list_elem_of_further.
Qed.

Lemma starts_bulkTask `{DateApi} (workshop : Workshop.t) (issuedAt pId : string) :
  Exists (λ p, Participant.id p = pId) (Workshop.participants workshop) →
  starts (App.bulkTask workshop issuedAt pId) [pId].
Proof.
  intros Hin. unfold App.bulkTask.
  destruct (Array_find (λ p, Participant.id p = pId)
                       (Workshop.participants workshop)) as [p|] eqn:Hfind.
  - unfold App.issueSequence, storageService.issueBadge,
      storageService.issueCertificate, storageService.sendNotification.
    apply (starts_then_nothing _ _ [pId]); [apply starts_ignore_reply|].
    intros _. apply (starts_then_nothing _ _ []); [apply starts_ignore_reply|].
    intros _. apply starts_ignore_reply.
  - exfalso. apply Exists_exists in Hin as (p & Hp & Hid).
    unfold Array_find in Hfind.
    destruct (list_find_elem_of (λ p, Participant.id p = pId) _ p Hp Hid)
      as [ip Hip].
    by rewrite Hip in Hfind.
Qed.

(** For every workshop on screen and every non-empty selection among
    its participants, once the prompt is accepted the bulk workflow
    sends one badge insert per selected participant, in the order of
    the selection, whatever happens to any of the requests. *)
Lemma bulk_starts_every_sequence `{DateApi} (st : App.State) (w : World)
    (wid : string) (workshop : Workshop.t) :
  truthy (App.selectedWorkshopId st) = Some wid →
  Array_find (λ w, Workshop.id w = wid) (App.workshops st) = Some workshop →
  App.selectedParticipants st ≠ [] →
  Forall (λ pId, Exists (λ p, Participant.id p = pId) (Workshop.participants workshop))
         (App.selectedParticipants st) →
  (∀ prompt, w_confirm w prompt = true) →
  map BadgeData.userId
      (badgeInserts (sent w (after (App.handleBulkIssueAwards st) w)))
  = App.selectedParticipants st.
Proof.
  intros Hsel Hfind Hne Hamong Hconfirm.
  unfold App.handleBulkIssueAwards. rewrite Hsel.
  destruct (decide (length (App.selectedParticipants st) = 0)) as [Hz|_].
  { by destruct (App.selectedParticipants st). }
  rewrite Hfind, after_bind, result_confirm, after_confirm, Hconfirm. cbn [negb].
  set (body := emit (setIsBulkIssuing true) ≫= _).
  assert (Hbody : starts body (App.selectedParticipants st)).
  { unfold body.
    apply (starts_after _ _ [] (App.selectedParticipants st));
      [by eexists|by apply starts_emit|].
    intros _. apply starts_try_finally; [|by apply starts_emit].
    apply starts_try_catch; [|intros e; by apply starts_emit].
    cbv zeta.
    apply (starts_after _ _ [] (App.selectedParticipants st));
      [intros w0; by eexists|apply starts_now|].
    intros issuedAt.
    apply starts_then_nothing.
    - unfold Promise_all. apply starts_then_nothing.
      + apply starts_settle_all. intros pId HpId.
        apply starts_bulkTask. by apply (proj1 (Forall_forall _ _) Hamong).
      + intros os. destruct (gather os); [apply starts_ret|apply starts_throw].
    - intros _. apply (starts_then_nothing _ _ []); by intros; apply starts_emit. }
  destruct (Hbody w) as (l & Hl & Hids).
  unfold sent. by rewrite (since_extends _ _ _ Hl).
Qed.

(** * Further properties *)

(** ** Relative time *)

(** X1. For a date that parses, [getRelativeTime] rounds the distance
    to the wall clock down: under an hour it says "Just now" or
    "Starting soon" (also for the present instant), under a day it
    counts whole hours from 1 to 23, from one day on it says
    "Yesterday" or "Tomorrow", then counts whole days from 2 to 6, and
    from a week on it prints the date in the locale's format.  It never
    prints a count of zero hours, zero days or one day. *)
Theorem getRelativeTime_labels `{DateApi} (toLocaleDateString : Z → string)
    (now date : Z) (dateString : string) :
  Date_parse dateString = Some date →
  let d := Z.abs (date - now) in
  let past := bool_decide (date < now)%Z in
  let label := getRelativeTime toLocaleDateString now dateString in
  ((d < 3600000)%Z → label = if past then "Just now" else "Starting soon")
  ∧ ((3600000 ≤ d < 86400000)%Z →
     ∃ h, (1 ≤ h ≤ 23)%Z ∧ (h * 3600000 ≤ d < (h + 1) * 3600000)%Z
          ∧ label = if past then pretty h +:+ "h ago" else "In " +:+ pretty h +:+ "h")
  ∧ ((86400000 ≤ d < 172800000)%Z →
     label = if past then "Yesterday" else "Tomorrow")
  ∧ ((172800000 ≤ d < 604800000)%Z →
     ∃ n, (2 ≤ n ≤ 6)%Z ∧ (n * 86400000 ≤ d < (n + 1) * 86400000)%Z
          ∧ label = if past then pretty n +:+ "d ago" else "In " +:+ pretty n +:+ "d")
  ∧ ((604800000 ≤ d)%Z → label = toLocaleDateString date).
Proof.
  intros Hparse d past label. subst label. unfold getRelativeTime.
  rewrite Hparse. cbv zeta. fold d.
  change (1000 * 60 * 60 * 24)%Z with 86400000%Z.
  change (1000 * 60 * 60)%Z with 3600000%Z.
  assert (Hpast : bool_decide (date - now < 0)%Z = past)
    by (apply bool_decide_ext; lia).
  rewrite !Hpast.
  pose proof (Z.div_mod d 86400000 ltac:(lia)) as Hdays.
  pose proof (Z.mod_pos_bound d 86400000 ltac:(lia)) as Hdays'.
  pose proof (Z.div_mod d 3600000 ltac:(lia)) as Hhours.
  pose proof (Z.mod_pos_bound d 3600000 ltac:(lia)) as Hhours'.
  set (days := (d / 86400000)%Z) in *. set (hours := (d / 3600000)%Z) in *.
  assert (0 ≤ d)%Z by (unfold d; lia).
  repeat split; intros Hd.
  - destruct (decide (days = 0%Z)); [|lia].
    destruct (decide (hours = 0%Z)); [done|lia].
  - destruct (decide (days = 0%Z)); [|lia].
    destruct (decide (hours = 0%Z)); [lia|].
    exists hours. repeat split; try lia. 
  - destruct (decide (days = 0%Z)); [lia|].
    destruct (decide (days = 1%Z)); [done|lia].
  - destruct (decide (days = 0%Z)); [lia|].
    destruct (decide (days = 1%Z)); [lia|].
    destruct (decide (days < 7)%Z); [|lia].
    exists days. repeat split; try lia.
  - destruct (decide (days = 0%Z)); [lia|].
    destruct (decide (days = 1%Z)); [lia|].
    destruct (decide (days < 7)%Z); [lia|done].
Qed.

Lemma getRelativeTime_labels_witness :
  getRelativeTime (H := y2024) (λ _, "Mar 1") (1709251200000 + 5400000) t1 = "1h ago".
Proof.
  destruct (getRelativeTime_labels (H := y2024) (λ _, "Mar 1")
              (1709251200000 + 5400000) 1709251200000 t1 eq_refl)
    as (_ & Hhours & _).
  destruct Hhours as (h & Hh & Hbounds & Hlabel); [lia|].
  assert (h = 1%Z) as -> by lia. exact Hlabel.
Defined.

(** ** Analytics totals *)

Lemma organizations_partition {A} (org : A → Organization) (size : A → nat)
    (l : list A) :
  sum_list (map (λ o, sum_list (map size (filter (λ x, org x = o) l))) orgs)
  = sum_list (map size l).
Proof.
  unfold orgs. cbn [map sum_list].
  induction l as [|x l IH]; [done|].
  rewrite !filter_cons. cbn [map sum_list].
  destruct (org x) eqn:Hx;
    repeat (case_decide; try done); unfold id in *; cbn [map sum_list]; lia.
Qed.

Lemma sum_list_ones {A} (l : list A) : sum_list (map (λ _, 1) l) = length l.
Proof. induction l; simpl; lia. Qed.

Lemma foldl_awards (us : list User.t) (acc : nat) :
  foldl (λ acc u, acc + length (User.badges u) + length (User.certificates u)) acc us
  = acc + sum_list (map (λ u, length (User.badges u) + length (User.certificates u)) us).
Proof.
  revert acc. induction us as [|u us IH]; intros acc; simpl; [lia|].
  rewrite IH. lia.
Qed.

(** X2. The four per-organization entries of the analytics split the
    data without loss or double counting: their workshop counts add up
    to the number of workshops, their announcement counts to the number
    of announcements, their participant counts to the total attendance
    and their scores to 5 x workshops + 2 x announcements + attendance.
    The award total is the number of badges and certificates over all
    users, and a user whose creation date does not parse is never
    counted as a new member. *)
Theorem analytics_totals `{DateApi} (thirtyDaysAgo : Z) (ws : list Workshop.t)
    (ans : list Announcement.t) (us : list User.t) :
  let d := analyticsData thirtyDaysAgo ws ans us in
  sum_list (map OrgStat.workshops (AnalyticsData.perOrg d)) = length ws
  ∧ sum_list (map OrgStat.announcements (AnalyticsData.perOrg d)) = length ans
  ∧ sum_list (map OrgStat.participants (AnalyticsData.perOrg d)) = totalParticipation ws
  ∧ sum_list (map OrgStat.score (AnalyticsData.perOrg d))
    = 5 * length ws + 2 * length ans + totalParticipation ws
  ∧ AnalyticsData.totalAwards d
    = sum_list (map (λ u, length (User.badges u) + length (User.certificates u)) us)
  ∧ AnalyticsData.newMembers d
    ≤ length (filter (λ u, is_Some (Date_parse (User.createdAt u))) us).
Proof.
  intros d.
  pose proof (organizations_partition Workshop.organization (λ _, 1) ws) as Hw.
  pose proof (organizations_partition Announcement.organization (λ _, 1) ans) as Ha.
  pose proof (organizations_partition Workshop.organization attendance ws) as Hp.
  unfold orgs in Hw, Ha, Hp. cbn [map sum_list] in Hw, Ha, Hp.
  rewrite !sum_list_ones in Hw. rewrite !sum_list_ones in Ha.
  subst d. unfold analyticsData.
  cbn [AnalyticsData.perOrg AnalyticsData.totalAwards AnalyticsData.newMembers].
  unfold orgs. cbn [map sum_list].
  repeat match goal with
         | |- context [perOrgEntry ws ans ?o] =>
             let Hs := fresh "Hs" in
             pose proof (perOrgEntry_spec ws ans o) as Hs; cbv zeta in Hs;
             destruct Hs as (_ & ? & ? & ? & ?);
             generalize dependent (perOrgEntry ws ans o); intros
         end.
  unfold workshopsOf, announcementsOf, totalParticipation, id in *.
  repeat split; try lia.
  - rewrite foldl_awards. unfold id. lia.
  - induction us as [|u us IH]; [done|].
    rewrite !filter_cons.
    destruct (decide (createdAfter thirtyDaysAgo (User.createdAt u) = true)) as [Hc|Hc];
      destruct (decide (is_Some (Date_parse (User.createdAt u)))) as [Hs|Hs];
      simpl; try lia.
    exfalso. apply Hs. unfold createdAfter in Hc.
    destruct (Date_parse (User.createdAt u)); [by eexists|done].
Qed.

(** ** Layout of the attendance trend *)






(** ** Selecting participants *)

Lemma Set_add_elem (x y : string) (s : list string) :
  y ∈ Set_add x s ↔ y = x ∨ y ∈ s.
Proof.
  unfold Set_add, Set_has. case_bool_decide as Hx.
  - split; [by right|]. by intros [->|?].
  - rewrite elem_of_app, list_elem_of_singleton. tauto.
Qed.

Lemma Set_add_NoDup (x : string) (s : list string) : NoDup s → NoDup (Set_add x s).
Proof.
  intros Hs. unfold Set_add, Set_has. case_bool_decide as Hx; [done|].
  apply NoDup_app. split; [done|]. split; [|apply NoDup_singleton].
  intros y Hy ->%list_elem_of_singleton. done.
Qed.

Lemma Set_from_spec (l : list string) :
  NoDup (Set_from l) ∧ ∀ x, x ∈ Set_from l ↔ x ∈ l.
Proof.
  unfold Set_from.
  enough (Hgen : ∀ acc, NoDup acc →
            NoDup (foldl (λ s x, Set_add x s) acc l)
            ∧ ∀ x, x ∈ foldl (λ s x, Set_add x s) acc l ↔ x ∈ acc ∨ x ∈ l).
  { destruct (Hgen [] (NoDup_nil_2)) as [Hnd Hin]. split; [done|].
    intros x. rewrite Hin. rewrite elem_of_nil. tauto. }
  induction l as [|y l IH]; intros acc Hacc; simpl.
  - split; [done|]. intros x. rewrite elem_of_nil. tauto.
  - destruct (IH (Set_add y acc) (Set_add_NoDup y acc Hacc)) as [Hnd Hin].
    split; [done|]. intros x. rewrite Hin, Set_add_elem, elem_of_cons. tauto.
Qed.

Lemma Set_from_NoDup (l : list string) : NoDup l → Set_from l = l.
Proof.
  unfold Set_from.
  enough (Hgen : ∀ acc, NoDup (acc ++ l) →
            foldl (λ s x, Set_add x s) acc l = acc ++ l).
  { intros Hl. by apply (Hgen []). }
  induction l as [|y l IH]; intros acc Hnd; simpl; [by rewrite app_nil_r|].
  assert (Hy : y ∉ acc).
  { apply NoDup_app in Hnd as (_ & Hdisj & _). intros Hin.
    apply (Hdisj y Hin). apply list_elem_of_here. }
  unfold Set_add at 2, Set_has. rewrite bool_decide_eq_false_2 by done.
  rewrite IH; [by rewrite <- app_assoc|]. by rewrite <- app_assoc.
Qed.

(** X4. On a selection without repeated ids (a [Set]), ticking a
    participant flips exactly that participant's membership and leaves
    everyone else's alone, so the size moves by one; ticking the same
    participant twice restores the selection's members.  "Select all"
    on a selection of another size than the list selects exactly the
    listed participants, once each; on a selection of the same size it
    clears it, so a second click on "select all" deselects everyone
    when the listed ids are distinct. *)
Theorem selection_toggles (st : App.State) (id : string) (parts : list Participant.t) :
  NoDup (App.selectedParticipants st) →
  let selected := App.selectedParticipants st in
  let once := App.toggleParticipantSelection st id in
  let twice := App.toggleParticipantSelection (withSelection st once) id in
  let all := App.handleSelectAll st parts in
  (NoDup once
   ∧ (id ∈ once ↔ id ∉ selected)
   ∧ (∀ x, x ≠ id → (x ∈ once ↔ x ∈ selected))
   ∧ length once = (if bool_decide (id ∈ selected)
                    then length selected - 1 else length selected + 1)
   ∧ twice ≡ₚ selected)
  ∧ (length selected ≠ length parts →
     NoDup all ∧ (∀ x, x ∈ all ↔ x ∈ map Participant.id parts)
     ∧ (NoDup (map Participant.id parts) →
        all = map Participant.id parts
        ∧ App.handleSelectAll (withSelection st all) parts = []))
  ∧ (length selected = length parts → all = []).
Proof.
  intros Hnd selected once twice all.
  assert (Hdel : ∀ s, NoDup s → id ∈ s →
            length (Set_delete id s) = length s - 1
            ∧ Set_delete id s ++ [id] ≡ₚ s).
  { intros s Hs Hin. apply list_elem_of_split in Hin as (l1 & l2 & ->).
    apply NoDup_app in Hs as (Hl1 & Hdisj & Hl2).
    apply NoDup_cons in Hl2 as [Hid Hl2].
    assert (Hid1 : id ∉ l1).
    { intros Hin. apply (Hdisj id Hin), list_elem_of_here. }
    unfold Set_delete. rewrite filter_app, filter_cons.
    destruct (decide (id ≠ id)) as [Hne|_]; [done|].
    rewrite !filter_all.
    - split; [rewrite !length_app; simpl; lia|].
      rewrite <- app_assoc. apply Permutation_app_head.
      symmetry. apply Permutation_cons_append.
    - apply Forall_forall. intros x Hx ->. done.
    - apply Forall_forall. intros x Hx ->. done. }
  split; [|split].
  - unfold twice, once, App.toggleParticipantSelection.
    cbn [withSelection App.selectedParticipants]. fold selected.
    unfold Set_has. destruct (bool_decide (id ∈ selected)) eqn:Hin; cbv iota.
    + apply bool_decide_eq_true in Hin.
      destruct (Hdel selected Hnd Hin) as [Hlen Hperm].
      assert (Hout : id ∉ Set_delete id selected).
      { unfold Set_delete. rewrite list_elem_of_filter. tauto. }
      rewrite bool_decide_eq_false_2 by done.
      split; [by apply NoDup_filter|]. split; [tauto|]. split.
      { intros x Hx. unfold Set_delete. rewrite list_elem_of_filter. tauto. }
      split; [done|].
      unfold Set_add, Set_has. by rewrite bool_decide_eq_false_2.
    + apply bool_decide_eq_false in Hin.
      assert (Hadd : Set_add id selected = selected ++ [id]).
      { unfold Set_add, Set_has. by rewrite bool_decide_eq_false_2. }
      rewrite Hadd.
      rewrite bool_decide_eq_true_2
        by (rewrite elem_of_app, list_elem_of_singleton; by right).
      split.
      { apply NoDup_app. split; [done|]. split; [|apply NoDup_singleton].
        intros y Hy ->%list_elem_of_singleton. done. }
      split.
      { rewrite elem_of_app, list_elem_of_singleton. tauto. }
      split.
      { intros x Hx. rewrite elem_of_app, list_elem_of_singleton. tauto. }
      split; [rewrite length_app; simpl; lia|].
      unfold Set_delete. rewrite filter_app, filter_cons.
      destruct (decide (id ≠ id)) as [Hne|_]; [done|].
      rewrite filter_nil, app_nil_r, filter_all; [done|].
      apply Forall_forall. intros x Hx ->. done.
  - intros Hsize. unfold all, App.handleSelectAll. fold selected.
    destruct (decide (length selected = length parts)) as [|_]; [done|].
    destruct (Set_from_spec (map Participant.id parts)) as [Hs Hin].
    split; [done|]. split; [done|].
    intros Hparts. rewrite (Set_from_NoDup _ Hparts). split; [done|].
    cbn [withSelection App.selectedParticipants].
    rewrite length_map. by destruct (decide _).
  - intros Hsize. unfold all, App.handleSelectAll. fold selected.
    by destruct (decide (length selected = length parts)).
Qed.

Lemma selection_toggles_witness :
  App.toggleParticipantSelection
    (withSelection adas_screen (App.toggleParticipantSelection adas_screen "u-ben"))
    "u-ben"
  ≡ₚ ["u-ben"; "u-cyd"].
Proof.
  refine (proj2 (proj2 (proj2 (proj2 (proj1
    (selection_toggles adas_screen "u-ben" [] _)))))).
  apply NoDup_cons. split.
  - intros Hin%list_elem_of_singleton. discriminate.
  - apply NoDup_singleton.
Defined.

(** ** Who may edit and delete an announcement *)

(** X5. On an announcement card, whoever is offered the edit button is
    also offered the delete button.  Nobody signed out is offered
    either; an officer who is not the author may delete exactly the
    announcements of the own organization and edit none; a member may
    edit and delete exactly the own announcements. *)
Theorem announcement_permissions (user : option User.t) (a : Announcement.t) :
  (AnnouncementCard.canEdit user a = true → AnnouncementCard.canDelete user a = true)
  ∧ (user = None →
     AnnouncementCard.canEdit user a = false
     ∧ AnnouncementCard.canDelete user a = false)
  ∧ (∀ u, user = Some u → User.role u = OFFICER →
          User.id u ≠ Announcement.authorId a →
          AnnouncementCard.canEdit user a = false
          ∧ (AnnouncementCard.canDelete user a = true
             ↔ User.officerOrg u = Some (Announcement.organization a)))
  ∧ (∀ u, user = Some u → User.role u = MEMBER →
          (AnnouncementCard.canEdit user a = true
           ↔ User.id u = Announcement.authorId a)
          ∧ (AnnouncementCard.canDelete user a = true
             ↔ User.id u = Announcement.authorId a)).
Proof.
  unfold AnnouncementCard.canEdit, AnnouncementCard.canDelete.
  split; [|split; [|split]].
  - intros [Hauthor|Hadmin]%orb_true_iff.
    + rewrite Hauthor. by rewrite orb_true_r.
    + by rewrite Hadmin.
  - by intros ->.
  - intros u -> Hrole Hid. simpl. rewrite Hrole.
    rewrite (bool_decide_eq_false_2 (Some (User.id u) = _)) by congruence.
    rewrite (bool_decide_eq_false_2 (Some OFFICER = Some ADMIN)) by done.
    rewrite (bool_decide_eq_true_2 (Some OFFICER = Some OFFICER)) by done.
    split; [done|]. simpl. rewrite orb_false_r. apply bool_decide_eq_true.
  - intros u -> Hrole. simpl. rewrite Hrole.
    rewrite (bool_decide_eq_false_2 (Some MEMBER = Some ADMIN)) by done.
    rewrite (bool_decide_eq_false_2 (Some MEMBER = Some OFFICER)) by done.
    simpl. rewrite orb_false_r, bool_decide_eq_true.
    split; (split; [by intros [= ->]|by intros ->]).
Qed.

(** ** The notification inbox *)

Lemma unread_iff (ns : list Notification.t) :
  NotificationDropdown.showMarkAllRead ns = true ↔ 0 < Navbar.unreadCount ns.
Proof.
  unfold NotificationDropdown.showMarkAllRead, Navbar.unreadCount.
  rewrite Array_some_true, Exists_exists. split.
  - intros (n & Hn & Hread).
    assert (Hin : n ∈ filter (λ n, Notification.read n = false) ns)
      by (by apply list_elem_of_filter).
    destruct (filter _ ns); [by apply elem_of_nil in Hin|simpl; lia].
  - intros Hlen.
    destruct (filter (λ n, Notification.read n = false) ns) as [|n l] eqn:Hf;
      [simpl in Hlen; lia|].
    assert (Hin : n ∈ filter (λ n, Notification.read n = false) ns)
      by (rewrite Hf; apply list_elem_of_here).
    apply list_elem_of_filter in Hin as [Hread Hin]. by exists n.
Qed.

(** X6. The inbox lists every notification exactly once, newest first
    when the dates parse, and offers "Mark All Read" exactly when the
    bell shows the unread dot, that is when some notification is
    unread. *)
Theorem inbox_order `{DateApi} (ns : list Notification.t) :
  NotificationDropdown.sorted ns ≡ₚ ns
  ∧ (Forall (λ n, is_Some (Date_parse (Notification.createdAt n))) ns →
     StronglySorted (λ a b, (received b ≤ received a)%Z)
                    (NotificationDropdown.sorted ns))
  ∧ (NotificationDropdown.showMarkAllRead ns = true ↔ 0 < Navbar.unreadCount ns)
  ∧ Navbar.unreadCount (NotificationDropdown.sorted ns) = Navbar.unreadCount ns.
Proof.
  split; [apply Array_sort_perm|]. split; [|split; [apply unread_iff|]].
  - intros Hparse.
    apply (StronglySorted_impl (λ a b, (- received a ≤ - received b)%Z));
      [intros a b; lia|].
    apply (Array_sort_sorted NotificationDropdown.byCreatedDesc
             (λ n, (- received n)%Z)
             (λ n, is_Some (Date_parse (Notification.createdAt n)))); [|done].
    intros a b [ta Ha] [tb Hb].
    unfold NotificationDropdown.byCreatedDesc, received. rewrite Ha, Hb. simpl. lia.
  - unfold Navbar.unreadCount, NotificationDropdown.sorted.
    apply Permutation_length. by rewrite Array_sort_perm.
Qed.

(** ** Requests the store accepts

    The tables keep their rows in insertion order and a select returns
    them in that order; where a statement below speaks of the order of
    rows it is this order. *)

Lemma supabase_ok `{DateApi} {T} r (answer : DB → Response T) w :
  no_faults w →
  supabase r answer w = (Resolved (answer (w_db w)), accepted r w).
Proof. unfold no_faults, supabase, accepted. by intros ->. Qed.

Lemma accepted_no_faults `{DateApi} r w : no_faults (accepted r w).
Proof. done. Qed.

Lemma throw_on_error_ok `{DateApi} r w :
  no_faults w → throw_on_error r w = (Resolved (), accepted r w).
Proof.
  intros Hw. unfold throw_on_error. rewrite bind_run.
  unfold result, after. by rewrite (supabase_ok _ _ _ Hw).
Qed.

Lemma ignore_reply_ok `{DateApi} r w :
  no_faults w → ignore_reply r w = (Resolved (), accepted r w).
Proof.
  intros Hw. unfold ignore_reply. rewrite bind_run.
  unfold result, after. by rewrite (supabase_ok _ _ _ Hw).
Qed.

Lemma mapProfileToUser_ok `{DateApi} (profile : profiles.row) (w : World) :
  no_faults w →
  result (mapProfileToUser profile) w
  = Resolved (userOf profile (badgesOf (w_db w) (profiles.id profile))
                (certificatesOf (w_db w) (profiles.id profile))
                (notificationsOf (w_db w) (profiles.id profile))).
Proof.
  intros Hw. destruct (mapProfileToUser_run profile w) as [-> _].
  unfold fault_at. rewrite Hw. done.
Qed.

Lemma filter_fmap_preserved {A} (P : A → Prop) `{∀ x, Decision (P x)}
    (f : A → A) (l : list A) :
  (∀ x, P (f x) ↔ P x) → filter P (map f l) = map f (filter P l).
Proof.
  intros Hf. induction l as [|x l IH]; [done|].
  cbn [map]. rewrite !filter_cons.
  destruct (decide (P (f x))) as [Hy|Hn], (decide (P x)) as [Hx|Hx];
    cbn [map]; rewrite ?IH; try done.
  - exfalso. by apply Hx, Hf.
  - exfalso. by apply Hn, Hf.
Qed.

Lemma find_profile_id (db : DB) (id : string) (p : profiles.row) :
  find_profile db id = Some p → profiles.id p = id ∧ p ∈ t_profiles db.
Proof.
  unfold find_profile. intros Hp. by apply Array_find_Some in Hp as [? ?].
Qed.

(** ** Saving a profile *)

Lemma Array_find_fmap_update {A} (P : A → Prop) `{∀ x, Decision (P x)}
    (f : A → A) (l : list A) :
  (∀ x, P (f x) ↔ P x) →
  Array_find P (map f l) = f <$> Array_find P l.
Proof.
  intros Hf. unfold Array_find. induction l as [|x l IH]; [done|].
  cbn [map list_find].
  destruct (decide (P (f x))) as [Hy|Hn], (decide (P x)) as [Hx|Hx]; simpl.
  - done.
  - exfalso. by apply Hx, Hf.
  - exfalso. by apply Hn, Hf.
  - revert IH. destruct (list_find P (map f l)) as [[i y]|],
      (list_find P l) as [[j z]|]; simpl; congruence.
Qed.

(** X7. When the store accepts it, [saveUser] overwrites name, e-mail,
    role, organization and avatar of the profile with the user's id and
    keeps its creation date; every other profile is found unchanged and
    no profile appears or disappears.  For an id without a profile the
    call still resolves and the tables are exactly as before: saving an
    unknown user is a silent no-op. *)
Theorem saveUser_stored `{DateApi} (user : User.t) (w : World) :
  no_faults w →
  let w' := after (storageService.saveUser user) w in
  result (storageService.saveUser user) w = Resolved ()
  ∧ (∀ p, find_profile (w_db w) (User.id user) = Some p →
          find_profile (w_db w') (User.id user)
          = Some (profiles.mk (User.id user) (User.name user) (User.email user)
                    (User.role user) (User.officerOrg user) (User.avatarUrl user)
                    (profiles.created_at p)))
  ∧ (∀ id, id ≠ User.id user → find_profile (w_db w') id = find_profile (w_db w) id)
  ∧ map profiles.id (t_profiles (w_db w')) = map profiles.id (t_profiles (w_db w))
  ∧ (find_profile (w_db w) (User.id user) = None → w_db w' = w_db w).
Proof.
  intros Hw w'. subst w'. unfold storageService.saveUser, result, after.
  rewrite (throw_on_error_ok _ _ Hw). cbn [fst snd accepted w_db apply_request].
  destruct (w_db w) as [ps bs cs ns wks wps cms ans acs als serial].
  cbn [t_profiles t_badges t_certificates t_notifications t_workshops
       t_workshop_participants t_comments t_announcements t_announcement_comments
       t_announcement_likes t_serial].
  unfold find_profile. cbn [t_profiles].
  set (f := λ p : profiles.row,
         if decide (profiles.id p = User.id user)
         then profiles.mk (User.id user) (User.name user) (User.email user)
                (User.role user) (User.officerOrg user) (User.avatarUrl user)
                (profiles.created_at p)
         else p).
  assert (Hid : ∀ p, profiles.id (f p) = profiles.id p).
  { intros p. unfold f. by destruct (decide _). }
  split; [done|]. split; [|split; [|split]].
  - intros p Hp.
    rewrite (Array_find_fmap_update _ f) by (intros x; by rewrite Hid).
    rewrite Hp. simpl. apply Array_find_Some in Hp as [_ Hp].
    unfold f. by rewrite decide_True.
  - intros id Hne.
    rewrite (Array_find_fmap_update _ f) by (intros x; by rewrite Hid).
    destruct (Array_find _ ps) as [p|] eqn:Hp; [|done].
    apply Array_find_Some in Hp as [_ Hp]. simpl. unfold f.
    rewrite decide_False; [done|congruence].
  - rewrite <- list_fmap_compose. apply list_fmap_ext. intros i p _. apply Hid.
  - intros Hnone. f_equal.
    transitivity (map (λ p : profiles.row, p) ps); [|apply list_fmap_id].
    apply list_fmap_ext. intros i p Hi. unfold f.
    destruct (decide (profiles.id p = User.id user)) as [Hp|]; [|done].
    exfalso. apply list_elem_of_lookup_2 in Hi.
    unfold Array_find in Hnone.
    destruct (list_find (λ p, profiles.id p = User.id user) ps) as [[j q]|] eqn:Hf;
      [done|].
    apply list_find_None in Hf. rewrite Forall_forall in Hf. by apply (Hf p).
Qed.

Lemma saveUser_stored_witness :
  find_profile
    (w_db (after (storageService.saveUser (H := y2024)
                    (with_role (asUser ben) OFFICER (Some TCC)))
                 (march campus [])))
    "u-ben"
  = Some (profiles.mk "u-ben" "Ben" "ben@campus.edu" OFFICER (Some TCC) None t0).
Proof.
  destruct (saveUser_stored (H := y2024) (with_role (asUser ben) OFFICER (Some TCC))
              (march campus []) eq_refl) as (_ & Hstored & _).
  exact (Hstored ben eq_refl).
Defined.

(** ** Registering and removing a participant *)

Lemma filter_filter_neg {A} (P : A → Prop) `{∀ x, Decision (P x)} (l : list A) :
  filter P (filter (λ x, ¬ P x) l) = [].
Proof.
  induction l as [|x l IH]; [done|].
  rewrite filter_cons. destruct (decide (¬ P x)) as [Hn|Hp]; [|done].
  rewrite filter_cons. by destruct (decide (P x)).
Qed.

Lemma filter_filter_other {A} (P Q : A → Prop) `{∀ x, Decision (P x)}
    `{∀ x, Decision (Q x)} (l : list A) :
  (∀ x, Q x → ¬ P x) → filter Q (filter (λ x, ¬ P x) l) = filter Q l.
Proof.
  intros HQ. induction l as [|x l IH]; [done|].
  rewrite !filter_cons.
  destruct (decide (¬ P x)) as [Hn|Hp], (decide (Q x)) as [Hq|Hq];
    rewrite ?filter_cons, ?decide_True, ?decide_False by done; rewrite ?IH; try done.
  exfalso. by apply Hp, HQ.
Qed.

(** X8. With the store accepting both requests, [joinWorkshop] adds
    exactly one participation record for the pair, and [removeParticipant]
    afterwards leaves none for it, whatever number was stored before,
    without touching the records of any other workshop or user.  When
    the pair had no record before, joining and then removing restores
    the tables exactly. *)
Theorem join_then_remove `{DateApi} (workshopId userId : string) (w : World) :
  no_faults w →
  let joined := after (storageService.joinWorkshop workshopId userId) w in
  let removed := after (storageService.removeParticipant workshopId userId) joined in
  participations workshopId userId (w_db joined)
  = participations workshopId userId (w_db w) + 1
  ∧ participations workshopId userId (w_db removed) = 0
  ∧ (∀ wid uid, ¬ (wid = workshopId ∧ uid = userId) →
       participations wid uid (w_db joined) = participations wid uid (w_db w)
       ∧ participations wid uid (w_db removed) = participations wid uid (w_db w))
  ∧ (participations workshopId userId (w_db w) = 0 → w_db removed = w_db w).
Proof.
  intros Hw joined removed. subst removed joined.
  unfold storageService.joinWorkshop, storageService.removeParticipant, after.
  rewrite (throw_on_error_ok _ _ Hw). cbn [snd].
  rewrite (throw_on_error_ok _ _ (accepted_no_faults _ _)). cbn [snd].
  unfold participations. cbn [accepted w_db w_now apply_request].
  destruct (w_db w) as [ps bs cs ns wks wps cms ans acs als serial].
  cbn [t_profiles t_badges t_certificates t_notifications t_workshops
       t_workshop_participants t_comments t_announcements t_announcement_comments
       t_announcement_likes t_serial].
  split; [|split; [|split]].
  - rewrite filter_app, filter_cons, decide_True by done.
    rewrite length_app. simpl. lia.
  - by rewrite filter_filter_neg.
  - intros wid uid Hother.
    assert (Hmiss : ∀ x, workshop_participants.workshop_id x = wid
                         ∧ workshop_participants.user_id x = uid →
                         ¬ (workshop_participants.workshop_id x = workshopId
                            ∧ workshop_participants.user_id x = userId)).
    { intros x [<- <-] [? ?]. by apply Hother. }
    rewrite (filter_filter_other _ _ _ Hmiss).
    rewrite filter_app, filter_cons, decide_False, filter_nil, app_nil_r; [done|].
    simpl. intros [? ?]. by apply Hother.
  - intros Hnone. f_equal.
    rewrite filter_app, filter_cons, decide_False, filter_nil, app_nil_r
      by (simpl; tauto).
    apply filter_all, Forall_forall. intros x Hx Hpair.
    apply length_zero_iff_nil in Hnone.
    assert (Hin : x ∈ filter (λ wp, workshop_participants.workshop_id wp = workshopId
                                    ∧ workshop_participants.user_id wp = userId) wps)
      by (by apply list_elem_of_filter).
    rewrite Hnone in Hin. by apply elem_of_nil in Hin.
Qed.

Lemma join_then_remove_witness :
  participations "w-1" "u-ada"
    (w_db (after (storageService.joinWorkshop (H := y2024) "w-1" "u-ada")
                 (march campus [])))
  = 1.
Proof.
  exact (proj1 (join_then_remove (H := y2024) "w-1" "u-ada" (march campus []) eq_refl)).
Defined.

(** ** What the workshop list shows *)

Lemma getWorkshops_ok `{DateApi} (w : World) :
  no_faults w →
  result storageService.getWorkshops w
  = Resolved (map mapWorkshop (answer_workshops (w_db w))).
Proof.
  intros Hw. unfold storageService.getWorkshops.
  rewrite result_try_catch, result_bind. unfold result at 1, after.
  by rewrite (supabase_ok _ _ _ Hw).
Qed.

Lemma shown_participants (db : DB) (rows : list workshop_participants.row) :
  map Participant.id
      (map mapParticipant
           (omap id (map (λ wp, find_profile db (workshop_participants.user_id wp)) rows)))
  = filter (λ uid, is_Some (find_profile db uid))
           (map workshop_participants.user_id rows).
Proof.
  induction rows as [|wp rows IH]; [done|].
  cbn [map]. rewrite filter_cons.
  destruct (find_profile db (workshop_participants.user_id wp)) as [p|] eqn:Hp.
  - apply find_profile_id in Hp as [Hid _].
    rewrite decide_True by by eexists.
    change (omap id (Some p :: ?l)) with (p :: omap id l).
    cbn [map]. rewrite IH. f_equal. exact Hid.
  - rewrite decide_False by (by intros [? ?]).
    change (omap id (None :: ?l)) with (omap id l). exact IH.
Qed.

(** X9. When the store answers, [getWorkshops] returns one workshop per
    stored row, in the order of the table, with the row's id, title,
    description, date, organization and asset URLs, and a seat limit of
    0 where none is stored.  Its participants are the users of the
    workshop's participation records that have a profile, one entry per
    record and in the records' order: a record of a user without
    profile is not shown.  Every stored comment of the workshop is
    listed, under the name "Unknown" when its author has no profile. *)
Theorem getWorkshops_view `{DateApi} (w : World) :
  no_faults w →
  ∃ ws, result storageService.getWorkshops w = Resolved ws
    ∧ Forall2 (λ row v,
        Workshop.id v = workshops.id row
        ∧ Workshop.title v = workshops.title row
        ∧ Workshop.description v = workshops.description row
        ∧ Workshop.date v = workshops.date row
        ∧ Workshop.organization v = workshops.organization row
        ∧ Workshop.bannerUrl v = workshops.banner_url row
        ∧ Workshop.badgeUrl v = workshops.badge_url row
        ∧ Workshop.certificateUrl v = workshops.certificate_url row
        ∧ Workshop.limit v = default 0 (workshops.participant_limit row)
        ∧ map Participant.id (Workshop.participants v)
          = filter (λ uid, is_Some (find_profile (w_db w) uid))
              (map workshop_participants.user_id
                 (filter (λ wp, workshop_participants.workshop_id wp = workshops.id row)
                         (t_workshop_participants (w_db w))))
        ∧ map (λ c, (Comment.id c, Comment.userId c, Comment.content c))
              (Workshop.comments v)
          = map (λ c, (comments.id c, comments.user_id c, comments.content c))
              (filter (λ c, comments.workshop_id c = workshops.id row)
                      (t_comments (w_db w)))
        ∧ Forall (λ c, find_profile (w_db w) (Comment.userId c) = None →
                       Comment.userName c = "Unknown" ∧ Comment.userAvatar c = None)
                 (Workshop.comments v))
        (t_workshops (w_db w)) ws.
Proof.
  intros Hw. eexists. split; [by apply getWorkshops_ok|].
  unfold answer_workshops. rewrite <- list_fmap_compose.
  apply Forall2_fmap_r, Forall_Forall2_diag, Forall_forall.
  intros row _. unfold compose, mapWorkshop.
  cbn [workshops_select.w workshops_select.workshop_participants
       workshops_select.comments Workshop.id Workshop.title Workshop.description
       Workshop.date Workshop.organization Workshop.bannerUrl Workshop.badgeUrl
       Workshop.certificateUrl Workshop.limit Workshop.participants Workshop.comments].
  do 9 (split; [done|]). split; [apply shown_participants|].
  rewrite <- !list_fmap_compose. split.
  - by apply list_fmap_ext.
  - rewrite Forall_fmap. apply Forall_forall. intros c _. unfold compose.
    simpl. intros Hnone. by rewrite Hnone.
Qed.

Lemma getWorkshops_view_witness :
  ∃ ws, result (storageService.getWorkshops (H := y2024)) (march campus []) = Resolved ws
        ∧ map (λ v, map Participant.id (Workshop.participants v)) ws
          = [["u-ben"; "u-cyd"]].
Proof.
  destruct (getWorkshops_view (H := y2024) (march campus []) eq_refl)
    as (ws & Hws & Hview).
  exists ws. split; [exact Hws|].
  apply Forall2_cons_inv_l in Hview as (v & rest & Hv & Hrest & ->).
  apply Forall2_nil_inv_l in Hrest as ->.
  destruct Hv as (_ & _ & _ & _ & _ & _ & _ & _ & _ & Hparts & _).
  simpl. by rewrite Hparts.
Defined.

(** ** What the announcement feed shows *)

Lemma getAnnouncements_ok `{DateApi} (org : option Organization) (w : World) :
  no_faults w →
  result (storageService.getAnnouncements org) w
  = Resolved (map mapAnnouncement (answer_announcements org (w_db w))).
Proof.
  intros Hw. unfold storageService.getAnnouncements.
  rewrite result_try_catch, result_bind. unfold result at 1, after.
  by rewrite (supabase_ok _ _ _ Hw).
Qed.

(** X10. When the store answers, [getAnnouncements] lists every stored
    announcement exactly once, or with an organization filter exactly
    those of that organization.  Each one carries the user ids of its
    stored likes, in the order they were stored.  The author's name and
    role are read from the author's profile as it is now: the name is
    "Unknown" and the role MEMBER when the profile is gone, and the
    role stored with the announcement is not read. *)
Theorem getAnnouncements_view `{DateApi} (org : option Organization) (w : World) :
  no_faults w →
  ∃ l, result (storageService.getAnnouncements org) w = Resolved l
    ∧ match org with
      | Some o =>
          map Announcement.id l
          ≡ₚ map announcements.id
               (filter (λ a, announcements.organization a = o)
                       (t_announcements (w_db w)))
          ∧ Forall (λ a, Announcement.organization a = o) l
      | None =>
          map Announcement.id l ≡ₚ map announcements.id (t_announcements (w_db w))
      end
    ∧ Forall (λ a,
        Announcement.likes a = likes_of (w_db w) (Announcement.id a)
        ∧ Announcement.authorName a
          = or_Unknown (profiles.name <$> find_profile (w_db w) (Announcement.authorId a))
        ∧ Announcement.authorRole a
          = default MEMBER
              (profiles.role <$> find_profile (w_db w) (Announcement.authorId a))) l.
Proof.
  intros Hw. eexists. split; [by apply getAnnouncements_ok|].
  unfold answer_announcements.
  set (ordered := Array_sort _ (t_announcements (w_db w))).
  assert (Hordered : ordered ≡ₚ t_announcements (w_db w)) by apply Array_sort_perm.
  set (shown := match org with
                | Some o => filter (λ a, announcements.organization a = o) ordered
                | None => ordered
                end).
  match goal with
  | |- context [map mapAnnouncement (map ?F shown)] => set (embedded := F)
  end.
  assert (Hids : map Announcement.id (map mapAnnouncement (map embedded shown))
                 = map announcements.id shown).
  { rewrite <- !list_fmap_compose. apply list_fmap_ext. intros i a _. reflexivity. }
  split.
  - destruct org as [o|]; subst shown.
    + split.
      * rewrite Hids. by rewrite Hordered.
      * rewrite !Forall_fmap. apply Forall_forall. intros a Ha.
        apply list_elem_of_filter in Ha as [Ho _]. exact Ho.
    + rewrite Hids. by rewrite Hordered.
  - rewrite !Forall_fmap. apply Forall_forall. intros a _. done.
Qed.

Lemma getAnnouncements_view_witness :
  ∃ l, result (storageService.getAnnouncements (H := y2024) (Some TCC))
              (march newsroom []) = Resolved l
       ∧ map Announcement.likes l = [["u-ben"; "u-cyd"]].
Proof.
  destruct (getAnnouncements_view (H := y2024) (Some TCC) (march newsroom []) eq_refl)
    as (l & Hl & _ & Hview).
  exists l. split; [exact Hl|].
  rewrite getAnnouncements_ok in Hl by reflexivity.
  injection Hl as <-. reflexivity.
Defined.

(** ** Notifications: sent, shown, read *)

Lemma unreadCount_snoc (ns : list Notification.t) (n : Notification.t) :
  Notification.read n = false →
  Navbar.unreadCount (ns ++ [n]) = S (Navbar.unreadCount ns).
Proof.
  intros Hn. unfold Navbar.unreadCount.
  rewrite filter_app, filter_cons, decide_True by done.
  rewrite length_app. simpl. lia.
Qed.

(** X11. A notification the store accepts from [sendNotification]
    reaches its addressee: the next time the addressee's profile is
    mapped, the notification is the last of the list, unread, with the
    title, message and type that were sent, and the unread count is one
    higher.  Nobody else's list changes, and nobody's badges or
    certificates do. *)
Theorem notification_delivered `{DateApi} (profile : profiles.row)
    (userId title message : string) (type : NotificationType) (w : World) :
  no_faults w →
  let w' := after (storageService.sendNotification userId title message type) w in
  ∃ before later,
    result (mapProfileToUser profile) w = Resolved before
    ∧ result (mapProfileToUser profile) w' = Resolved later
    ∧ User.badges later = User.badges before
    ∧ User.certificates later = User.certificates before
    ∧ if decide (profiles.id profile = userId)
      then ∃ n, User.notifications later = User.notifications before ++ [n]
                ∧ Notification.title n = title
                ∧ Notification.message n = message
                ∧ Notification.type n = type
                ∧ Notification.read n = false
                ∧ Navbar.unreadCount (User.notifications later)
                  = S (Navbar.unreadCount (User.notifications before))
      else User.notifications later = User.notifications before.
Proof.
  intros Hw w'. subst w'.
  unfold storageService.sendNotification, after.
  rewrite (ignore_reply_ok _ _ Hw). cbn [snd].
  do 2 eexists. split; [by apply mapProfileToUser_ok|].
  split; [apply mapProfileToUser_ok, accepted_no_faults|].
  unfold userOf, badgesOf, certificatesOf, notificationsOf.
  cbn [User.badges User.certificates User.notifications accepted w_db apply_request
       t_badges t_certificates t_notifications].
  split; [done|]. split; [done|].
  rewrite filter_app, filter_cons. cbn [notifications.user_id].
  destruct (decide (profiles.id profile = userId)) as [Hid|Hid].
  - rewrite decide_True by done. rewrite filter_nil, fmap_app.
    eexists. split; [reflexivity|]. do 4 (split; [done|]).
    by apply unreadCount_snoc.
  - rewrite decide_False by congruence. by rewrite filter_nil, app_nil_r.
Qed.

Lemma notification_delivered_witness :
  ∃ u, result (mapProfileToUser (H := y2024) ben)
              (after (storageService.sendNotification (H := y2024)
                        "u-ben" "Hello" "Welcome, Ben" INFO)
                     (march campus [])) = Resolved u
       ∧ Navbar.unreadCount (User.notifications u) = 1.
Proof.
  destruct (notification_delivered (H := y2024) ben "u-ben" "Hello" "Welcome, Ben" INFO
              (march campus []) eq_refl)
    as (before & later & Hbefore & Hlater & _ & _ & Hnew).
  exists later. split; [exact Hlater|].
  destruct Hnew as (n & _ & _ & _ & _ & _ & ->).
  rewrite mapProfileToUser_ok in Hbefore by reflexivity.
  by injection Hbefore as <-.
Defined.

Lemma marked_read_fields (n : notifications.row) (b : bool) :
  let n' := if b
            then notifications.mk (notifications.id n) (notifications.user_id n)
                   (notifications.title n) (notifications.message n)
                   (notifications.type n) true (notifications.created_at n)
            else n in
  notifications.user_id n' = notifications.user_id n
  ∧ notifications.id n' = notifications.id n
  ∧ notifications.title n' = notifications.title n
  ∧ notifications.message n' = notifications.message n
  ∧ notifications.type n' = notifications.type n
  ∧ notifications.created_at n' = notifications.created_at n
  ∧ notifications.is_read n' = (b || notifications.is_read n).
Proof. by destruct b. Qed.

(** X12. "Mark All Read", once the store accepts it, leaves the
    signed-in user without unread notification: the next mapping of the
    user's profile has an unread count of 0 and the button is no longer
    offered.  No notification is lost or reworded (ids, titles,
    messages, types and dates are as before), and the notifications of
    every other user are untouched. *)
Theorem inbox_marked_read `{DateApi} (st : App.State) (u : User.t)
    (profile : profiles.row) (w : World) :
  no_faults w →
  App.user st = Some u →
  let w' := after (App.handleMarkAllRead st) w in
  ∃ before later,
    result (mapProfileToUser profile) w = Resolved before
    ∧ result (mapProfileToUser profile) w' = Resolved later
    ∧ map (λ n, (Notification.id n, Notification.title n, Notification.message n,
                 Notification.type n, Notification.createdAt n))
          (User.notifications later)
      = map (λ n, (Notification.id n, Notification.title n, Notification.message n,
                   Notification.type n, Notification.createdAt n))
            (User.notifications before)
    ∧ if decide (profiles.id profile = User.id u)
      then Navbar.unreadCount (User.notifications later) = 0
           ∧ NotificationDropdown.showMarkAllRead (User.notifications later) = false
      else User.notifications later = User.notifications before.
Proof.
  intros Hw Hu w'. subst w'.
  unfold App.handleMarkAllRead. rewrite Hu.
  unfold storageService.markAllNotificationsRead, after, try_catch, mbind, M_bind.
  rewrite (ignore_reply_ok _ _ Hw). cbn [snd emit].
  do 2 eexists. split; [by apply mapProfileToUser_ok|].
  split; [by apply mapProfileToUser_ok|].
  unfold userOf, notificationsOf.
  cbn [User.notifications accepted w_db apply_request t_notifications].
  set (mark := λ n : notifications.row,
         if decide (notifications.user_id n = User.id u)
         then notifications.mk (notifications.id n) (notifications.user_id n)
                (notifications.title n) (notifications.message n)
                (notifications.type n) true (notifications.created_at n)
         else n).
  assert (Hmark : ∀ n,
            notifications.user_id (mark n) = notifications.user_id n
            ∧ notifications.id (mark n) = notifications.id n
            ∧ notifications.title (mark n) = notifications.title n
            ∧ notifications.message (mark n) = notifications.message n
            ∧ notifications.type (mark n) = notifications.type n
            ∧ notifications.created_at (mark n) = notifications.created_at n
            ∧ notifications.is_read (mark n)
              = (bool_decide (notifications.user_id n = User.id u)
                 || notifications.is_read n)).
  { intros n. unfold mark. destruct (decide _) as [Hn|Hn].
    - rewrite (bool_decide_eq_true_2 _ Hn). apply (marked_read_fields n true).
    - rewrite (bool_decide_eq_false_2 _ Hn). apply (marked_read_fields n false). }
  rewrite (filter_fmap_preserved _ mark)
    by (intros n; by rewrite (proj1 (Hmark n))).
  set (mine := filter _ (t_notifications (w_db w))).
  split.
  - rewrite <- !list_fmap_compose. apply list_fmap_ext. intros i n _.
    unfold compose, mapNotification. cbn.
    destruct (Hmark n) as (_ & -> & -> & -> & -> & -> & _). done.
  - destruct (decide (profiles.id profile = User.id u)) as [Hid|Hid].
    + assert (Hnone : Navbar.unreadCount (map mapNotification (map mark mine)) = 0).
      { unfold Navbar.unreadCount.
        assert (Hall : Forall (λ n, Notification.read n = true)
                              (map mapNotification (map mark mine))).
        { rewrite !Forall_fmap. apply Forall_forall. intros n Hn.
          apply list_elem_of_filter in Hn as [Hmine _].
          unfold compose, mapNotification. cbn.
          destruct (Hmark n) as (_ & _ & _ & _ & _ & _ & ->).
          rewrite bool_decide_eq_true_2; [done|congruence]. }
        induction Hall as [|n l Hn _ IH]; [done|].
        rewrite filter_cons, decide_False; [exact IH|]. by rewrite Hn. }
      split; [done|].
      destruct (NotificationDropdown.showMarkAllRead _) eqn:Hshow; [|done].
      apply unread_iff in Hshow. lia.
    + rewrite <- !list_fmap_compose. apply list_fmap_ext. intros i n Hn.
      apply list_elem_of_lookup_2, list_elem_of_filter in Hn as [Hmine _].
      unfold compose, mark. rewrite decide_False; [done|]. congruence.
Qed.

Lemma inbox_marked_read_witness :
  ∃ u, result (mapProfileToUser (H := y2024) ben)
              (after (App.handleMarkAllRead (H := y2024) bens_screen)
                     (mkWorld inboxes (Some "u-ben") [] 1709251200000%Z (λ _, true) []))
       = Resolved u
       ∧ Navbar.unreadCount (User.notifications u) = 0.
Proof.
  destruct (inbox_marked_read (H := y2024) bens_screen (asUser ben) ben
              (mkWorld inboxes (Some "u-ben") [] 1709251200000%Z (λ _, true) [])
              eq_refl eq_refl)
    as (before & later & _ & Hlater & _ & Hread).
  exists later. split; [exact Hlater|]. exact (proj1 Hread).
Defined.

(** ** Awards: from issuance to the profile, and revocation *)

(** X13. Awards the store accepted from [handleIssueAwards] show on the
    participant's profile the next time it is mapped: one more badge,
    titled after the workshop with the suffix " Graduate" and carrying
    the workshop's badge image, one more certificate with the
    workshop's certificate file, both stamped with the instant of the
    click, and one more unread notification; the person issuing sees a
    single confirmation. *)
Theorem awards_reach_profile `{DateApi} (participant : Participant.t)
    (workshop : Workshop.t) (profile : profiles.row) (w : World) :
  no_faults w →
  profiles.id profile = Participant.id participant →
  let w' := after (App.handleIssueAwards participant workshop) w in
  ∃ before later,
    result (mapProfileToUser profile) w = Resolved before
    ∧ result (mapProfileToUser profile) w' = Resolved later
    ∧ (∃ b, User.badges later = User.badges before ++ [b]
            ∧ Badge.title b = Workshop.title workshop +:+ " Graduate"
            ∧ Badge.workshopTitle b = Workshop.title workshop
            ∧ Badge.organization b = Workshop.organization workshop
            ∧ Badge.issuedAt b = Date_toISOString (w_now w)
            ∧ Badge.imageUrl b = Workshop.badgeUrl workshop)
    ∧ (∃ c, User.certificates later = User.certificates before ++ [c]
            ∧ Certificate.title c
              = "Certificate of Completion - " +:+ Workshop.title workshop
            ∧ Certificate.workshopTitle c = Workshop.title workshop
            ∧ Certificate.organization c = Workshop.organization workshop
            ∧ Certificate.issuedAt c = Date_toISOString (w_now w)
            ∧ Certificate.fileUrl c = Workshop.certificateUrl workshop)
    ∧ (∃ n, User.notifications later = User.notifications before ++ [n]
            ∧ Notification.title n = "Awards Granted!"
            ∧ Notification.type n = SUCCESS
            ∧ Notification.read n = false)
    ∧ alerts w w'
      = ["Awards issued to " +:+ Participant.name participant +:+ " successfully!"].
Proof.
  intros Hw Hid w'. subst w'.
  destruct w as [db session faults now answers trace]. unfold no_faults in Hw.
  simpl in Hw. subst faults.
  do 2 eexists. split; [by apply mapProfileToUser_ok|].
  unfold after, App.handleIssueAwards, App.issueSequence, storageService.issueBadge,
    storageService.issueCertificate, storageService.sendNotification, ignore_reply,
    supabase, now_ISOString.
  unfold_monad. cbn [fst snd w_faults w_db w_session w_now w_confirm w_trace tail].
  split; [by apply mapProfileToUser_ok|].
  unfold userOf, badgesOf, certificatesOf, notificationsOf, alerts, since.
  cbn [User.badges User.certificates User.notifications w_db w_trace apply_request
       t_badges t_certificates t_notifications t_profiles t_workshops
       t_workshop_participants t_comments t_announcements t_announcement_comments
       t_announcement_likes t_serial].
  rewrite !filter_app, !filter_cons.
  cbn [badges.user_id certificates.user_id notifications.user_id].
  rewrite !decide_True by done. rewrite !filter_nil, !fmap_app.
  split; [by eexists|]. split; [by eexists|]. split; [by eexists|].
  rewrite <- !app_assoc, drop_app_length. reflexivity.
Qed.

Lemma awards_reach_profile_witness :
  ∃ u, result (mapProfileToUser (H := y2024) ben)
              (after (App.handleIssueAwards (H := y2024) (asParticipant ben)
                        rocq_night_view)
                     (march campus [])) = Resolved u
       ∧ map Badge.title (User.badges u) = ["Rocq Night Graduate"].
Proof.
  destruct (awards_reach_profile (H := y2024) (asParticipant ben) rocq_night_view ben
              (march campus []) eq_refl eq_refl)
    as (before & later & Hbefore & Hlater & (b & Hb & Htitle & _) & _).
  exists later. split; [exact Hlater|].
  rewrite mapProfileToUser_ok in Hbefore by reflexivity.
  injection Hbefore as <-. rewrite Hb. simpl. by rewrite Htitle.
Defined.

(** What [revokeAwards] leaves of the tables [db0]: awards of another
    user or workshop title stay, nothing is added, and no other table
    is touched. *)
Lemma revokeAwards_keeps `{DateApi} (userId workshopTitle : string) (db0 : DB) :
  let kept (db : DB) :=
    (∀ b, ¬ (badges.user_id b = userId ∧ badges.workshop_title b = workshopTitle) →
          b ∈ t_badges db ↔ b ∈ t_badges db0)
    ∧ (∀ c, ¬ (certificates.user_id c = userId
               ∧ certificates.workshop_title c = workshopTitle) →
            c ∈ t_certificates db ↔ c ∈ t_certificates db0)
    ∧ t_badges db ⊆ t_badges db0
    ∧ t_certificates db ⊆ t_certificates db0
    ∧ t_profiles db = t_profiles db0
    ∧ t_notifications db = t_notifications db0
    ∧ t_workshops db = t_workshops db0
    ∧ t_workshop_participants db = t_workshop_participants db0 in
  maintains kept (storageService.revokeAwards userId workshopTitle).
Proof.
  intros kept. unfold storageService.revokeAwards.
  apply maintains_bind; [|intros _]; apply maintains_ignore_reply;
    intros stamp db (Hb & Hc & Hbs & Hcs & Hrest); unfold kept;
    cbn [apply_request t_badges t_certificates t_profiles t_notifications
         t_workshops t_workshop_participants].
  - split; [|split; [done|split; [|done]]].
    + intros b Hother. rewrite list_elem_of_filter, <- (Hb b Hother). tauto.
    + intros b Hin%list_elem_of_filter. apply Hbs. tauto.
  - split; [done|]. split; [|split; [done|split; [|done]]].
    + intros c Hother. rewrite list_elem_of_filter, <- (Hc c Hother). tauto.
    + intros c Hin%list_elem_of_filter. apply Hcs. tauto.
Qed.

(** X14. Whatever the store does with its two deletes, [revokeAwards]
    never removes a badge or certificate of another user or of another
    workshop title, never adds one, and leaves profiles, notifications,
    workshops and participation records alone.  When both deletes are
    accepted no badge or certificate of the pair remains, and revoking
    again changes nothing. *)
Theorem revokeAwards_frame `{DateApi} (userId workshopTitle : string) (w : World) :
  let w' := after (storageService.revokeAwards userId workshopTitle) w in
  (∀ b, ¬ (badges.user_id b = userId ∧ badges.workshop_title b = workshopTitle) →
        b ∈ t_badges (w_db w') ↔ b ∈ t_badges (w_db w))
  ∧ (∀ c, ¬ (certificates.user_id c = userId
             ∧ certificates.workshop_title c = workshopTitle) →
          c ∈ t_certificates (w_db w') ↔ c ∈ t_certificates (w_db w))
  ∧ t_badges (w_db w') ⊆ t_badges (w_db w)
  ∧ t_certificates (w_db w') ⊆ t_certificates (w_db w)
  ∧ t_profiles (w_db w') = t_profiles (w_db w)
  ∧ t_notifications (w_db w') = t_notifications (w_db w)
  ∧ t_workshops (w_db w') = t_workshops (w_db w)
  ∧ t_workshop_participants (w_db w') = t_workshop_participants (w_db w)
  ∧ (no_faults w →
     Forall (λ b, ¬ (badges.user_id b = userId ∧ badges.workshop_title b = workshopTitle))
            (t_badges (w_db w'))
     ∧ Forall (λ c, ¬ (certificates.user_id c = userId
                       ∧ certificates.workshop_title c = workshopTitle))
              (t_certificates (w_db w'))
     ∧ w_db (after (storageService.revokeAwards userId workshopTitle) w') = w_db w').
Proof.
  intros w'.
  pose proof (revokeAwards_keeps userId workshopTitle (w_db w) w) as Hkept.
  cbv zeta in Hkept. fold w' in Hkept.
  destruct Hkept as (Hb & Hc & Hbs & Hcs & Hp & Hn & Hw & Hwp); [by repeat split|].
  do 8 (split; [done|]).
  intros Hok. subst w'. clear Hb Hc Hbs Hcs Hp Hn Hw Hwp.
  unfold storageService.revokeAwards, after, mbind, M_bind.
  rewrite (ignore_reply_ok _ _ Hok).
  rewrite (ignore_reply_ok _ _ (accepted_no_faults _ _)). cbn [snd].
  rewrite (ignore_reply_ok _ _ (accepted_no_faults _ _)).
  rewrite (ignore_reply_ok _ _ (accepted_no_faults _ _)). cbn [snd].
  destruct (w_db w) as [ps bs cs ns wks wps cms ans acs als serial] eqn:Hdb.
  cbn [accepted w_db w_now apply_request t_profiles t_badges t_certificates
       t_notifications t_workshops t_workshop_participants t_comments
       t_announcements t_announcement_comments t_announcement_likes t_serial].
  rewrite Hdb.
  cbn [apply_request t_profiles t_badges t_certificates
       t_notifications t_workshops t_workshop_participants t_comments
       t_announcements t_announcement_comments t_announcement_likes t_serial].
  split; [|split].
  - apply Forall_forall. intros b Hin%list_elem_of_filter. tauto.
  - apply Forall_forall. intros c Hin%list_elem_of_filter. tauto.
  - f_equal; apply filter_all, Forall_forall; intros x Hin%list_elem_of_filter; tauto.
Qed.

(** ** Reloading the screen *)

(** X15. [loadAll] never rejects and never changes the store or the
    session, whatever the backend does.  It leaves the filter and the
    selection alone; the workshops it shows are the store's or, after a
    failed fetch, none.  It never empties the user list or signs the
    user out: a user list that comes back empty (or is not fetched,
    for someone who is not an admin) leaves the list on screen as it
    was, and without a current user from the store (no session, for
    instance) the user on screen stays.  The active organization only
    moves to the organization of a current user who is an officer. *)
Theorem loadAll_refresh `{DateApi} (st : App.State) (w : World) :
  ∃ st', result (App.loadAll st) w = Resolved st'
    ∧ w_db (after (App.loadAll st) w) = w_db w
    ∧ w_session (after (App.loadAll st) w) = w_session w
    ∧ App.orgFilter st' = App.orgFilter st
    ∧ App.selectedWorkshopId st' = App.selectedWorkshopId st
    ∧ App.selectedParticipants st' = App.selectedParticipants st
    ∧ (App.workshops st' = []
       ∨ App.workshops st' = map mapWorkshop (answer_workshops (w_db w)))
    ∧ (App.users st' = App.users st
       ∨ App.users st' ≠ [] ∧ App.isAdmin (App.user st) = true
         ∧ Forall (from_store (w_db w)) (App.users st'))
    ∧ (App.user st' = App.user st
       ∨ ∃ u, App.user st' = Some u ∧ from_store (w_db w) u
              ∧ w_session w = Some (User.id u))
    ∧ (App.activeOrg st' = App.activeOrg st
       ∨ ∃ u, App.user st' = Some u ∧ User.role u = OFFICER
              ∧ User.officerOrg u = Some (App.activeOrg st')).
Proof.
  destruct (reads_only_loadAll st w) as [Hdb Hsession].
  unfold App.loadAll in *.
  rewrite result_bind.
  destruct (reads_only_getWorkshops w) as [Hdb1 Hs1].
  set (w1 := after storageService.getWorkshops w) in *.
  assert (Hws : ∃ wData, result storageService.getWorkshops w = Resolved wData
                  ∧ (wData = [] ∨ wData = map mapWorkshop (answer_workshops (w_db w)))).
  { destruct (getWorkshops_result w) as [->| ->]; eauto. }
  destruct Hws as (wData & -> & HwData).
  rewrite result_bind.
  destruct (reads_only_getAnnouncements (App.orgFilter st) w1) as [Hdb2 Hs2].
  destruct (getAnnouncements_result (App.orgFilter st) w1) as (aData & ->).
  set (w2 := after (storageService.getAnnouncements (App.orgFilter st)) w1) in *.
  rewrite result_bind.
  set (mu := if App.isAdmin (App.user st) then storageService.getUsers else mret []).
  assert (Hmu : reads_only mu
                ∧ ∃ uData, result mu w2 = Resolved uData
                           ∧ Forall (from_store (w_db w2)) uData
                           ∧ (App.isAdmin (App.user st) = false → uData = [])).
  { unfold mu. destruct (App.isAdmin _).
    - split; [apply reads_only_getUsers|].
      destruct (getUsers_result w2) as (us & Hus & Hfrom).
      exists us. split; [done|]. split; [done|]. intros; discriminate.
    - split; [apply reads_only_ret|]. exists []. split; [done|]. by split. }
  destruct Hmu as (Hro & uData & -> & HuData & Hnone).
  destruct (Hro w2) as [Hdb3 Hs3].
  set (w3 := after mu w2) in *.
  rewrite result_bind.
  destruct (getCurrentUser_result w3) as (currUser & -> & Hcurr).
  assert (Hdb' : w_db w3 = w_db w) by congruence.
  assert (Hdb'' : w_db w2 = w_db w) by congruence.
  assert (Hsess : w_session w3 = w_session w) by congruence.
  rewrite Hdb' in Hcurr. rewrite Hsess in Hcurr. rewrite Hdb'' in HuData.
  assert (Husers : let users' := if decide (0 < length uData) then uData
                                 else App.users st in
                   users' = App.users st
                   ∨ users' ≠ [] ∧ App.isAdmin (App.user st) = true
                     ∧ Forall (from_store (w_db w)) users').
  { cbv zeta. destruct (decide (0 < length uData)) as [Hlen|]; [|by left].
    right. split; [by destruct uData; simpl in Hlen; [lia|]|]. split; [|done].
    destruct (App.isAdmin (App.user st)); [done|].
    rewrite Hnone in Hlen by done. simpl in Hlen. lia. }
  destruct currUser as [u|]; eexists; (split; [reflexivity|]);
    cbn [App.orgFilter App.selectedWorkshopId App.selectedParticipants
         App.workshops App.users App.user App.activeOrg];
    do 6 (split; [done|]); (split; [exact Husers|]).
  - split.
    + right. exists u. by destruct (Hcurr u eq_refl).
    + destruct (User.role u) eqn:Hrole; try by left.
      destruct (User.officerOrg u) eqn:Horg; [|by left].
      right. by exists u.
  - split; by left.
Qed.

(** ** The current user *)

(** X16. Without a session [getCurrentUser] answers null after asking
    for the session only, whatever the backend does.  With a session
    and a store that answers, it returns the user mapped from the
    session's profile when the store holds exactly one profile with
    that id, and null when it holds none or several. *)
Theorem getCurrentUser_session `{DateApi} (w : World) :
  (w_session w = None →
   result storageService.getCurrentUser w = Resolved None
   ∧ sent w (after storageService.getCurrentUser w) = [auth_getSession])
  ∧ (no_faults w → ∀ uid, w_session w = Some uid →
     result storageService.getCurrentUser w
     = Resolved
         match filter (λ p, profiles.id p = uid) (t_profiles (w_db w)) with
         | [profile] =>
             Some (userOf profile (badgesOf (w_db w) uid) (certificatesOf (w_db w) uid)
                     (notificationsOf (w_db w) uid))
         | _ => None
         end).
Proof.
  destruct w as [db session faults now answers trace]. split.
  - simpl. intros ->.
    unfold storageService.getCurrentUser, getSession, supabase, result, after,
      try_catch, mbind, M_bind.
    destruct faults as [|[[e|e]|] faults]; cbn; trace_simpl; done.
  - unfold no_faults. simpl. intros -> uid ->.
    unfold storageService.getCurrentUser, getSession, supabase, result,
      try_catch, mbind, M_bind.
    cbn [w_faults w_db w_session w_now w_confirm w_trace fst snd data error rows
         tail apply_request].
    destruct (filter (λ p, profiles.id p = uid) (t_profiles db))
      as [|profile [|other rest]] eqn:Hrows; cbn; [done| |done].
    rewrite run_pair. rewrite mapProfileToUser_ok by done. cbn.
    assert (Hin : profile ∈ filter (λ p, profiles.id p = uid) (t_profiles db))
      by (rewrite Hrows; apply list_elem_of_here).
    apply list_elem_of_filter in Hin as [-> _]. done.
Qed.

(** ** Guards of the handlers *)

(** X17. A handler whose guard fails does nothing at all: no request,
    no message, no change of the store or of the trace.  Signed out,
    that holds for liking, commenting, marking notifications read,
    joining, saving the profile and saving a post or a workshop (whose
    dialogs stay as they are).  For someone who is not an admin it
    holds for promoting, demoting and choosing an officer's
    organization.  When the person answers no to the confirmation, it
    holds for promoting an officer, demoting an admin or an officer,
    deleting an announcement or a workshop (the detail page stays
    open), removing a participant and bulk issuing. *)
Theorem guards_stop_handlers `{DateApi} (st : App.State) (w : World) :
  (App.user st = None →
   (∀ id liked, after (App.handleLike st id liked) w = w)
   ∧ (∀ id content, after (App.handleComment st id content) w = w)
   ∧ after (App.handleMarkAllRead st) w = w
   ∧ (∀ wId, after (App.handleJoinWorkshop st wId) w = w)
   ∧ (∀ newName uploaded, after (App.handleUpdateProfile st newName uploaded) w = w)
   ∧ (∀ dialog form,
        App.handleCreateOrUpdatePost st dialog form w = (Resolved dialog, w))
   ∧ (∀ dialog fd,
        App.handleCreateOrUpdateWorkshop st dialog fd w = (Resolved dialog, w)))
  ∧ (App.isAdmin (App.user st) = false →
     (∀ target, after (App.handlePromoteUser st target) w = w)
     ∧ (∀ target, after (App.handleDemoteUser st target) w = w)
     ∧ (∀ target newOrg, after (App.handleUpdateOfficerOrg st target newOrg) w = w))
  ∧ ((∀ prompt, w_confirm w prompt = false) →
     (∀ target, User.role target = OFFICER →
                after (App.handlePromoteUser st target) w = w)
     ∧ (∀ target, User.role target ≠ MEMBER →
                  after (App.handleDemoteUser st target) w = w)
     ∧ (∀ id, after (App.handleDeleteAnnouncement id) w = w)
     ∧ (∀ view id,
          App.handleDeleteWorkshop st view id w
          = (Resolved (App.selectedWorkshopId st, view), w))
     ∧ (∀ participantId workshopId,
          after (App.handleRemoveParticipant participantId workshopId) w = w)
     ∧ after (App.handleBulkIssueAwards st) w = w).
Proof.
  split; [|split].
  - intros Hout.
    unfold App.handleLike, App.handleComment, App.handleMarkAllRead,
      App.handleJoinWorkshop, App.handleUpdateProfile, App.handleCreateOrUpdatePost,
      App.handleCreateOrUpdateWorkshop.
    rewrite Hout. by repeat split.
  - intros Hrole.
    unfold App.handlePromoteUser, App.handleDemoteUser, App.handleUpdateOfficerOrg.
    rewrite Hrole. by repeat split.
  - intros Hno.
    unfold App.handlePromoteUser, App.handleDemoteUser, App.handleDeleteAnnouncement,
      App.handleDeleteWorkshop, App.handleRemoveParticipant, App.handleBulkIssueAwards.
    unfold after, mbind, M_bind, confirm.
    split; [|split; [|split; [|split; [|split]]]].
    + intros target ->. destruct (negb _); [done|]. cbn. by rewrite Hno.
    + intros target Hrole. destruct (negb _); [done|].
      destruct (User.role target); [done| |]; cbn; by rewrite Hno.
    + intros id. by rewrite Hno.
    + intros view id. by rewrite Hno.
    + intros participantId workshopId. by rewrite Hno.
    + destruct (truthy _); [|done]. destruct (decide _); [done|].
      destruct (Array_find _ _); [|done]. by rewrite Hno.
Qed.

(** ** Choosing an officer's organization *)

(** X18. When an admin picks an organization for a user, exactly one
    profile update is sent: it carries the picked organization and the
    user's name, e-mail, role and avatar as they are on screen.  Once
    the store accepted it, every profile with that id has the role
    unchanged and the picked organization, nothing is alerted and a
    refresh is requested; when the store refuses it, nothing is stored,
    the refusal is alerted and no refresh is requested.  Used on anyone
    but a member (the screen offers it for officers), it keeps the rule
    that officers have an organization and members have none. *)
Theorem officer_org_picker `{DateApi} (st : App.State) (target : User.t)
    (newOrg : Organization) (w : World) :
  App.isAdmin (App.user st) = true →
  let w' := after (App.handleUpdateOfficerOrg st target newOrg) w in
  sent w w'
  = [update_profile (User.id target) (User.name target) (User.email target)
       (User.role target) (Some newOrg) (User.avatarUrl target)]
  ∧ (no_faults w →
     stored_role (w_db w') (User.id target) (User.role target) (Some newOrg)
     ∧ alerts w w' = [] ∧ ticked w w' = true)
  ∧ (∀ e, fault_at w 0 = Some (error_reply e) →
          w_db w' = w_db w
          ∧ alerts w w' = ["Update failed: " +:+ formatError e]
          ∧ ticked w w' = false)
  ∧ (User.role target ≠ MEMBER →
     rows_satisfy org_follows_role (w_db w) →
     rows_satisfy org_follows_role (w_db w')).
Proof.
  intros Hadmin w'. subst w'.
  split; [|split; [|split]].
  - unfold App.handleUpdateOfficerOrg. rewrite Hadmin. cbn [negb].
    destruct w as [db session faults now answers trace].
    unfold storageService.saveUser, throw_on_error, supabase, after.
    unfold_monad.
    destruct faults as [|[[e|e]|] faults]; cbn; trace_simpl; done.
  - unfold no_faults. destruct w as [db session faults now answers trace].
    simpl. intros ->.
    unfold App.handleUpdateOfficerOrg. rewrite Hadmin. cbn [negb].
    unfold storageService.saveUser, throw_on_error, supabase, after, ticked.
    unfold_monad. cbn. split; [apply updated_rows_stored|].
    trace_simpl. done.
  - intros e. destruct w as [db session faults now answers trace].
    unfold fault_at. simpl.
    destruct faults as [|[[e'|e']|] faults]; simpl; try done. intros [= ->].
    unfold App.handleUpdateOfficerOrg. rewrite Hadmin. cbn [negb].
    unfold storageService.saveUser, throw_on_error, supabase, after, ticked.
    unfold_monad. cbn. split; [done|]. trace_simpl. done.
  - intros Hrole. revert w.
    change (maintains (rows_satisfy org_follows_role)
              (App.handleUpdateOfficerOrg st target newOrg)).
    unfold App.handleUpdateOfficerOrg. rewrite Hadmin. cbn [negb].
    apply maintains_try_catch; [|intros e; apply maintains_emit].
    apply maintains_bind; [|intros _; apply maintains_emit].
    apply saveUser_maintains. simpl. split; [by eexists|done].
Qed.

Lemma officer_org_picker_witness :
  sent (march campus [])
       (after (App.handleUpdateOfficerOrg (H := y2024) adas_screen
                 (with_role (asUser ben) OFFICER (Some GENERAL)) TCC)
              (march campus []))
  = [update_profile "u-ben" "Ben" "ben@campus.edu" OFFICER (Some TCC) None].
Proof.
  exact (proj1 (officer_org_picker (H := y2024) adas_screen
                  (with_role (asUser ben) OFFICER (Some GENERAL)) TCC
                  (march campus []) eq_refl)).
Defined.

(** ** Saving the own profile *)

(** X19. Saving the profile sends exactly one profile update for the
    signed-in user.  It carries the role, organization and e-mail the
    user has on screen, the name typed into the form or, when the field
    is empty, the current name, and the uploaded avatar or, without a
    successful upload, the current one.  After the store accepted it
    the form is closed and a refresh requested; after a refusal nothing
    is stored, the refusal is alerted and the form stays open. *)
Theorem profile_save `{DateApi} (st : App.State) (u : User.t) (newName : string)
    (uploaded : option string) (w : World) :
  App.user st = Some u →
  let w' := after (App.handleUpdateProfile st newName uploaded) w in
  let update :=
    update_profile (User.id u)
      (if decide (newName = EmptyString) then User.name u else newName)
      (User.email u) (User.role u) (User.officerOrg u)
      (match uploaded with
       | Some url => if decide (url = EmptyString) then User.avatarUrl u else Some url
       | None => User.avatarUrl u
       end) in
  sent w w' = [update]
  ∧ (no_faults w →
     since w w' = [Sent update; setIsEditingProfile false; setDataTick]
     ∧ w_db w' = apply_request (Date_toISOString (w_now w)) update (w_db w))
  ∧ (∀ e, fault_at w 0 = Some (error_reply e) →
          since w w' = [Sent update; alert ("Profile update failed: " +:+ formatError e)]
          ∧ w_db w' = w_db w).
Proof.
  intros Hu w' update. subst w' update.
  unfold App.handleUpdateProfile. rewrite Hu.
  destruct w as [db session faults now answers trace].
  unfold storageService.saveUser, throw_on_error, supabase, after, no_faults, fault_at.
  unfold_monad. cbn [w_faults w_db w_now w_trace w_session w_confirm].
  assert (Hname : default (User.name u) (truthy (Some newName))
                  = if decide (newName = EmptyString) then User.name u else newName).
  { unfold truthy. by destruct (decide (newName = EmptyString)). }
  assert (Havatar : match truthy uploaded with
                    | Some url => Some url
                    | None => User.avatarUrl u
                    end
                    = match uploaded with
                      | Some url => if decide (url = EmptyString)
                                    then User.avatarUrl u else Some url
                      | None => User.avatarUrl u
                      end).
  { unfold truthy. destruct uploaded as [url|]; [|done].
    by destruct (decide (url = EmptyString)). }
  rewrite Hname, Havatar.
  split; [|split].
  - destruct faults as [|[[e|e]|] faults]; cbn; trace_simpl; done.
  - intros ->. cbn. trace_simpl. done.
  - intros e. destruct faults as [|[[e'|e']|] faults]; simpl; try done.
    intros [= ->]. cbn. trace_simpl. done.
Qed.

Lemma profile_save_witness :
  sent bens_world
       (after (App.handleUpdateProfile (H := y2024) bens_screen EmptyString None)
              bens_world)
  = [update_profile "u-ben" "Ben" "ben@campus.edu" MEMBER None None].
Proof.
  exact (proj1 (profile_save (H := y2024) bens_screen (asUser ben) EmptyString None
                  bens_world eq_refl)).
Defined.

(** ** Removing a participant *)

(** X20. Once the removal is confirmed: when the store accepts the
    requests, no participation record of the participant in the
    workshop remains, the records of everyone else stay, the
    participant is sent one "Session Update" warning, unread, and
    nothing is alerted; when the store refuses the delete, the records
    are as before, the refusal is alerted and the participant is not
    notified. *)
Theorem participant_removed `{DateApi} (participantId workshopId : string) (w : World) :
  (∀ prompt, w_confirm w prompt = true) →
  let w' := after (App.handleRemoveParticipant participantId workshopId) w in
  (no_faults w →
   participations workshopId participantId (w_db w') = 0
   ∧ (∀ wid uid, ¬ (wid = workshopId ∧ uid = participantId) →
        participations wid uid (w_db w') = participations wid uid (w_db w))
   ∧ (∃ n, notificationsOf (w_db w') participantId
           = notificationsOf (w_db w) participantId ++ [n]
           ∧ notifications.title n = "Session Update"
           ∧ notifications.type n = WARNING
           ∧ notifications.is_read n = false)
   ∧ alerts w w' = [])
  ∧ (∀ e, fault_at w 0 = Some (error_reply e) →
          w_db w' = w_db w
          ∧ sent w w' = [delete_workshop_participant workshopId participantId]
          ∧ alerts w w' = ["Failed to remove participant: " +:+ formatError e]).
Proof.
  intros Hyes w'. subst w'.
  destruct w as [db session faults now answers trace]. simpl in Hyes.
  unfold App.handleRemoveParticipant, storageService.removeParticipant,
    storageService.sendNotification, throw_on_error, ignore_reply, supabase,
    no_faults, fault_at.
  unfold_monad. cbn [w_faults w_db w_now w_trace w_session w_confirm].
  rewrite !Hyes. cbn [negb].
  split.
  - intros ->. cbn.
    destruct db as [ps bs cs ns wks wps cms ans acs als serial].
    unfold participations, notificationsOf.
    cbn [t_workshop_participants t_notifications].
    split; [by rewrite filter_filter_neg|]. split; [|split].
    + intros wid uid Hother. f_equal. apply filter_filter_other.
      intros x [<- <-] [? ?]. by apply Hother.
    + rewrite filter_app, filter_cons, decide_True by done.
      eexists. split; [reflexivity|]. done.
    + trace_simpl. done.
  - intros e. destruct faults as [|[[e'|e']|] faults]; simpl; try done.
    intros [= ->]. cbn. split; [done|]. trace_simpl. done.
Qed.

Lemma participant_removed_witness :
  participations "w-1" "u-ben"
    (w_db (after (App.handleRemoveParticipant (H := y2024) "u-ben" "w-1")
                 (march campus [])))
  = 0.
Proof.
  destruct (participant_removed (H := y2024) "u-ben" "w-1" (march campus [])
              (λ _, eq_refl)) as [Hok _].
  exact (proj1 (Hok eq_refl)).
Defined.

(** ** Deleting a workshop or an announcement *)

(** X21. Once the deletion of a workshop is confirmed, the only request
    is the delete of the workshop row.  When the store accepts it, no
    row with that id remains and every other row stays, so the next
    [getWorkshops] lists the other workshops only; the detail page is
    closed (selection cleared, view WORKSHOPS) exactly when the deleted
    workshop was the selected one, and a refresh is requested.  When
    the store refuses, the tables, the selection and the view stay and
    the refusal is alerted.  Deleting an announcement behaves the same
    on the announcement table. *)
Theorem deletion_confirmed `{DateApi} (st : App.State) (view : View) (id : string)
    (w : World) :
  (∀ prompt, w_confirm w prompt = true) →
  let w' := after (App.handleDeleteWorkshop st view id) w in
  let posts := after (App.handleDeleteAnnouncement id) w in
  sent w w' = [delete_workshop id]
  ∧ sent w posts = [delete_announcement id]
  ∧ (no_faults w →
     result (App.handleDeleteWorkshop st view id) w
     = Resolved (if decide (App.selectedWorkshopId st = Some id)
                 then (None, WORKSHOPS)
                 else (App.selectedWorkshopId st, view))
     ∧ t_workshops (w_db w')
       = filter (λ r, workshops.id r ≠ id) (t_workshops (w_db w))
     ∧ (∃ ws, result storageService.getWorkshops w' = Resolved ws
              ∧ Forall (λ v, Workshop.id v ≠ id) ws
              ∧ length ws
                = length (filter (λ r, workshops.id r ≠ id) (t_workshops (w_db w))))
     ∧ ticked w w' = true ∧ alerts w w' = []
     ∧ t_announcements (w_db posts)
       = filter (λ a, announcements.id a ≠ id) (t_announcements (w_db w))
     ∧ ticked w posts = true ∧ alerts w posts = [])
  ∧ (∀ e, fault_at w 0 = Some (error_reply e) →
          result (App.handleDeleteWorkshop st view id) w
          = Resolved (App.selectedWorkshopId st, view)
          ∧ w_db w' = w_db w
          ∧ alerts w w' = ["Delete failed: " +:+ formatError e]
          ∧ ticked w w' = false
          ∧ w_db posts = w_db w
          ∧ alerts w posts = ["Delete failed: " +:+ formatError e]
          ∧ ticked w posts = false).
Proof.
  intros Hyes w' posts. subst w' posts.
  destruct w as [db session faults now answers trace]. simpl in Hyes.
  split; [|split; [|split]].
  - unfold App.handleDeleteWorkshop, storageService.deleteWorkshop, throw_on_error,
      supabase, after.
    unfold_monad. cbn [w_faults w_db w_now w_trace w_session w_confirm].
    rewrite !Hyes. cbn [negb].
    destruct faults as [|[[e|e]|] faults]; cbn; trace_simpl; done.
  - unfold App.handleDeleteAnnouncement, storageService.deleteAnnouncement,
      throw_on_error, supabase, after.
    unfold_monad. cbn [w_faults w_db w_now w_trace w_session w_confirm].
    rewrite !Hyes. cbn [negb].
    destruct faults as [|[[e|e]|] faults]; cbn; trace_simpl; done.
  - unfold no_faults. simpl. intros ->.
    unfold App.handleDeleteWorkshop, App.handleDeleteAnnouncement,
      storageService.deleteWorkshop, storageService.deleteAnnouncement,
      throw_on_error, supabase, ticked.
    unfold_monad. cbn [w_faults w_db w_now w_trace w_session w_confirm].
    rewrite !Hyes. cbn [negb fst snd w_faults w_db w_now w_trace w_session w_confirm
                         tail data error no_content apply_request].
    split; [done|]. split; [done|]. split.
    { match goal with
      | |- ∃ ws, fst (storageService.getWorkshops ?W) = _ ∧ _ =>
          exists (map mapWorkshop (answer_workshops (w_db W)));
          split; [exact (getWorkshops_ok W eq_refl)|]
      end.
      unfold answer_workshops. cbn [w_db t_workshops]. split.
      - rewrite !Forall_fmap. apply Forall_forall. intros row Hrow.
        apply list_elem_of_filter in Hrow. unfold compose. simpl. tauto.
      - by rewrite !length_map. }
    trace_simpl. done.
  - intros e. unfold fault_at. simpl.
    destruct faults as [|[[e'|e']|] faults]; simpl; try done. intros [= ->].
    unfold App.handleDeleteWorkshop, App.handleDeleteAnnouncement,
      storageService.deleteWorkshop, storageService.deleteAnnouncement,
      throw_on_error, supabase, ticked.
    unfold_monad. cbn [w_faults w_db w_now w_trace w_session w_confirm].
    rewrite !Hyes. cbn. trace_simpl. done.
Qed.

Lemma deletion_confirmed_witness :
  result (App.handleDeleteWorkshop (H := y2024) adas_screen WORKSHOP_DETAIL "w-1")
         (march campus [])
  = Resolved (None, WORKSHOPS).
Proof.
  destruct (deletion_confirmed (H := y2024) adas_screen WORKSHOP_DETAIL "w-1"
              (march campus []) (λ _, eq_refl)) as (_ & _ & Hok & _).
  exact (proj1 (Hok eq_refl)).
Defined.

(** ** Saving a post *)



(** ** Saving a workshop *)



(** ** Selecting everyone, then issuing in bulk *)

(** X24. After "select all" on the participants of the open workshop
    (distinct ids, the selection having another size before), a
    confirmed bulk issuance sends one badge insert for every
    participant of the workshop, in the order of the list, whatever the
    store does with any of the requests. *)
Theorem select_all_then_issue `{DateApi} (st : App.State) (w : World) (wid : string)
    (workshop : Workshop.t) :
  truthy (App.selectedWorkshopId st) = Some wid →
  Array_find (λ w, Workshop.id w = wid) (App.workshops st) = Some workshop →
  Workshop.participants workshop ≠ [] →
  NoDup (map Participant.id (Workshop.participants workshop)) →
  length (App.selectedParticipants st) ≠ length (Workshop.participants workshop) →
  (∀ prompt, w_confirm w prompt = true) →
  let everyone := withSelection st (App.handleSelectAll st (Workshop.participants workshop)) in
  App.selectedParticipants everyone = map Participant.id (Workshop.participants workshop)
  ∧ map BadgeData.userId
        (badgeInserts (sent w (after (App.handleBulkIssueAwards everyone) w)))
    = map Participant.id (Workshop.participants workshop).
Proof.
  intros Hsel Hfind Hparts Hnd Hsize Hyes everyone.
  assert (Hall : App.selectedParticipants everyone
                 = map Participant.id (Workshop.participants workshop)).
  { unfold everyone, App.handleSelectAll. cbn [withSelection App.selectedParticipants].
    rewrite decide_False by done. by apply Set_from_NoDup. }
  split; [exact Hall|]. rewrite <- Hall.
  apply (bulk_starts_every_sequence everyone w wid workshop); try done.
  - rewrite Hall. by destruct (Workshop.participants workshop).
  - rewrite Hall. apply Forall_forall. intros pId Hin.
    apply list_elem_of_fmap in Hin as (p & -> & Hp).
    apply Exists_exists. by exists p.
Qed.

Lemma select_all_then_issue_witness :
  map BadgeData.userId
      (badgeInserts
         (sent (march campus [Some (rejection outage)])
               (after (App.handleBulkIssueAwards (H := y2024)
                         (withSelection bens_screen
                            (App.handleSelectAll bens_screen
                               (Workshop.participants rocq_night_view))))
                      (march campus [Some (rejection outage)]))))
  = ["u-ben"; "u-cyd"].
Proof.
  refine (proj2 (select_all_then_issue (H := y2024) bens_screen
                   (march campus [Some (rejection outage)]) "w-1" rocq_night_view
                   eq_refl eq_refl _ _ _ (λ _, eq_refl))).
  - discriminate.
  - apply NoDup_cons. split; [|apply NoDup_singleton].
    intros Hin%list_elem_of_singleton. discriminate.
  - simpl. lia.
Defined.

(** ** Issuing awards to one participant *)

(** X25. [handleIssueAwards] always resolves and always shows exactly
    one alert.  The three requests (badge, certificate, notification)
    are sent one after the other and a rejected one ends the sequence:
    when the first rejection meets the request number i, exactly i + 1
    requests were sent and the alert reports that rejection; when none
    of the three is rejected all three are sent and the alert announces
    success. *)
Theorem issuance_reported_once `{DateApi} (participant : Participant.t)
    (workshop : Workshop.t) (w : World) :
  let w' := after (App.handleIssueAwards participant workshop) w in
  result (App.handleIssueAwards participant workshop) w = Resolved ()
  ∧ (∃ msg, alerts w w' = [msg])
  ∧ ((∀ i e, i < 3 → fault_at w i ≠ Some (rejection e)) →
     length (sent w w') = 3
     ∧ alerts w w'
       = ["Awards issued to " +:+ Participant.name participant +:+ " successfully!"])
  ∧ (∀ i e, i < 3 → fault_at w i = Some (rejection e) →
            (∀ j e', j < i → fault_at w j ≠ Some (rejection e')) →
            length (sent w w') = S i
            ∧ alerts w w' = ["Failed to issue awards: " +:+ formatError e]).
Proof.
  intros w'. subst w'.
  destruct w as [db session faults now answers trace].
  unfold App.handleIssueAwards, App.issueSequence, storageService.issueBadge,
    storageService.issueCertificate, storageService.sendNotification, ignore_reply,
    supabase, now_ISOString, result, after, fault_at.
  unfold_monad. cbn [w_faults w_db w_now w_trace w_session w_confirm].
  destruct faults as [|[[e0|e0]|] [|[[e1|e1]|] [|[[e2|e2]|] rest]]];
    cbn; trace_simpl;
    (split; [done|]); (split; [by eexists|]);
    (split;
     [intros Hnone;
      try (exfalso; by apply (Hnone 0 e0 ltac:(lia)));
      try (exfalso; by apply (Hnone 1 e1 ltac:(lia)));
      try (exfalso; by apply (Hnone 2 e2 ltac:(lia)));
      done
     |intros i e Hi Hreject Hfirst;
      destruct i as [|[|[|i]]]; try lia; simpl in Hreject; try done;
      try (injection Hreject as <-);
      try (exfalso; by apply (Hfirst 0 e0 ltac:(lia)));
      try (exfalso; by apply (Hfirst 1 e1 ltac:(lia)));
      done]).
Qed.

(** ** The assistant *)

Lemma truthy_default_nonempty (fallback : string) (text : option string) :
  fallback ≠ EmptyString → default fallback (truthy text) ≠ EmptyString.
Proof.
  intros Hf. unfold truthy. destruct text as [t|]; [|done].
  by destruct (decide (t = EmptyString)).
Qed.

Lemma generateChatResponse_text (trim : string → string)
    (generateContent : GenerateContentParameters.t → M (option string))
    (history : list Turn.t) (message : string) (w : World) :
  ∃ reply,
    result (geminiService.generateChatResponse trim generateContent history message) w
    = Resolved reply
    ∧ reply ≠ EmptyString
    ∧ (∀ cleaned text,
         geminiService.cleanHistory trim history = Some cleaned →
         result (generateContent
                   (GenerateContentParameters.mk "gemini-3-flash-preview"
                      (Conversation (cleaned ++ [Turn.mk "user" [message]]))
                      (Some "You are Echo, the AI assistant for Echo-mmunity. You help students manage workshops and awards. Be helpful, concise, and professional.")
                      (Some (7 # 10)%Q))) w
         = Resolved (Some text) →
         text ≠ EmptyString → reply = text).
Proof.
  unfold geminiService.generateChatResponse.
  rewrite result_try_catch, result_bind.
  destruct (geminiService.cleanHistory trim history) as [cleaned|].
  - rewrite result_ret, after_ret, result_bind.
    destruct (result (generateContent _) w) as [text|e] eqn:Hcall.
    + rewrite result_ret. eexists. split; [reflexivity|].
      split; [by apply truthy_default_nonempty|].
      intros cleaned' text' [= <-] Hreply Hne.
      rewrite Hcall in Hreply. injection Hreply as ->.
      unfold truthy. by rewrite decide_False.
    + eexists. split; [reflexivity|]. split; [done|].
      intros cleaned' text' [= <-] Hreply. by rewrite Hcall in Hreply.
  - eexists. split; [reflexivity|]. split; [done|]. done.
Qed.

(** X26. Once its client is constructed the assistant never fails and
    never answers with nothing: [generateWorkshopDescription] and
    [generateChatResponse] always resolve to a non-empty text, a stock
    sentence standing in when the model rejects, returns no text, or
    the history holds a turn without parts.  The model is asked with the turns of the history whose
    first part is not blank, in their order, followed by the user's
    message, and a non-empty text it returns is the answer.  In the
    chat widget a blank input changes nothing; any other input clears
    the field and appends exactly two messages, the user's and the
    answer. *)
Theorem assistant_always_answers (trim : string → string)
    (generateContent : GenerateContentParameters.t → M (option string))
    (w : World) :
  (∀ title org, ∃ text,
     result (geminiService.generateWorkshopDescription generateContent title org) w
     = Resolved text ∧ text ≠ EmptyString)
  ∧ (∀ history message, ∃ reply,
       result (geminiService.generateChatResponse trim generateContent history message) w
       = Resolved reply
       ∧ reply ≠ EmptyString
       ∧ (∀ cleaned text,
            geminiService.cleanHistory trim history = Some cleaned →
            result (generateContent
                      (GenerateContentParameters.mk "gemini-3-flash-preview"
                         (Conversation (cleaned ++ [Turn.mk "user" [message]]))
                         (Some "You are Echo, the AI assistant for Echo-mmunity. You help students manage workshops and awards. Be helpful, concise, and professional.")
                         (Some (7 # 10)%Q))) w
            = Resolved (Some text) →
            text ≠ EmptyString → reply = text))
  ∧ (∀ history,
       match geminiService.cleanHistory trim history with
       | Some cleaned =>
           cleaned = filter (λ h, default EmptyString (trim <$> head (Turn.parts h))
                                  ≠ EmptyString) history
           ∧ Forall (λ h, Turn.parts h ≠ []) history
       | None => Exists (λ h, Turn.parts h = []) history
       end)
  ∧ (∀ messages input,
       trim input = EmptyString →
       ChatWidget.handleSend trim generateContent messages input w
       = (Resolved (messages, input), w))
  ∧ (∀ messages input,
       trim input ≠ EmptyString →
       ∃ reply,
         result (ChatWidget.handleSend trim generateContent messages input) w
         = Resolved (messages ++ [ChatMessage.mk ChatRole.user input;
                                  ChatMessage.mk ChatRole.model reply],
                     EmptyString)
         ∧ reply ≠ EmptyString).
Proof.
  split; [|split; [|split; [|split]]].
  - intros title org. unfold geminiService.generateWorkshopDescription.
    rewrite result_try_catch, result_bind.
    destruct (result (generateContent _) w) as [text|e].
    + rewrite result_ret. eexists. split; [reflexivity|].
      by apply truthy_default_nonempty.
    + eexists. split; [reflexivity|]. done.
  - intros history message. apply generateChatResponse_text.
  - induction history as [|h rest IH]; [done|].
    cbn [geminiService.cleanHistory]. rewrite filter_cons.
    destruct (Turn.parts h) as [|text more] eqn:Hparts.
    + by apply Exists_cons_hd.
    + destruct (geminiService.cleanHistory trim rest) as [kept|].
      * destruct IH as [-> Hall]. split; [|constructor; [by rewrite Hparts|done]].
        simpl. destruct (decide (trim text = EmptyString)) as [Hblank|Hblank].
        -- by rewrite decide_False by (by intros Hne).
        -- by rewrite decide_True.
      * by apply Exists_cons_tl.
  - intros messages input Hblank. unfold ChatWidget.handleSend.
    by rewrite decide_True.
  - intros messages input Hinput. unfold ChatWidget.handleSend.
    rewrite decide_False by done. rewrite result_bind.
    destruct (generateChatResponse_text trim generateContent
                (map (λ m, Turn.mk (ChatRole_toString (ChatMessage.role m))
                                   [ChatMessage.text m]) messages) input w)
      as (reply & -> & Hreply & _).
    exists reply. rewrite result_ret. split; [|done].
    by rewrite <- app_assoc.
Qed.

(** ** A successful registration *)

(** X27. For a workshop on screen that has not started (or whose date
    does not parse: such a date never counts as expired) and a
    signed-in user who is not among its participants, a click on "Join
    Session" that the store accepts adds exactly one participation
    record, sends the user one unread "Registered!" notification
    quoting the workshop title, confirms with a single alert and asks
    for a refresh; when the user has a profile, the reloaded workshop
    lists the user among its participants. *)
Theorem registration_succeeds `{DateApi} (st : App.State) (wId : string) (w : World)
    (u : User.t) (ws : Workshop.t) :
  no_faults w →
  App.user st = Some u →
  Array_find (λ item, Workshop.id item = wId) (App.workshops st) = Some ws →
  (∀ t, Date_parse (Workshop.date ws) = Some t → (w_now w ≤ t)%Z) →
  Forall (λ p, Participant.id p ≠ User.id u) (Workshop.participants ws) →
  let w' := after (App.handleJoinWorkshop st wId) w in
  participations wId (User.id u) (w_db w')
  = participations wId (User.id u) (w_db w) + 1
  ∧ (∃ n, notificationsOf (w_db w') (User.id u)
          = notificationsOf (w_db w) (User.id u) ++ [n]
          ∧ notifications.title n = "Registered!"
          ∧ notifications.message n
            = "You've joined " +:+ dquote +:+ Workshop.title ws +:+ dquote
                +:+ ". See you there!"
          ∧ notifications.type n = SUCCESS
          ∧ notifications.is_read n = false)
  ∧ alerts w w' = ["Successfully registered!"]
  ∧ ticked w w' = true
  ∧ (is_Some (find_profile (w_db w) (User.id u)) →
     ∃ reloaded, result storageService.getWorkshops w' = Resolved reloaded
       ∧ ∀ shown, Array_find (λ item, Workshop.id item = wId) reloaded = Some shown →
                  Exists (λ p, Participant.id p = User.id u)
                         (Workshop.participants shown)).
Proof.
  intros Hw Hu Hfind Hdate Hnew w'. subst w'.
  assert (Hopen : isExpired (w_now w) (Workshop.date ws) = false).
  { destruct (isExpired _ _) eqn:Hex; [|done].
    apply isExpired_true in Hex as (t & Ht & Hlt). specialize (Hdate t Ht). lia. }
  assert (Hout : Array_some (λ p, Participant.id p = User.id u)
                            (Workshop.participants ws) = false).
  { destruct (Array_some _ _) eqn:Hin; [|done].
    apply (proj1 (Array_some_true _ _)) in Hin.
    apply Exists_exists in Hin as (p & Hp & Hid).
    rewrite Forall_forall in Hnew. by destruct (Hnew p Hp). }
  destruct w as [db session faults now answers trace].
  unfold no_faults in Hw. simpl in Hw, Hopen. subst faults.
  unfold App.handleJoinWorkshop. rewrite Hu, Hfind.
  unfold storageService.joinWorkshop, storageService.sendNotification,
    throw_on_error, ignore_reply, supabase, ticked, now_getTime.
  unfold_monad. cbn [w_now]. rewrite !Hopen, !Hout.
  cbn [w_faults w_db w_now w_trace w_session w_confirm fst snd tail
       data error no_content apply_request].
  destruct db as [ps bs cs ns wks wps cms ans acs als serial].
  unfold participations, notificationsOf.
  cbn [t_profiles t_badges t_certificates t_notifications t_workshops
       t_workshop_participants t_comments t_announcements t_announcement_comments
       t_announcement_likes t_serial].
  split.
  { rewrite filter_app, filter_cons, decide_True by done.
    rewrite length_app. simpl. lia. }
  split.
  { rewrite filter_app, filter_cons, decide_True by done.
    eexists. split; [reflexivity|]. done. }
  split; [trace_simpl; done|]. split; [trace_simpl; done|].
  intros Hprofile.
  match goal with
  | |- ∃ reloaded, fst (storageService.getWorkshops ?W) = _ ∧ _ =>
      exists (map mapWorkshop (answer_workshops (w_db W)));
      split; [exact (getWorkshops_ok W eq_refl)|]
  end.
  intros shown Hshown.
  eapply reload_shows_participant; [| |exact Hshown].
  - cbn [w_db t_workshop_participants].
    rewrite elem_of_app, list_elem_of_singleton. by right.
  - exact Hprofile.
Qed.

Lemma registration_succeeds_witness :
  participations "w-1" "u-ada"
    (w_db (after (App.handleJoinWorkshop (H := y2024) adas_screen "w-1")
                 (march campus [])))
  = 1.
Proof.
  refine (proj1 (registration_succeeds (H := y2024) adas_screen "w-1" (march campus [])
                   (asUser ada) rocq_night_view eq_refl eq_refl eq_refl _ _)).
  - intros t [= <-]. simpl. lia.
  - repeat constructor; discriminate.
Defined.

(** ** A like, as the feed shows it *)

Lemma feed_likes `{DateApi} (org : option Organization) (db : DB) :
  Forall (λ a, Announcement.likes a = likes_of db (Announcement.id a))
         (map mapAnnouncement (answer_announcements org db)).
Proof.
  unfold answer_announcements. rewrite <- list_fmap_compose, Forall_fmap.
  apply Forall_forall. intros a _. done.
Qed.

(** X28. A click on the heart that the store accepts is what the feed
    shows after the reload: for the signed-in user the announcement is
    liked exactly when it was not before, everybody else's like on it
    is as before, and the likes of every other announcement are
    unchanged.  Nothing is alerted and a refresh is requested. *)
Theorem like_shows_after_reload `{DateApi} (st : App.State) (u : User.t)
    (announcementId : string) (w : World) :
  no_faults w →
  App.user st = Some u →
  let liked := bool_decide (User.id u ∈ likes_of (w_db w) announcementId) in
  let w' := after (App.handleLike st announcementId liked) w in
  ticked w w' = true
  ∧ alerts w w' = []
  ∧ ∃ feed,
      result (storageService.getAnnouncements (App.orgFilter st)) w' = Resolved feed
      ∧ Forall (λ a,
          if decide (Announcement.id a = announcementId)
          then App.isLiked (Some u) a = negb liked
               ∧ ∀ v, v ≠ User.id u →
                      v ∈ Announcement.likes a ↔ v ∈ likes_of (w_db w) announcementId
          else Announcement.likes a = likes_of (w_db w) (Announcement.id a)) feed.
Proof.
  intros Hw Hu liked w'. subst w'.
  assert (Hliked : liked = bool_decide (User.id u ∈ likes_of (w_db w) announcementId))
    by done.
  clearbody liked.
  destruct (toggle_accepted announcementId (User.id u) liked w Hw) as [Hw' Hlikes].
  assert (Hrun : after (App.handleLike st announcementId liked) w
                 = after (emit setDataTick)
                     (after (storageService.toggleAnnouncementLike announcementId
                               (User.id u) liked) w)).
  { unfold App.handleLike. rewrite Hu. rewrite after_try_catch, result_bind, after_bind.
    assert (Hres : result (storageService.toggleAnnouncementLike announcementId
                             (User.id u) liked) w = Resolved ()).
    { unfold storageService.toggleAnnouncementLike, result.
      destruct liked; by rewrite (ignore_reply_ok _ _ Hw). }
    rewrite Hres. by rewrite result_emit. }
  set (w1 := after (storageService.toggleAnnouncementLike announcementId
                      (User.id u) liked) w) in *.
  assert (Htrace : ∃ r, w_trace w1 = w_trace w ++ [Sent r]).
  { unfold w1, storageService.toggleAnnouncementLike, after.
    destruct liked; rewrite (ignore_reply_ok _ _ Hw); by eexists. }
  destruct Htrace as [r Htrace].
  rewrite Hrun.
  split; [|split].
  - unfold ticked, since, after, emit. cbn [snd w_trace].
    rewrite Htrace, <- app_assoc, drop_app_length. done.
  - unfold alerts, since, after, emit. cbn [snd w_trace].
    rewrite Htrace, <- app_assoc, drop_app_length. done.
  - set (w2 := after (emit setDataTick) w1).
    assert (Hw2 : no_faults w2) by exact Hw'.
    exists (map mapAnnouncement (answer_announcements (App.orgFilter st) (w_db w2))).
    split; [by apply getAnnouncements_ok|].
    eapply Forall_impl; [apply feed_likes|].
    intros a Ha. cbv beta in Ha.
    change (w_db w2) with (w_db w1) in Ha.
    assert (Hmember : ∀ aid v,
              v ∈ likes_of (w_db w1) aid
              ↔ (if liked
                 then v ∈ likes_of (w_db w) aid ∧ ¬ (aid = announcementId ∧ v = User.id u)
                 else v ∈ likes_of (w_db w) aid ∨ (aid = announcementId ∧ v = User.id u))).
    { intros aid v. destruct liked; rewrite !liked_iff, Hlikes.
      - rewrite list_elem_of_filter. simpl. tauto.
      - rewrite elem_of_app, list_elem_of_singleton. split.
        + intros [?|[= -> ->]]; [by left|by right].
        + intros [?|[-> ->]]; [by left|by right]. }
    destruct (decide (Announcement.id a = announcementId)) as [Hid|Hid].
    + unfold App.isLiked. rewrite Ha, Hid. split.
      * destruct liked; symmetry in Hliked; simpl.
        -- apply bool_decide_eq_true in Hliked. apply bool_decide_eq_false.
           rewrite Hmember. tauto.
        -- apply bool_decide_eq_false in Hliked. apply bool_decide_eq_true.
           rewrite Hmember. tauto.
      * intros v Hv. rewrite Hmember. destruct liked; tauto.
    + rewrite Ha. unfold likes_of. rewrite Hlikes. destruct liked.
      * f_equal. apply filter_filter_other. simpl. intros x Hx [Hy _]. congruence.
      * rewrite filter_app, filter_cons, decide_False, filter_nil, app_nil_r; [done|].
        simpl. congruence.
Qed.

Lemma like_shows_after_reload_witness :
  ticked (mkWorld newsroom (Some "u-ben") [] 1709251200000%Z (λ _, true) [])
         (after (App.handleLike (H := y2024) bens_screen "a-1" true)
                (mkWorld newsroom (Some "u-ben") [] 1709251200000%Z (λ _, true) []))
  = true.
Proof.
  exact (proj1 (like_shows_after_reload (H := y2024) bens_screen (asUser ben) "a-1"
                  (mkWorld newsroom (Some "u-ben") [] 1709251200000%Z (λ _, true) [])
                  eq_refl eq_refl)).
Defined.

(** ** A comment, as the feed shows it *)

(** X29. A comment the store accepts from a signed-in user is sent as
    one insert carrying the announcement, the user's id and the text,
    followed by a request for a refresh.  In the reloaded feed the
    announcement's comments are the earlier ones followed by the new
    one, with the user's id, the text, and the name of the user's
    profile ("Unknown" without a profile); the comments of every other
    announcement are as before. *)
Theorem comment_posted `{DateApi} (st : App.State) (u : User.t)
    (announcementId content : string) (w : World) :
  no_faults w →
  App.user st = Some u →
  let w' := after (App.handleComment st announcementId content) w in
  since w w'
  = [Sent (insert_announcement_comment announcementId (User.id u) content); setDataTick]
  ∧ ∃ before feed,
      result (storageService.getAnnouncements (App.orgFilter st)) w = Resolved before
      ∧ result (storageService.getAnnouncements (App.orgFilter st)) w' = Resolved feed
      ∧ Forall2 (λ old new,
          Announcement.id new = Announcement.id old
          ∧ Announcement.likes new = Announcement.likes old
          ∧ if decide (Announcement.id old = announcementId)
            then ∃ c, Announcement.comments new = Announcement.comments old ++ [c]
                      ∧ AnnouncementComment.userId c = User.id u
                      ∧ AnnouncementComment.content c = content
                      ∧ AnnouncementComment.userName c
                        = or_Unknown (profiles.name <$> find_profile (w_db w) (User.id u))
            else Announcement.comments new = Announcement.comments old)
          before feed.
Proof.
  intros Hw Hu w'. subst w'.
  unfold App.handleComment. rewrite Hu.
  unfold storageService.addAnnouncementComment, after, try_catch, mbind, M_bind.
  rewrite (ignore_reply_ok _ _ Hw). cbn [emit snd fst].
  split.
  { unfold since, accepted. cbn [w_trace].
    by rewrite <- app_assoc, drop_app_length. }
  do 2 eexists. split; [by apply getAnnouncements_ok|].
  split; [by apply getAnnouncements_ok|].
  cbn [accepted w_db].
  destruct (w_db w) as [ps bs cs ns wks wps cms ans acs als serial].
  cbn [apply_request].
  unfold answer_announcements, find_profile.
  cbn [t_profiles t_announcements t_announcement_comments t_announcement_likes].
  set (shown := match App.orgFilter st with
                | Some o => filter (λ a, announcements.organization a = o) _
                | None => _
                end).
  rewrite <- !list_fmap_compose.
  apply Forall2_fmap, Forall_Forall2_diag, Forall_forall.
  intros a _. unfold compose, mapAnnouncement.
  cbn [announcements_select.a announcements_select.author
       announcements_select.announcement_comments announcements_select.announcement_likes
       Announcement.id Announcement.likes Announcement.comments].
  split; [done|]. split; [done|].
  rewrite filter_app, filter_cons. cbn [announcement_comments.announcement_id].
  destruct (decide (announcements.id a = announcementId)) as [Hid|Hid].
  - rewrite decide_True by done. rewrite filter_nil, !fmap_app.
    eexists. split; [reflexivity|]. done.
  - rewrite decide_False by congruence. by rewrite filter_nil, app_nil_r.
Qed.

Lemma comment_posted_witness :
  since (mkWorld newsroom (Some "u-ben") [] 1709251200000%Z (λ _, true) [])
        (after (App.handleComment (H := y2024) bens_screen "a-1" "Count me in")
               (mkWorld newsroom (Some "u-ben") [] 1709251200000%Z (λ _, true) []))
  = [Sent (insert_announcement_comment "a-1" "u-ben" "Count me in"); setDataTick].
Proof.
  exact (proj1 (comment_posted (H := y2024) bens_screen (asUser ben) "a-1" "Count me in"
                  (mkWorld newsroom (Some "u-ben") [] 1709251200000%Z (λ _, true) [])
                  eq_refl eq_refl)).
Defined.

(** ** Telling a user about a role change *)

Lemma save_then_notify_trace `{DateApi} (u : User.t) (uid title msg : string)
    (ty : NotificationType) (prefix : string) (w : World) :
  let update := update_profile (User.id u) (User.name u) (User.email u) (User.role u)
                  (User.officerOrg u) (User.avatarUrl u) in
  let notice := insert_notification uid title msg ty false in
  let w' := after (try_catch
                     (storageService.saveUser u;;
                      emit setDataTick;;
                      storageService.sendNotification uid title msg ty)
                     (λ e, emit (alert (prefix +:+ formatError e)))) w in
  (no_faults w → since w w' = [Sent update; setDataTick; Sent notice])
  ∧ (∀ e, fault_at w 0 = Some (error_reply e) →
          since w w' = [Sent update; alert (prefix +:+ formatError e)]
          ∧ w_db w' = w_db w)
  ∧ (∀ e, fault_at w 0 = None → fault_at w 1 = Some (rejection e) →
          since w w'
          = [Sent update; setDataTick; Sent notice; alert (prefix +:+ formatError e)]
          ∧ stored_role (w_db w') (User.id u) (User.role u) (User.officerOrg u)).
Proof.
  destruct w as [db session faults now answers trace].
  unfold no_faults, fault_at, after, storageService.saveUser,
    storageService.sendNotification, throw_on_error, ignore_reply, supabase.
  unfold_monad. cbn [w_faults w_db w_now w_trace w_session w_confirm].
  split; [|split].
  - intros ->. cbn. trace_simpl. done.
  - intros e. destruct faults as [|[[e'|e']|] faults]; simpl; try done.
    intros [= ->]. cbn. trace_simpl. done.
  - intros e. destruct faults as [|[[e'|e']|] [|[[e''|e'']|] faults]]; simpl; try done.
    intros _ [= ->]. cbn. split; [trace_simpl; done|]. apply updated_rows_stored.
Qed.

(** X30. A promotion or demotion that an admin confirmed and the store
    accepted is followed by a request for a refresh and by one
    notification to the user concerned: "Role Upgrade!" naming the new
    role and, when there is one, the organization, or "Role Change"
    naming the new role.  When the store refuses the profile update,
    nothing is stored, the refusal is alerted and the user is not
    notified.  When the update is stored but the notification is
    rejected, the new role stays stored and the refresh requested,
    while the alert reports the operation as failed. *)
Theorem role_change_notified `{DateApi} (st : App.State) (target : User.t) (w : World) :
  App.isAdmin (App.user st) = true →
  (∀ prompt, w_confirm w prompt = true) →
  let update (role : Role) (org : option Organization) :=
    update_profile (User.id target) (User.name target) (User.email target) role org
      (User.avatarUrl target) in
  let outcome (w' : World) (role : Role) (org : option Organization)
      (notice : Request) (prefix : string) :=
    (no_faults w → since w w' = [Sent (update role org); setDataTick; Sent notice])
    ∧ (∀ e, fault_at w 0 = Some (error_reply e) →
            since w w' = [Sent (update role org); alert (prefix +:+ formatError e)]
            ∧ w_db w' = w_db w)
    ∧ (∀ e, fault_at w 0 = None → fault_at w 1 = Some (rejection e) →
            since w w'
            = [Sent (update role org); setDataTick; Sent notice;
               alert (prefix +:+ formatError e)]
            ∧ stored_role (w_db w') (User.id target) role org) in
  match spec_promote (User.role target) (User.officerOrg target) with
  | Some (role, org) =>
      outcome (after (App.handlePromoteUser st target) w) role org
        (insert_notification (User.id target) "Role Upgrade!"
           ("You have been promoted to " +:+ Role_toString role
              +:+ match org with
                  | Some o => " for " +:+ Organization_toString o
                  | None => EmptyString
                  end
              +:+ ".") SUCCESS false)
        "Failed to update role: "
  | None => True
  end
  ∧ match spec_demote (User.role target) (User.officerOrg target) with
    | Some (role, org) =>
        outcome (after (App.handleDemoteUser st target) w) role org
          (insert_notification (User.id target) "Role Change"
             ("Your role has been updated to " +:+ Role_toString role +:+ ".")
             WARNING false)
          "Demote failed: "
    | None => True
    end.
Proof.
  intros Hadmin Hyes update outcome. subst outcome update. cbv beta.
  unfold after.
  rewrite (handlePromoteUser_run st target w Hadmin Hyes).
  rewrite (handleDemoteUser_run st target w Hadmin Hyes).
  split.
  - destruct (spec_promote _ _) as [[role org]|]; [|done].
    exact (save_then_notify_trace (with_role target role org) _ _ _ _ _ w).
  - destruct (spec_demote _ _) as [[role org]|]; [|done].
    exact (save_then_notify_trace (with_role target role org) _ _ _ _ _ w).
Qed.

Lemma role_change_notified_witness :
  since (march campus [])
        (after (App.handlePromoteUser (H := y2024) adas_screen (asUser ben))
               (march campus []))
  = [Sent (update_profile "u-ben" "Ben" "ben@campus.edu" OFFICER (Some GENERAL) None);
     setDataTick;
     Sent (insert_notification "u-ben" "Role Upgrade!"
             "You have been promoted to OFFICER for GENERAL." SUCCESS false)].
Proof.
  destruct (role_change_notified (H := y2024) adas_screen (asUser ben) (march campus [])
              eq_refl (λ _, eq_refl)) as [Hpromoted _].
  exact (proj1 Hpromoted eq_refl).
Defined.
